(** * macauff: counterpart pairing and perturbation-AUF creation

    A shallow embedding of [src/macauff/counterpart_pairing.py] and
    [src/macauff/perturbation_auf.py], followed by the properties proved
    about them.

    Conventions of the embedding.
    - A Python [float] / numpy [float64] is Rocq's primitive [float] (IEEE 754
      binary64, round to nearest even), so comparisons and [+ - * / sqrt] see
      NaN and the infinities exactly as numpy does.  numpy's transcendental
      functions and its pairwise float summation are parameters of the
      sections that use them.
    - Integers are [Z]; one-dimensional arrays are lists; a two-dimensional
      float array is a list of rows together with its number of columns.
    - A function that can raise returns [py A], an exception or a value.
    - Fortran routines ([*_fortran] modules) and helpers of other modules are
      parameters of the sections that call them.
    - The grid cutout of [group_sources.py], whose code is not among the
      sources, is modelled from the specification and its unit test.

    Part I holds the definitions, Part II the lemmas and theorems. *)

From Stdlib Require Import ZArith Bool String Ascii DecimalString QArith Lia Lqa List.
From Stdlib Require Import Floats.
Import ListNotations.

Set Warnings "-inexact-float".

Close Scope Q_scope.

(* ================================================================= *)
(** * Part I: the model *)
(* ================================================================= *)

(** ** Python values shared by both modules *)

Inductive exception : Type :=
| ValueError (msg : string)
| HTTPError (msg : string)
| OverflowError
| IndexError
| AttributeError
| NameError
| KeyError
| FileNotFoundError
| OSError.

Definition py (A : Type) : Type := (exception + A)%type.

Definition ret {A : Type} (a : A) : py A := inr a.

Definition raise {A : Type} (e : exception) : py A := inl e.

Definition bind {A B : Type} (m : py A) (k : A -> py B) : py B :=
  match m with
  | inl e => inl e
  | inr a => k a
  end.

Definition raises {A : Type} (m : py A) : bool :=
  match m with
  | inl _ => true
  | inr _ => false
  end.

Notation "x <- m ;; k" := (bind m (fun x => k))
  (at level 61, m at next level, right associativity).

(** A loop that builds one value for each entry of a list, in order. *)
Fixpoint for_each {A B : Type} (f : A -> py B) (xs : list A) : py (list B) :=
  match xs with
  | [] => ret []
  | x :: xs' => y <- f x ;; ys <- for_each f xs' ;; ret (y :: ys)
  end.

(** [str(n)] of a Python integer, as an f-string renders it. *)
Definition str_of_Z (z : Z) : string := NilZero.string_of_int (Z.to_int z).

(** ** numpy idioms *)

Module np.

(** Element-wise binary operation on two arrays of one shape. *)
Fixpoint map2 {A B C : Type} (f : A -> B -> C) (xs : list A) (ys : list B) : list C :=
  match xs, ys with
  | x :: xs', y :: ys' => f x y :: map2 f xs' ys'
  | _, _ => []
  end.

(** [m1 & m2] on boolean arrays. *)
Definition logical_and (m1 m2 : list bool) : list bool := map2 andb m1 m2.

(** [xs[m]]: boolean-mask indexing, the entries of [xs] whose mask is set. *)
Fixpoint compress {A : Type} (m : list bool) (xs : list A) : list A :=
  match m, xs with
  | b :: m', x :: xs' => if b then x :: compress m' xs' else compress m' xs'
  | _, _ => []
  end.

(** A two-dimensional float array of shape [(length rows, ncols)]. *)
Record array2 : Type := mk_array2 { ncols : nat; rows : list (list float) }.

(** [a[:, m]]: the mask applied along the second axis. *)
Definition compress_cols (m : list bool) (a : array2) : array2 :=
  mk_array2 (length (filter (fun b => b) (firstn (ncols a) m)))
            (map (compress m) (rows a)).

(** [np.all(cond(a), axis=0)]: per column, whether every row satisfies [cond]. *)
Definition all_axis0 (cond : float -> bool) (a : array2) : list bool :=
  fold_right logical_and (repeat true (ncols a)) (map (map cond) (rows a)).

(** [np.sum] of a boolean array, as [int(np.sum(m))] reads it. *)
Definition sum_bool (m : list bool) : Z :=
  fold_right (fun (b : bool) acc => (if b then 1 else 0) + acc)%Z 0%Z m.

(** [np.sum] of an integer array. *)
Definition sum_Z (xs : list Z) : Z := fold_right Z.add 0%Z xs.

(** [np.minimum] of two integer arrays. *)
Definition minimum_Z (xs ys : list Z) : list Z := map2 Z.min xs ys.

(** [np.cumsum]: running sums, accumulated left to right. *)
Fixpoint cumsum_from (acc : float) (xs : list float) : list float :=
  match xs with
  | [] => []
  | x :: xs' => let acc' := (acc + x)%float in acc' :: cumsum_from acc' xs'
  end.

Definition cumsum (xs : list float) : list float :=
  match xs with
  | [] => []
  | x :: xs' => x :: cumsum_from x xs'
  end.

(** [np.where(m)[0]]: the positions at which the mask is set, ascending. *)
Fixpoint where_from (i : nat) (m : list bool) : list nat :=
  match m with
  | [] => []
  | b :: m' => if b then i :: where_from (S i) m' else where_from (S i) m'
  end.

Definition where_ (m : list bool) : list nat := where_from 0 m.

(** [np.maximum] on two floats: the first argument when it is the larger or
    is NaN, otherwise the second (so a NaN on either side is returned). *)
Definition maximum1 (x y : float) : float :=
  if (y <=? x)%float || PrimFloat.is_nan x then x else y.

Definition maximum (xs ys : list float) : list float := map2 maximum1 xs ys.

(** A binary operation on two one-dimensional arrays, with numpy's
    broadcasting: equal lengths pair up, a length-one array is stretched. *)
Definition broadcast2 {A B C : Type} (f : A -> B -> C) (xs : list A) (ys : list B)
  : py (list C) :=
  if Nat.eqb (length xs) (length ys) then ret (map2 f xs ys)
  else match xs, ys with
       | [x], _ => ret (map (f x) ys)
       | _, [y] => ret (map (fun x => f x y) xs)
       | _, _ => raise (ValueError "operands could not be broadcast together")
       end.

(** [xs[i]] for [i >= 0], and [xs[-1]]. *)
Definition item {A : Type} (i : nat) (xs : list A) : py A :=
  match nth_error xs i with
  | Some x => ret x
  | None => raise IndexError
  end.

Definition item_last {A : Type} (xs : list A) : py A :=
  match rev xs with
  | x :: _ => ret x
  | [] => raise IndexError
  end.

(** [np.minimum] and [np.maximum] folded over an array: [np.amin] and
    [np.amax], which raise on an empty array and return NaN if one occurs. *)
Definition minimum1 (x y : float) : float :=
  if (x <=? y)%float || PrimFloat.is_nan x then x else y.

Definition amin (xs : list float) : py float :=
  match xs with
  | [] => raise (ValueError "zero-size array to reduction operation minimum which has no identity")
  | x :: xs' => ret (fold_left minimum1 xs' x)
  end.

Definition amax (xs : list float) : py float :=
  match xs with
  | [] => raise (ValueError "zero-size array to reduction operation maximum which has no identity")
  | x :: xs' => ret (fold_left maximum1 xs' x)
  end.

(** [xs[m] = vs]: the entries selected by the mask take the values of [vs]
    in order. *)
Fixpoint put_mask {A : Type} (m : list bool) (vs : list A) (xs : list A) : list A :=
  match m, xs with
  | b :: m', x :: xs' =>
      if b then match vs with
                | v :: vs' => v :: put_mask m' vs' xs'
                | [] => x :: put_mask m' [] xs'
                end
      else x :: put_mask m' vs xs'
  | _, _ => xs
  end.

(** [xs[m] = v] with a scalar [v]. *)
Fixpoint fill_mask {A : Type} (m : list bool) (v : A) (xs : list A) : list A :=
  match m, xs with
  | b :: m', x :: xs' => (if b then v else x) :: fill_mask m' v xs'
  | _, _ => xs
  end.

(** [zip(xs[:-1], xs[1:])] *)
Fixpoint consecutive {A : Type} (xs : list A) : list (A * A) :=
  match xs with
  | x :: ((y :: _) as xs') => (x, y) :: consecutive xs'
  | _ => []
  end.

(** [np.pi] *)
Definition pi : float := 0x1.921fb54442d18p+1%float.

(** [np.zeros(n)], [np.ones(n)] and their [(n, m)] forms. *)
Definition zeros (n : nat) : list float := repeat 0%float n.

Definition ones (n : nat) : list float := repeat 1%float n.

Definition zeros2 (n m : nat) : array2 := mk_array2 m (repeat (zeros m) n).

Definition ones2 (n m : nat) : array2 := mk_array2 m (repeat (ones m) n).

(** An array of any of the kinds the sources store or save. *)
Inductive ndarray : Type :=
| Ints (v : list Z)
| Floats (v : list float)
| Floats2 (v : array2).

End np.

(* ----------------------------------------------------------------- *)
(** ** counterpart_pairing.py *)
(* ----------------------------------------------------------------- *)

Module counterpart_pairing.

(** An array as [np.save] receives it. *)
Definition npy : Type := np.ndarray.

(** The outputs of [make_island_groupings] that [source_pairing] reads
    itself; [alist] and [blist] only travel on to the Fortran routine. *)
Record group_sources_data : Type := {
  agrplen : list Z;
  bgrplen : list Z;
  lenrejecta : Z;
  lenrejectb : Z
}.

(** The 22 arrays returned by [cpf.find_island_probabilities], in the order
    of the tuple the source unpacks. *)
Record island_probabilities : Type := {
  acountinds : list Z;
  bcountinds : list Z;
  afieldinds : list Z;
  bfieldinds : list Z;
  acontamprob : np.array2;
  bcontamprob : np.array2;
  etaarray : list float;
  xiarray : list float;
  acontamflux : list float;
  bcontamflux : list float;
  probcarray : list float;
  crptseps : list float;
  probfaarray : list float;
  afieldfluxs : list float;
  afieldseps : list float;
  afieldetas : list float;
  afieldxis : list float;
  probfbarray : list float;
  bfieldfluxs : list float;
  bfieldseps : list float;
  bfieldetas : list float;
  bfieldxis : list float
}.

(** What the function leaves behind: the files written by [np.save], oldest
    first, and the warnings issued by [warnings.warn]. *)
Record world : Type := {
  files : list (string * npy);
  warnings : list string
}.

Definition np_save (path : string) (a : npy) (w : world) : world :=
  {| files := files w ++ [(path, a)]; warnings := warnings w |}.

Definition warn (msg : string) (w : world) : world :=
  {| files := files w; warnings := warnings w ++ [msg] |}.

(** The content of a file: its most recent [np.save]. *)
Fixpoint np_load (path : string) (fs : list (string * npy)) : option npy :=
  match fs with
  | [] => None
  | (p, a) :: fs' =>
      match np_load path fs' with
      | Some a' => Some a'
      | None => if String.eqb p path then Some a else None
      end
  end.

(** [x < large_len+1], element-wise. *)
Definition below_sentinel (large_len : Z) (inds : list Z) : list bool :=
  map (fun x => (x <? large_len + 1)%Z) inds.

(** [x >= 0] and [x >= -30] on float64. *)
Definition ge0 (x : float) : bool := (0 <=? x)%float.

Definition ge_m30 (x : float) : bool := (-30 <=? x)%float.

(** Lines 135-139. Python's [&] associates to the left. *)
Definition countfilter (large_len : Z) (o : island_probabilities) : list bool :=
  np.logical_and (np.logical_and (np.logical_and (np.logical_and
    (np.logical_and (np.logical_and (np.logical_and (np.logical_and
      (below_sentinel large_len (acountinds o))
      (below_sentinel large_len (bcountinds o)))
      (np.all_axis0 ge0 (acontamprob o)))
      (np.all_axis0 ge0 (bcontamprob o)))
      (map ge0 (acontamflux o)))
      (map ge0 (bcontamflux o)))
      (map ge0 (probcarray o)))
      (map ge_m30 (etaarray o)))
      (map ge_m30 (xiarray o)).

(** Line 141. *)
Definition afieldfilter (large_len : Z) (o : island_probabilities) : list bool :=
  np.logical_and (below_sentinel large_len (afieldinds o)) (map ge0 (probfaarray o)).

(** Line 143. *)
Definition bfieldfilter (large_len : Z) (o : island_probabilities) : list bool :=
  np.logical_and (below_sentinel large_len (bfieldinds o)) (map ge0 (probfbarray o)).

(** The three lists zipped by the loop of lines 154-165. *)
Definition file_names : list string :=
  ["ac"; "bc"; "pacontam"; "pbcontam"; "acontamflux"; "bcontamflux"; "af"; "bf"; "pc"; "eta";
   "xi"; "pfa"; "pfb"; "afieldflux"; "bfieldflux"; "crptseps"; "afieldseps"; "afieldeta";
   "afieldxi"; "bfieldseps"; "bfieldeta"; "bfieldxi"]%string.

Definition variables (o : island_probabilities) : list npy :=
  [np.Ints (acountinds o); np.Ints (bcountinds o); np.Floats2 (acontamprob o); np.Floats2 (bcontamprob o);
   np.Floats (acontamflux o); np.Floats (bcontamflux o); np.Ints (afieldinds o);
   np.Ints (bfieldinds o); np.Floats (probcarray o); np.Floats (etaarray o); np.Floats (xiarray o);
   np.Floats (probfaarray o); np.Floats (probfbarray o); np.Floats (afieldfluxs o);
   np.Floats (bfieldfluxs o); np.Floats (crptseps o); np.Floats (afieldseps o); np.Floats (afieldetas o);
   np.Floats (afieldxis o); np.Floats (bfieldseps o); np.Floats (bfieldetas o);
   np.Floats (bfieldxis o)].

Definition filter_variables (cf af bf : list bool) : list (list bool) :=
  [cf; cf; cf; cf; cf; cf;
   af; bf; cf; cf; cf; af;
   bf; af; bf; cf; af; af;
   af; bf; bf; bf].

(** [variable[filter_variable]]: the mask along the first axis. On a
    two-dimensional array that axis is the row axis. *)
Definition index_rows (variable : npy) (m : list bool) : npy :=
  match variable with
  | np.Ints v => np.Ints (np.compress m v)
  | np.Floats v => np.Floats (np.compress m v)
  | np.Floats2 a => np.Floats2 (np.mk_array2 (np.ncols a) (np.compress m (np.rows a)))
  end.

(** [variable[:, filter_variable]]; only the two-dimensional arrays are ever
    indexed this way. *)
Definition index_cols (variable : npy) (m : list bool) : npy :=
  match variable with
  | np.Floats2 a => np.Floats2 (np.compress_cols m a)
  | other => other
  end.

(** The body of the loop, lines 167-171. *)
Definition save_one (joint_folder_path : string)
  (entry : string * npy * list bool) (w : world) : world :=
  let '(file_name, variable, filter_variable) := entry in
  let temp_variable :=
    if (String.eqb file_name "pacontam" || String.eqb file_name "pbcontam")%bool
    then index_cols variable filter_variable
    else index_rows variable filter_variable in
  np_save (joint_folder_path ++ "/pairing/" ++ file_name ++ ".npy")%string temp_variable w.

Definition save_all (joint_folder_path : string)
  (plan : list (string * npy * list bool)) (w : world) : world :=
  fold_left (fun w' entry => save_one joint_folder_path entry w') plan w.

(** The plural suffix chosen inside the f-strings. *)
Definition plural (n : Z) (many one : string) : string :=
  if (n >? 1)%Z then many else one.

(** Lines 173-180 and 181-188: the two warnings of one catalogue. *)
Definition missing_message (cat tail : string) (n : Z) : string :=
  (str_of_Z n ++ " catalogue " ++ cat ++ " source" ++ plural n "s" ""
   ++ " not in either counterpart, field, or rejected source lists" ++ tail)%string.

Definition additional_message (cat : string) (n : Z) : string :=
  (str_of_Z n ++ " additional catalogue " ++ cat ++ " " ++ plural n "indices" "index"
   ++ " recorded, check results for duplications carefully")%string.

Definition check_totals (cat tail : string) (tot big_len : Z) (w : world) : world :=
  let w1 := if (tot <? big_len)%Z
            then warn (missing_message cat tail (big_len - tot)) w else w in
  if (tot >? big_len)%Z
  then warn (additional_message cat (tot - big_len)) w1 else w1.

(** The arguments [source_pairing] inspects itself. Everything else it is
    given (photometry, likelihood tables, model reference indices, AUF grids,
    [rho], [drho], [n_fracs]) is only handed to the Fortran routine. *)
Record pairing_inputs : Type := {
  joint_folder_path : string;
  a_astro : list (list float);
  b_astro : list (list float);
  group_sources : group_sources_data
}.

Section SourcePairing.

(** [cpf.find_island_probabilities], called with [large_len] and
    [cprt_max_len] as its last two arguments. *)
Variable find_island_probabilities : pairing_inputs -> Z -> Z -> island_probabilities.

Definition large_len_of (i : pairing_inputs) : Z :=
  Z.max (Z.of_nat (length (a_astro i))) (Z.of_nat (length (b_astro i))).

Definition cprt_max_len_of (i : pairing_inputs) : Z :=
  np.sum_Z (np.minimum_Z (agrplen (group_sources i)) (bgrplen (group_sources i))).

Definition source_pairing (i : pairing_inputs) (w : world) : world :=
  let big_len_a := Z.of_nat (length (a_astro i)) in
  let big_len_b := Z.of_nat (length (b_astro i)) in
  let large_len := Z.max big_len_a big_len_b in
  let cprt_max_len := cprt_max_len_of i in
  let o := find_island_probabilities i large_len cprt_max_len in
  let cf := countfilter large_len o in
  let af := afieldfilter large_len o in
  let bf := bfieldfilter large_len o in
  let countsum := np.sum_bool cf in
  let afieldsum := np.sum_bool af in
  let bfieldsum := np.sum_bool bf in
  let w1 := save_all (joint_folder_path i)
              (combine (combine file_names (variables o)) (filter_variables cf af bf)) w in
  let tot_a := (countsum + afieldsum + lenrejecta (group_sources i))%Z in
  let w2 := check_totals "a" "" tot_a big_len_a w1 in
  let tot_b := (countsum + bfieldsum + lenrejectb (group_sources i))%Z in
  check_totals "b" "." tot_b big_len_b w2.

(** The quantities the statements of Part II speak of: the arrays returned
    by the Fortran routine, and the two totals compared with the catalogue
    lengths. *)
Definition probabilities_of (i : pairing_inputs) : island_probabilities :=
  find_island_probabilities i (large_len_of i) (cprt_max_len_of i).

Definition total_a (i : pairing_inputs) : Z :=
  (np.sum_bool (countfilter (large_len_of i) (probabilities_of i))
   + np.sum_bool (afieldfilter (large_len_of i) (probabilities_of i))
   + lenrejecta (group_sources i))%Z.

Definition total_b (i : pairing_inputs) : Z :=
  (np.sum_bool (countfilter (large_len_of i) (probabilities_of i))
   + np.sum_bool (bfieldfilter (large_len_of i) (probabilities_of i))
   + lenrejectb (group_sources i))%Z.

End SourcePairing.

(** The path of a saved array. *)
Definition pairing_file (folder file_name : string) : string :=
  (folder ++ "/pairing/" ++ file_name ++ ".npy")%string.

(** [entry xs k P]: the array has a [k]-th entry, and it satisfies [P]. *)
Definition entry {A : Type} (xs : list A) (k : nat) (P : A -> Prop) : Prop :=
  exists x, nth_error xs k = Some x /\ P x.

(** [column_entries a k P]: [k] is a column of the two-dimensional array, and
    every row satisfies [P] there. *)
Definition column_entries (a : np.array2) (k : nat) (P : float -> Prop) : Prop :=
  k < np.ncols a /\ forall row, In row (np.rows a) -> entry row k P.

(** The rows of the mask [m] that are set, among the first [n]. *)
Definition kept_rows (m : list bool) (n : nat) : list nat :=
  filter (fun k => nth k m false) (seq 0 n).

(** The entries of [xs] at the rows [ks]. *)
Definition gather {A : Type} (xs : list A) (ks : list nat) : list A :=
  flat_map (fun k => match nth_error xs k with
                     | Some x => [x]
                     | None => []
                     end) ks.

(** Of an array, the rows whose filter is set ([rows_kept]); of a
    two-dimensional array, the columns whose filter is set ([columns_kept]). *)
Definition rows_kept (variable : npy) (m : list bool) : npy :=
  match variable with
  | np.Ints v => np.Ints (gather v (kept_rows m (length v)))
  | np.Floats v => np.Floats (gather v (kept_rows m (length v)))
  | np.Floats2 a => np.Floats2 (np.mk_array2 (np.ncols a) (gather (np.rows a) (kept_rows m (length (np.rows a)))))
  end.

Definition columns_kept (a : np.array2) (m : list bool) : npy :=
  np.Floats2 (np.mk_array2 (length (kept_rows m (np.ncols a)))
                (map (fun row => gather row (kept_rows m (length row))) (np.rows a))).

Definition saved_arrays (L : Z) (o : island_probabilities) (folder : string) : list (string * npy) :=
  let cf := countfilter L o in
  let af := afieldfilter L o in
  let bf := bfieldfilter L o in
  [(pairing_file folder "ac", rows_kept (np.Ints (acountinds o)) cf);
   (pairing_file folder "bc", rows_kept (np.Ints (bcountinds o)) cf);
   (pairing_file folder "pacontam", columns_kept (acontamprob o) cf);
   (pairing_file folder "pbcontam", columns_kept (bcontamprob o) cf);
   (pairing_file folder "acontamflux", rows_kept (np.Floats (acontamflux o)) cf);
   (pairing_file folder "bcontamflux", rows_kept (np.Floats (bcontamflux o)) cf);
   (pairing_file folder "af", rows_kept (np.Ints (afieldinds o)) af);
   (pairing_file folder "bf", rows_kept (np.Ints (bfieldinds o)) bf);
   (pairing_file folder "pc", rows_kept (np.Floats (probcarray o)) cf);
   (pairing_file folder "eta", rows_kept (np.Floats (etaarray o)) cf);
   (pairing_file folder "xi", rows_kept (np.Floats (xiarray o)) cf);
   (pairing_file folder "pfa", rows_kept (np.Floats (probfaarray o)) af);
   (pairing_file folder "pfb", rows_kept (np.Floats (probfbarray o)) bf);
   (pairing_file folder "afieldflux", rows_kept (np.Floats (afieldfluxs o)) af);
   (pairing_file folder "bfieldflux", rows_kept (np.Floats (bfieldfluxs o)) bf);
   (pairing_file folder "crptseps", rows_kept (np.Floats (crptseps o)) cf);
   (pairing_file folder "afieldseps", rows_kept (np.Floats (afieldseps o)) af);
   (pairing_file folder "afieldeta", rows_kept (np.Floats (afieldetas o)) af);
   (pairing_file folder "afieldxi", rows_kept (np.Floats (afieldxis o)) af);
   (pairing_file folder "bfieldseps", rows_kept (np.Floats (bfieldseps o)) bf);
   (pairing_file folder "bfieldeta", rows_kept (np.Floats (bfieldetas o)) bf);
   (pairing_file folder "bfieldxi", rows_kept (np.Floats (bfieldxis o)) bf)].

(** The checks of lines 135-139 on row [k] of the counterpart arrays, and of
    lines 141 and 143 on row [k] of the field arrays of one catalogue. *)
Definition counterpart_row_valid (L : Z) (o : island_probabilities) (k : nat) : Prop :=
  entry (acountinds o) k (fun x => (x < L + 1)%Z)
  /\ entry (bcountinds o) k (fun x => (x < L + 1)%Z)
  /\ column_entries (acontamprob o) k (fun p => (0 <=? p)%float = true)
  /\ column_entries (bcontamprob o) k (fun p => (0 <=? p)%float = true)
  /\ entry (acontamflux o) k (fun f => (0 <=? f)%float = true)
  /\ entry (bcontamflux o) k (fun f => (0 <=? f)%float = true)
  /\ entry (probcarray o) k (fun p => (0 <=? p)%float = true)
  /\ entry (etaarray o) k (fun e => (-30 <=? e)%float = true)
  /\ entry (xiarray o) k (fun x => (-30 <=? x)%float = true).

Definition field_row_valid (L : Z) (inds : list Z) (prob : list float) (k : nat) : Prop :=
  entry inds k (fun x => (x < L + 1)%Z)
  /\ entry prob k (fun p => (0 <=? p)%float = true).

(** Every index of a saved integer array is below the sentinel. *)
Definition index_array_below (L : Z) (f : string * npy) : Prop :=
  match snd f with
  | np.Ints v => Forall (fun x => (x < L + 1)%Z) v
  | _ => True
  end.

(** The warning a catalogue gets: for a shortfall, for an excess, or none. *)
Definition mismatch_warning (cat tail : string) (tot big_len : Z) : list string :=
  if (tot <? big_len)%Z then [missing_message cat tail (big_len - tot)]
  else if (tot >? big_len)%Z then [additional_message cat (tot - big_len)]
  else [].

(** A candidate pair whose two indices are real but whose [eta] is below
    [-30]: the row is dropped although no sentinel marks it. *)
Definition weak_pair : island_probabilities :=
  {| acountinds := [0%Z]; bcountinds := [0%Z]; afieldinds := []; bfieldinds := [];
     acontamprob := np.mk_array2 1 [[0%float]; [0%float]];
     bcontamprob := np.mk_array2 1 [[0%float]; [0%float]];
     etaarray := [(-31)%float]; xiarray := [0%float];
     acontamflux := [0%float]; bcontamflux := [0%float];
     probcarray := [0.5%float]; crptseps := [0.1%float];
     probfaarray := []; afieldfluxs := []; afieldseps := []; afieldetas := [];
     afieldxis := []; probfbarray := []; bfieldfluxs := []; bfieldseps := [];
     bfieldetas := []; bfieldxis := [] |}.

(** A run with two sources in catalogue "a" and one in "b": one real pair,
    and a second row of the counterpart arrays left at the sentinel 3. *)
Definition padded_pair : island_probabilities :=
  {| acountinds := [0%Z; 3%Z]; bcountinds := [0%Z; 3%Z];
     afieldinds := [1%Z; 3%Z]; bfieldinds := [3%Z];
     acontamprob := np.mk_array2 2 [[0%float; 0%float]; [0%float; 0%float]];
     bcontamprob := np.mk_array2 2 [[0%float; 0%float]; [0%float; 0%float]];
     etaarray := [1%float; 0%float]; xiarray := [1%float; 0%float];
     acontamflux := [0%float; 0%float]; bcontamflux := [0%float; 0%float];
     probcarray := [0.5%float; 0%float]; crptseps := [0.1%float; 0%float];
     probfaarray := [0.5%float; 0%float]; afieldfluxs := [0%float; 0%float];
     afieldseps := [0%float; 0%float]; afieldetas := [0%float; 0%float];
     afieldxis := [0%float; 0%float]; probfbarray := [0%float];
     bfieldfluxs := [0%float]; bfieldseps := [0%float]; bfieldetas := [0%float];
     bfieldxis := [0%float] |}.

Definition two_and_one : pairing_inputs :=
  {| joint_folder_path := "joint";
     a_astro := [[0%float; 0%float; 0.1%float]; [1%float; 1%float; 0.1%float]];
     b_astro := [[0%float; 0%float; 0.1%float]];
     group_sources := {| agrplen := [1%Z; 1%Z]; bgrplen := [1%Z; 0%Z];
                         lenrejecta := 0; lenrejectb := 0 |} |}.

Definition empty_world : world := {| files := []; warnings := [] |}.

(** The number of sources an output array holds: its length, or the number
    of columns of a two-dimensional array, whose rows are the relative
    fluxes. *)
Definition n_sources_of (a : npy) : Z :=
  match a with
  | np.Ints v => Z.of_nat (length v)
  | np.Floats v => Z.of_nat (length v)
  | np.Floats2 v => Z.of_nat (np.ncols v)
  end.

(** A candidate pair with real indices whose [eta] is NaN. *)
Definition undefined_pair : island_probabilities :=
  {| acountinds := [0%Z]; bcountinds := [0%Z]; afieldinds := []; bfieldinds := [];
     acontamprob := np.mk_array2 1 [[0%float]; [0%float]];
     bcontamprob := np.mk_array2 1 [[0%float]; [0%float]];
     etaarray := [nan]; xiarray := [0%float];
     acontamflux := [0%float]; bcontamflux := [0%float];
     probcarray := [0.5%float]; crptseps := [0.1%float];
     probfaarray := []; afieldfluxs := []; afieldseps := []; afieldetas := [];
     afieldxis := []; probfbarray := []; bfieldfluxs := []; bfieldseps := [];
     bfieldetas := []; bfieldxis := [] |}.

End counterpart_pairing.

(* ----------------------------------------------------------------- *)
(** ** perturbation_auf.py *)
(* ----------------------------------------------------------------- *)

Module perturbation_auf.

(** *** make_perturb_aufs: its keyword arguments *)

(** An argument left at its default is [None]. *)
Record config : Type := {
  include_perturb_auf : bool;
  j0s : option np.array2;
  tri_download_flag : bool;
  delta_mag_cuts : option (list float);
  psf_fwhms : option (list float);
  tri_set_name : option string;
  tri_filt_num : option Z;
  tri_filt_names : option (list string);
  tri_maglim_faint : option float;
  tri_num_faint : option Z;
  auf_region_frame : option string;
  num_trials : option Z;
  d_mag : option float;
  density_radius : option float;
  run_fw : option bool;
  run_psf : option bool;
  dd_params : option np.array2;
  l_cut : option (list float);
  snr_mag_params : option (list np.array2);
  al_avs : option (list float);
  fit_gal_flag : option bool;
  cmau_array : option (list np.array2);
  wavs : option (list float);
  z_maxs : option (list float);
  nzs : option (list Z);
  ab_offsets : option (list float);
  filter_names : option (list string);
  alpha0 : option np.array2;
  alpha1 : option np.array2;
  alpha_weight : option np.array2
}.

(** [x is None] *)
Definition is_None {A : Type} (x : option A) : bool :=
  match x with
  | None => true
  | Some _ => false
  end.

(** Truth value of an optional flag: [None] and [False] are false. *)
Definition truthy (x : option bool) : bool :=
  match x with
  | Some b => b
  | None => false
  end.

(** [if cond: raise ValueError(msg)] *)
Definition raise_if (cond : bool) (msg : string) : py unit :=
  if cond then raise (ValueError msg) else ret tt.

(** Lines 222-224 and 227-229: the place-holders handed to Fortran when only
    the flux-weighted algorithm runs. *)
Definition with_dd_params (c : config) (v : np.array2) : config :=
  {| include_perturb_auf := include_perturb_auf c; j0s := j0s c;
     tri_download_flag := tri_download_flag c; delta_mag_cuts := delta_mag_cuts c;
     psf_fwhms := psf_fwhms c; tri_set_name := tri_set_name c;
     tri_filt_num := tri_filt_num c; tri_filt_names := tri_filt_names c;
     tri_maglim_faint := tri_maglim_faint c; tri_num_faint := tri_num_faint c;
     auf_region_frame := auf_region_frame c; num_trials := num_trials c;
     d_mag := d_mag c; density_radius := density_radius c; run_fw := run_fw c;
     run_psf := run_psf c; dd_params := Some v; l_cut := l_cut c;
     snr_mag_params := snr_mag_params c; al_avs := al_avs c;
     fit_gal_flag := fit_gal_flag c; cmau_array := cmau_array c; wavs := wavs c;
     z_maxs := z_maxs c; nzs := nzs c; ab_offsets := ab_offsets c;
     filter_names := filter_names c; alpha0 := alpha0 c; alpha1 := alpha1 c;
     alpha_weight := alpha_weight c |}.

Definition with_l_cut (c : config) (v : list float) : config :=
  {| include_perturb_auf := include_perturb_auf c; j0s := j0s c;
     tri_download_flag := tri_download_flag c; delta_mag_cuts := delta_mag_cuts c;
     psf_fwhms := psf_fwhms c; tri_set_name := tri_set_name c;
     tri_filt_num := tri_filt_num c; tri_filt_names := tri_filt_names c;
     tri_maglim_faint := tri_maglim_faint c; tri_num_faint := tri_num_faint c;
     auf_region_frame := auf_region_frame c; num_trials := num_trials c;
     d_mag := d_mag c; density_radius := density_radius c; run_fw := run_fw c;
     run_psf := run_psf c; dd_params := dd_params c; l_cut := Some v;
     snr_mag_params := snr_mag_params c; al_avs := al_avs c;
     fit_gal_flag := fit_gal_flag c; cmau_array := cmau_array c; wavs := wavs c;
     z_maxs := z_maxs c; nzs := nzs c; ab_offsets := ab_offsets c;
     filter_names := filter_names c; alpha0 := alpha0 c; alpha1 := alpha1 c;
     alpha_weight := alpha_weight c |}.

(** Lines 194-256, in the order of the source. The result is the
    configuration as the rest of the function sees it. *)
Definition check_arguments (c : config) : py config :=
  let inc := include_perturb_auf c in
  _ <- raise_if (inc && is_None (tri_set_name c))
         "tri_set_name must be given if include_perturb_auf is True." ;;
  _ <- raise_if (inc && is_None (tri_filt_num c))
         "tri_filt_num must be given if include_perturb_auf is True." ;;
  _ <- raise_if (inc && is_None (tri_filt_names c))
         "tri_filt_names must be given if include_perturb_auf is True." ;;
  _ <- raise_if (inc && is_None (tri_maglim_faint c))
         "tri_maglim_faint must be given if include_perturb_auf is True." ;;
  _ <- raise_if (inc && is_None (tri_num_faint c))
         "tri_num_faint must be given if include_perturb_auf is True." ;;
  _ <- raise_if (inc && is_None (auf_region_frame c))
         "auf_region_frame must be given if include_perturb_auf is True." ;;
  _ <- raise_if (inc && is_None (delta_mag_cuts c))
         "delta_mag_cuts must be given if include_perturb_auf is True." ;;
  _ <- raise_if (inc && is_None (psf_fwhms c))
         "psf_fwhms must be given if include_perturb_auf is True." ;;
  _ <- raise_if (inc && is_None (num_trials c))
         "num_trials must be given if include_perturb_auf is True." ;;
  _ <- raise_if (inc && is_None (j0s c))
         "j0s must be given if include_perturb_auf is True." ;;
  _ <- raise_if (inc && is_None (d_mag c))
         "d_mag must be given if include_perturb_auf is True." ;;
  _ <- raise_if (inc && is_None (run_fw c))
         "run_fw must be given if include_perturb_auf is True." ;;
  _ <- raise_if (inc && is_None (run_psf c))
         "run_psf must be given if include_perturb_auf is True." ;;
  _ <- raise_if (inc && truthy (run_psf c) && is_None (dd_params c))
         "dd_params must be given if include_perturb_auf and run_psf are True." ;;
  let c1 := if inc && is_None (dd_params c)
            then with_dd_params c (np.zeros2 1 1) else c in
  _ <- raise_if (inc && truthy (run_psf c1) && is_None (l_cut c1))
         "l_cut must be given if include_perturb_auf and run_psf are True." ;;
  let c2 := if inc && is_None (l_cut c1)
            then with_l_cut c1 (np.zeros 1) else c1 in
  _ <- raise_if (inc && is_None (snr_mag_params c2))
         "snr_mag_params must be given if include_perturb_auf is True." ;;
  _ <- raise_if (inc && is_None (al_avs c2))
         "al_avs must be given if include_perturb_auf is True." ;;
  _ <- raise_if (inc && is_None (density_radius c2))
         "density_radius must be given if include_perturb_auf is True." ;;
  _ <- raise_if (inc && is_None (fit_gal_flag c2))
         "fit_gal_flag must not be None if include_perturb_auf is True." ;;
  let gal := inc && truthy (fit_gal_flag c2) in
  _ <- raise_if (gal && is_None (cmau_array c2))
         "cmau_array must be given if fit_gal_flag is True." ;;
  _ <- raise_if (gal && is_None (wavs c2))
         "wavs must be given if fit_gal_flag is True." ;;
  _ <- raise_if (gal && is_None (z_maxs c2))
         "z_maxs must be given if fit_gal_flag is True." ;;
  _ <- raise_if (gal && is_None (nzs c2))
         "nzs must be given if fit_gal_flag is True." ;;
  _ <- raise_if (gal && is_None (ab_offsets c2))
         "ab_offsets must be given if fit_gal_flag is True." ;;
  _ <- raise_if (gal && is_None (filter_names c2))
         "filter_names must be given if fit_gal_flag is True." ;;
  _ <- raise_if (gal && is_None (alpha0 c2))
         "alpha0 must be given if fit_gal_flag is True." ;;
  _ <- raise_if (gal && is_None (alpha1 c2))
         "alpha1 must be given if fit_gal_flag is True." ;;
  _ <- raise_if (gal && is_None (alpha_weight c2))
         "alpha_weight must be given if fit_gal_flag is True." ;;
  ret c2.

(** The vocabulary of the statements about the checks. *)

Definition given {A : Type} (x : option A) : bool := negb (is_None x).

(** The arguments every run with [include_perturb_auf] needs, in the order
    they are checked, up to [run_psf]. *)
Definition given_up_to_run_psf (c : config) : bool :=
  given (tri_set_name c) && given (tri_filt_num c) && given (tri_filt_names c)
  && given (tri_maglim_faint c) && given (tri_num_faint c) && given (auf_region_frame c)
  && given (delta_mag_cuts c) && given (psf_fwhms c) && given (num_trials c)
  && given (j0s c) && given (d_mag c) && given (run_fw c) && given (run_psf c).

(** Some argument that the requested mode needs is [None]. *)
Definition missing_required (c : config) : bool :=
  include_perturb_auf c
  && (negb (given_up_to_run_psf c)
      || truthy (run_psf c) && (is_None (dd_params c) || is_None (l_cut c))
      || is_None (snr_mag_params c) || is_None (al_avs c) || is_None (density_radius c)
      || is_None (fit_gal_flag c)
      || truthy (fit_gal_flag c)
         && (is_None (cmau_array c) || is_None (wavs c) || is_None (z_maxs c)
             || is_None (nzs c) || is_None (ab_offsets c) || is_None (filter_names c)
             || is_None (alpha0 c) || is_None (alpha1 c) || is_None (alpha_weight c))).

Definition is_ValueError {A : Type} (m : py A) : Prop :=
  match m with
  | inl (ValueError _) => True
  | inl _ => False
  | inr _ => True
  end.

(** Two calls of [make_perturb_aufs]: one without the perturbation
    component, given only [j0s]; one for the background-limited PSF algorithm
    alone, whose [dd_params] and [l_cut] were left out. *)
Definition no_perturbation_config : config :=
  {| include_perturb_auf := false; j0s := Some (np.ones2 2 3);
     tri_download_flag := false; delta_mag_cuts := None; psf_fwhms := None;
     tri_set_name := None; tri_filt_num := None; tri_filt_names := None;
     tri_maglim_faint := None; tri_num_faint := None; auf_region_frame := None;
     num_trials := None; d_mag := None; density_radius := None; run_fw := None;
     run_psf := None; dd_params := None; l_cut := None; snr_mag_params := None;
     al_avs := None; fit_gal_flag := None; cmau_array := None; wavs := None;
     z_maxs := None; nzs := None; ab_offsets := None; filter_names := None;
     alpha0 := None; alpha1 := None; alpha_weight := None |}.

(** A call without the perturbation component that leaves [j0s] out. *)
Definition config_without_j0s : config :=
  {| include_perturb_auf := false; j0s := None;
     tri_download_flag := false; delta_mag_cuts := None; psf_fwhms := None;
     tri_set_name := None; tri_filt_num := None; tri_filt_names := None;
     tri_maglim_faint := None; tri_num_faint := None; auf_region_frame := None;
     num_trials := None; d_mag := None; density_radius := None; run_fw := None;
     run_psf := None; dd_params := None; l_cut := None; snr_mag_params := None;
     al_avs := None; fit_gal_flag := None; cmau_array := None; wavs := None;
     z_maxs := None; nzs := None; ab_offsets := None; filter_names := None;
     alpha0 := None; alpha1 := None; alpha_weight := None |}.

Definition psf_config_without_dd_params : config :=
  {| include_perturb_auf := true; j0s := Some (np.ones2 2 3);
     tri_download_flag := false; delta_mag_cuts := Some [2.5; 5]%float;
     psf_fwhms := Some [6.1]%float; tri_set_name := Some "2mass_spitzer_wise"%string;
     tri_filt_num := Some 11%Z; tri_filt_names := Some ["W1"%string];
     tri_maglim_faint := Some 32%float; tri_num_faint := Some 1500000%Z;
     auf_region_frame := Some "galactic"%string; num_trials := Some 10000%Z;
     d_mag := Some 0.1%float; density_radius := Some 0.1%float; run_fw := Some false;
     run_psf := Some true; dd_params := None; l_cut := None;
     snr_mag_params := Some [np.mk_array2 5 [[0; 1; 0; 10; 0]%float]];
     al_avs := Some [0.039]%float; fit_gal_flag := Some false; cmau_array := None;
     wavs := None; z_maxs := None; nzs := None; ab_offsets := None;
     filter_names := None; alpha0 := None; alpha1 := None; alpha_weight := None |}.

(** *** The degenerate bundle of lines 346-363 and 394-426 *)

(** One entry of [perturb_auf_outputs]: a dictionary from the seven names to
    arrays, in insertion order. *)
Definition auf_output : Type := list (string * np.ndarray).

Definition auf_names : list string :=
  ["frac"; "flux"; "offset"; "cumulative"; "fourier"; "Narray"; "magarray"]%string.

(** [d[name]] *)
Fixpoint dict_get {V : Type} (name : string) (d : list (string * V)) : option V :=
  match d with
  | [] => None
  | (k, v) :: d' => if String.eqb k name then Some v else dict_get name d'
  end.

(** [d[name] = v]: replaces the value of an existing key in place, appends a
    new one. *)
Fixpoint dict_set {V : Type} (name : string) (v : V) (d : list (string * V))
  : list (string * V) :=
  match d with
  | [] => [(name, v)]
  | (k, v') :: d' => if String.eqb k name then (k, v) :: d' else (k, v') :: dict_set name v d'
  end.

(** [np.zeros((len(r)-1, 1))] followed by [offset[0, :] = v]. *)
Definition delta_offset (len_r : nat) (v : float) : py np.array2 :=
  match len_r with
  | O => raise (ValueError "negative dimensions are not allowed")
  | S O => raise IndexError
  | S (S n) => ret (np.mk_array2 1 ([v] :: repeat [0%float] n))
  end.

(** The bundle that stands for "no perturbation": [num_n_mag = 1]. *)
Definition delta_function_output (r dr : list float) (j0s_ : option np.array2)
  : py auf_output :=
  let frac := np.zeros2 1 1 in
  let flux := np.zeros 1 in
  match length r with
  | O => raise (ValueError "negative dimensions are not allowed")
  | S n_bins =>
      r0 <- np.item 0 r ;;
      dr0 <- np.item 0 dr ;;
      offset <- delta_offset (length r)
                  (1 / (2 * np.pi * (r0 + dr0 / 2) * dr0))%float ;;
      let cumulative := np.ones2 n_bins 1 in
      match j0s_ with
      | None => raise AttributeError
      | Some j =>
          let fourieroffset := np.ones2 (length (np.rows j)) 1 in
          let narray := np.mk_array2 1 [[1%float]] in
          let magarray := np.mk_array2 1 [[1%float]] in
          ret (combine auf_names
                 [np.Floats2 frac; np.Floats flux; np.Floats2 offset;
                  np.Floats2 cumulative; np.Floats2 fourieroffset;
                  np.Floats2 narray; np.Floats2 magarray])
      end
  end.

(** The bundle of a Dirac delta: [n_bins] radial bins, of which the first
    starts at [r0] and is [dr0] wide, and [n_rho] sampled frequencies. *)
Definition delta_bundle (r0 dr0 : float) (n_bins n_rho : nat) : auf_output :=
  [("frac", np.Floats2 (np.mk_array2 1 [[0%float]]));
   ("flux", np.Floats [0%float]);
   ("offset", np.Floats2 (np.mk_array2 1
                 ([(1 / (2 * np.pi * (r0 + dr0 / 2) * dr0))%float]
                  :: repeat [0%float] (n_bins - 1))));
   ("cumulative", np.Floats2 (np.mk_array2 1 (repeat [1%float] n_bins)));
   ("fourier", np.Floats2 (np.mk_array2 1 (repeat [1%float] n_rho)));
   ("Narray", np.Floats2 (np.mk_array2 1 [[1%float]]));
   ("magarray", np.Floats2 (np.mk_array2 1 [[1%float]]))]%string.

(** *** _calculate_magnitude_offsets (lines 1213-1278) *)

Section MagnitudeOffsets.

(** [np.log10], [np.log] and [**] on float64. *)
Variables np_log10 np_log : float -> float.
Variable np_power : float -> float -> float.

(** Lines 1250-1251: [-2.5 * np.log10(b / snr)]. *)
Definition dm_max_snr (b : float) (snr : list float) : list float :=
  map (fun s => (-2.5 * np_log10 (b / s))%float) snr.

(** Line 1268: [-np.log(0.01)]. *)
Definition no_perturber_threshold : float := (- np_log 0.01)%float.

(** Lines 1255-1257, for one magnitude: the model bins at or fainter than
    [mag], and the expected number of perturbers of each inside the PSF
    radius [r] (arcseconds) at local density [count]. *)
Definition model_bins_from (model_mag_mids : list float) (mag : float) : list bool :=
  map (fun m => (mag <=? m)%float) model_mag_mids.

Definition expected_perturbers (model_mag_mids log10y model_mags_interval : list float)
  (r n_norm count mag : float) : list float :=
  let q := model_bins_from model_mag_mids mag in
  np.map2 (fun l w =>
             (np_power 10 l * w * np.pi * np_power (r / 3600) 2 * count / n_norm)%float)
          (np.compress q log10y) (np.compress q model_mags_interval).

(** Lines 1255-1274: the body of the loop for one [(i, mag)]. *)
Definition dm_max_no_perturb_at (model_mag_mids log10y model_mags_interval : list float)
  (r n_norm count mag : float) : py float :=
  let _x := np.compress (model_bins_from model_mag_mids mag) model_mag_mids in
  let _y := expected_perturbers model_mag_mids log10y model_mags_interval r n_norm count mag in
  let lamb := np.cumsum _y in
  let q := np.where_ (map (fun l => (no_perturber_threshold <=? l)%float) lamb) in
  match q with
  | q0 :: _ => x <- np.item q0 _x ;; ret (x - mag)%float
  | [] => x <- np.item_last _x ;; ret (x - mag)%float
  end.

(** The loop [for i, mag in enumerate(mag_array)]. *)
Fixpoint dm_max_no_perturb_loop (count_array model_mag_mids log10y model_mags_interval
  : list float) (r n_norm : float) (i : nat) (mags : list float) : py (list float) :=
  match mags with
  | [] => ret []
  | mag :: mags' =>
      count <- np.item i count_array ;;
      d <- dm_max_no_perturb_at model_mag_mids log10y model_mags_interval r n_norm count mag ;;
      ds <- dm_max_no_perturb_loop count_array model_mag_mids log10y model_mags_interval
              r n_norm (S i) mags' ;;
      ret (d :: ds)
  end.

Definition _calculate_magnitude_offsets (count_array mag_array : list float) (b : float)
  (snr model_mag_mids log10y model_mags_interval : list float) (r n_norm : float)
  : py (list float) :=
  let dm_snr := dm_max_snr b snr in
  dm_max_no_perturb <- dm_max_no_perturb_loop count_array model_mag_mids log10y
                         model_mags_interval r n_norm 0 mag_array ;;
  np.broadcast2 np.maximum1 dm_snr dm_max_no_perturb.

(** The same depth in the words of the specification. *)

(** The model bins at or fainter than [mag], from bright to faint, each with
    the number of perturbers expected in it inside the radius [r]. *)
Definition fainter_bins (model_mag_mids log10y model_mags_interval : list float)
  (r n_norm count mag : float) : list (float * float) :=
  map (fun b : float * float * float =>
         let '(m, l, w) := b in
         (m, (np_power 10 l * w * np.pi * np_power (r / 3600) 2 * count / n_norm)%float))
      (filter (fun b : float * float * float => let '(m, l, w) := b in (mag <=? m)%float)
              (combine (combine model_mag_mids log10y) model_mags_interval)).

(** The magnitude of the first bin at which the running total of expected
    perturbers reaches [-ln(0.01)]; of the last bin when none does. *)
Fixpoint first_bin_reaching (running : option float) (bins : list (float * float))
  : option float :=
  match bins with
  | [] => None
  | (m, expected) :: bins' =>
      let total := match running with
                   | None => expected
                   | Some t => (t + expected)%float
                   end in
      if (no_perturber_threshold <=? total)%float then Some m
      else match first_bin_reaching (Some total) bins' with
           | Some m' => Some m'
           | None => Some m
           end
  end.

(** The expected numbers of perturbers of some bins added up in their
    order: the cumulative expected count through the bin [q]. *)
Definition running_total (expected : list float) : float :=
  match expected with
  | [] => 0%float
  | e :: es => fold_left PrimFloat.add es e
  end.

Definition cumulative_count (bins : list (float * float)) (q : nat) : float :=
  running_total (map snd (firstn (S q) bins)).

(** Down to the bin [q] the chance of no perturber, [exp(-count)], is at
    most 1%: the cumulative expected count is at least [-ln(0.01)]. *)
Definition one_percent_reached (bins : list (float * float)) (q : nat) : bool :=
  (- np_log 0.01 <=? cumulative_count bins q)%float.

(** The offsets from [mag] of some bins, and of the model bins at or fainter
    than [mag]. *)
Definition offsets (bins : list (float * float)) (mag : float) : list float :=
  map (fun b => (fst b - mag)%float) bins.

Definition fainter_offsets (model_mag_mids : list float) (mag : float) : list float :=
  map (fun m => (m - mag)%float) (filter (fun m => (mag <=? m)%float) model_mag_mids).

(** [xs] never decreases from an entry to the next. *)
Definition ascending (xs : list float) : bool :=
  forallb (fun p : float * float => (fst p <=? snd p)%float) (np.consecutive xs).

(** [offset] is the depth (b) of the specification: the smallest offset of
    a bin down to which the chance of no perturber is at most 1%, no such bin
    having a smaller one; or, when no bin reaches 1%, the deepest offset
    simulated, no bin having a larger one. *)
Definition no_perturber_depth (bins : list (float * float)) (mag offset : float) : Prop :=
  (exists q,
      nth_error (offsets bins mag) q = Some offset
      /\ one_percent_reached bins q = true
      /\ forall q' o',
           nth_error (offsets bins mag) q' = Some o' ->
           one_percent_reached bins q' = true -> (o' <? offset)%float = false)
  \/ ((forall q, q < length bins -> one_percent_reached bins q = false)
      /\ In offset (offsets bins mag)
      /\ forall o', In o' (offsets bins mag) -> (offset <? o')%float = false).

End MagnitudeOffsets.

(** The values of [np.log10], [np.log] and [**] at the points the worked
    examples of Part II evaluate them. *)
Definition log10_table (x : float) : float :=
  if (x =? 0.01)%float then (-2)%float
  else if (x =? 1)%float then 0%float
  else nan.

Definition log_table (x : float) : float :=
  if (x =? 0.01)%float then (-0x1.26bb1bbb55515p+2)%float else nan.

Definition power_table (x y : float) : float :=
  if (x =? 10)%float && (y =? 0)%float then 1%float
  else if (x =? 1)%float && (y =? 2)%float then 1%float
  else nan.

(** *** create_single_perturb_auf (lines 731-991) *)

(** What [make_tri_counts] returns, without the uncertainties the caller
    discards. *)
Record tri_counts : Type := {
  dens_hist_tri : list float;
  model_mags : list float;
  model_mag_mids : list float;
  model_mags_interval : list float;
  n_bright_sources_star : float
}.

(** The arguments of [create_single_perturb_auf] read by the part of the
    function modelled here. *)
Record single_auf_args : Type := {
  tri_folder : string;
  auf_point : float * float;
  psf_fwhm : float;
  filt_header : string;
  density_mag : float;
  a_photo : list float;
  localn : list float;
  sa_d_mag : float;
  sa_snr_mag_params : list (list float);
  al_av : float;
  region_frame : string;
  ax1s : list float;
  ax2s : list float;
  sa_fit_gal_flag : bool
}.

(** [int(x)] of a float: truncation towards zero; infinities and NaN raise. *)
Definition py_int (x : float) : py Z :=
  match Prim2SF x with
  | S754_zero _ => ret 0%Z
  | S754_finite s m e =>
      let v := if (0 <=? e)%Z then (Z.pos m * 2 ^ e)%Z else (Z.pos m / 2 ^ (- e))%Z in
      ret (if s then (- v)%Z else v)
  | S754_infinity _ => raise OverflowError
  | S754_nan => raise (ValueError "cannot convert float NaN to integer")
  end.

(** The float64 nearest to an integer, as arithmetic between a float and a
    Python [int] converts it. *)
Definition float_of_Z (z : Z) : float :=
  SF2Prim (binary_normalize prec emax z 0 false).

(** [-inf] where the density is not positive, its [log10] elsewhere
    (lines 867-868 and 879-880). *)
Definition log10_or_minus_inf (np_log10 : float -> float) (dens : list float) : list float :=
  map (fun d => if (0 <? d)%float then np_log10 d else neg_infinity) dens.

Section CreateSinglePerturbAuf.

Variables np_log10 np_log : float -> float.
Variable np_power : float -> float -> float.
(** [np.sum] of a float array. *)
Variable np_sum : list float -> float.

(** Lines 851-861: the grid of extinctions from [get_av_infinity]. *)
Variable av_grid : single_auf_args -> list float.
(** [make_tri_counts(tri_folder, tri_name, filt_header, d_mag,
    np.amin(a_photo), density_mag, al_av=al_av, av_grid=avs)]: it reads the
    TRILEGAL file of the tile, and can raise. *)
Variable make_tri_counts :
  string -> string -> string -> float -> float -> float -> float -> list float -> py tri_counts.
(** [create_galaxy_counts], evaluated at [model_mag_mids] on the extinction
    grid [al_av * avs]. *)
Variable create_galaxy_counts : single_auf_args -> list float -> list float -> list float.
(** Lines 913-930: the density-magnitude bins that hold sources, as
    [(count_array, mag_array)]. *)
Variable populated_bins : list float -> list float -> list float * list float.
(** [mff.find_nearest_point] for one position. *)
Variable find_nearest_point : float * float -> list (list float) -> nat.
(** Lines 946-991: seeds, [paf.perturb_aufs] and the blend of the two
    algorithms, given the bins and their [dm_max]. *)
Variable simulate_perturbations :
  single_auf_args -> list float -> list float -> list float -> list float -> auf_output.

(** Lines 870-871 and 878: [np.sum(dens[mag_slice] * interval[mag_slice])]. *)
Definition bright_count (mag_slice : list bool) (dens interval : list float) : float :=
  np_sum (np.map2 PrimFloat.mul (np.compress mag_slice dens) (np.compress mag_slice interval)).

(** Lines 894-904. *)
Definition tot_n_bright_sources (fit_gal : bool) (gal_count tri_count n_star : float)
  : py float :=
  if fit_gal
  then n_bright_sources_gal <- py_int (gal_count / tri_count * n_star)%float ;;
       ret (n_star + float_of_Z n_bright_sources_gal)%float
  else ret n_star.

(** Lines 906-909. *)
Definition check_bright_sources (tot : float) : py unit :=
  raise_if (tot <? 100)%float
    ("The number of simulated objects in this sky patch is too low to "
     ++ "reliably derive a model source density. Please include "
     ++ "more simulated objects.")%string.

(** Lines 870-871: the bins brighter than [density_mag], and the TRILEGAL
    density summed over them. *)
Definition mag_slice_of (a : single_auf_args) (t : tri_counts) : list bool :=
  np.map2 (fun m w => (m + w <=? density_mag a)%float) (model_mags t) (model_mags_interval t).

Definition tri_count_of (a : single_auf_args) (t : tri_counts) : float :=
  bright_count (mag_slice_of a t)
    (map (np_power 10) (log10_or_minus_inf np_log10 (dens_hist_tri t)))
    (model_mags_interval t).

(** Lines 873-882: the galaxy density summed over the same bins, zero when
    galaxies are not fitted. *)
Definition gal_dens_of (a : single_auf_args) (t : tri_counts) : list float :=
  create_galaxy_counts a (model_mag_mids t) (map (PrimFloat.mul (al_av a)) (av_grid a)).

Definition gal_count_of (a : single_auf_args) (t : tri_counts) : float :=
  if sa_fit_gal_flag a
  then bright_count (mag_slice_of a t) (gal_dens_of a t) (model_mags_interval t)
  else 0%float.

Definition create_single_perturb_auf (a : single_auf_args) : py auf_output :=
  let avs := av_grid a in
  brightest <- np.amin (a_photo a) ;;
  t <- make_tri_counts (tri_folder a) "trilegal_auf_simulation" (filt_header a)
         (sa_d_mag a) brightest (density_mag a) (al_av a) avs ;;
  let log10y_tri := log10_or_minus_inf np_log10 (dens_hist_tri t) in
  let tri_count := tri_count_of a t in
  let gal_count := gal_count_of a t in
  let log10y_gal :=
    if sa_fit_gal_flag a then log10_or_minus_inf np_log10 (gal_dens_of a t)
    else map (fun _ => neg_infinity) log10y_tri in
  let hc := map (fun d => (0 <? d)%float) (dens_hist_tri t) in
  let mids := if sa_fit_gal_flag a then model_mag_mids t
              else np.compress hc (model_mag_mids t) in
  let interval := if sa_fit_gal_flag a then model_mags_interval t
                  else np.compress hc (model_mags_interval t) in
  let log10y_tri' := if sa_fit_gal_flag a then log10y_tri
                     else np.compress hc log10y_tri in
  let model_count := (tri_count + gal_count)%float in
  tot <- tot_n_bright_sources (sa_fit_gal_flag a) gal_count tri_count
           (n_bright_sources_star t) ;;
  _ <- check_bright_sources tot ;;
  log10y <- np.broadcast2 (fun lt lg => np_log10 (np_power 10 lt + np_power 10 lg)%float)
              log10y_tri' log10y_gal ;;
  let '(count_array, mag_array) := populated_bins (map np_log (localn a)) (a_photo a) in
  let psf_r := (1.185 * psf_fwhm a)%float in
  let s_flux := map (fun m => np_power 10 (-1 / 2.5 * m)%float) mag_array in
  let lb_ind := find_nearest_point (auf_point a) (sa_snr_mag_params a) in
  row <- np.item lb_ind (sa_snr_mag_params a) ;;
  a_snr <- np.item 0 row ;;
  b_snr <- np.item 1 row ;;
  c_snr <- np.item 2 row ;;
  let snr := map (fun s => (s / PrimFloat.sqrt (c_snr * s + b_snr + np_power (a_snr * s) 2))%float)
                 s_flux in
  let b := 0.05%float in
  dm_max <- _calculate_magnitude_offsets np_log10 np_log np_power count_array mag_array b snr
              mids log10y interval psf_r model_count ;;
  ret (simulate_perturbations a count_array mag_array snr dm_max).

(** The message of lines 907-909. *)
Definition too_few_message : string :=
  ("The number of simulated objects in this sky patch is too low to "
   ++ "reliably derive a model source density. Please include "
   ++ "more simulated objects.")%string.

End CreateSinglePerturbAuf.

(** A sky position whose TRILEGAL simulation holds 40 sources brighter than
    the density magnitude, run without galaxy counts. *)
Definition sparse_patch : single_auf_args :=
  {| tri_folder := "auf/10.0/0.0"; auf_point := (10, 0)%float; psf_fwhm := 6%float;
     filt_header := "W1"; density_mag := 15%float; a_photo := [14; 16]%float;
     localn := [1000; 1000]%float; sa_d_mag := 0.1%float;
     sa_snr_mag_params := [[0; 1; 0; 10; 0]%float]; al_av := 0.1%float;
     region_frame := "galactic"; ax1s := [10]%float; ax2s := [0]%float;
     sa_fit_gal_flag := false |}.

Definition sparse_counts : tri_counts :=
  {| dens_hist_tri := [10; 100]%float; model_mags := [14; 15]%float;
     model_mag_mids := [14.5; 15.5]%float; model_mags_interval := [1; 1]%float;
     n_bright_sources_star := 40%float |}.

(** A sum accumulated in the order of the array. *)
Definition sum_in_order (xs : list float) : float := fold_left PrimFloat.add xs 0%float.

(** *** calculate_local_density (lines 640-727) *)

(** A row of the astrometric catalogue: the two sky axes and the
    positional uncertainty. *)
Definition astro_row : Type := (float * float * float)%type.

Definition ax1_of (s : astro_row) : float := fst (fst s).

Definition ax2_of (s : astro_row) : float := snd (fst s).

Section LocalDensity.

(** [misc_functions.min_max_lon] and [misc_functions._load_rectangular_slice]:
    the longitude range of a set of sources, and the mask of the sources
    inside a rectangle widened by a padding. *)
Variable min_max_lon : list float -> py (float * float).
Variable _load_rectangular_slice :
  list astro_row -> float -> float -> float -> float -> float -> list bool.
(** [np.linspace(start, stop, num)], [np.ceil] and the content of a fresh
    [np.empty(n)]. *)
Variable np_linspace : float -> float -> Z -> list float.
Variable np_ceil : float -> float.
Variable np_empty : nat -> list float.
(** [paf.get_density], which returns integer counts, and
    [paf.get_circle_area_overlap]. *)
Variable get_density : list float -> list float -> list float -> list float -> float -> list Z.
Variable get_circle_area_overlap :
  list float -> list float -> float -> float -> float -> float -> float -> list float.

(** Lines 678-687: eleven grid points along an axis, or one per degree when
    those would be less than a degree apart. *)
Definition axis_loops (lo hi : float) : py (list float) :=
  let loops := np_linspace lo hi 11 in
  l0 <- np.item 0 loops ;;
  l1 <- np.item 1 loops ;;
  if (l1 - l0 <? 1)%float
  then n <- py_int (np_ceil (hi - lo) + 1)%float ;; ret (np_linspace lo hi n)
  else ret loops.

(** [counts[counts == 0] = 1] *)
Definition at_least_one (counts : list Z) : list Z :=
  map (fun c => if (c =? 0)%Z then 1%Z else c) counts.

(** Lines 691-716: one cell of the grid of sub-rectangles. A float array
    assigned integers converts them. *)
Definition count_cell (a_astro a_astro_overlap_cut : list astro_row)
  (a_photo_overlap_cut : list float) (density_radius density_mag : float)
  (ax1_cell ax2_cell : float * float) (full_counts : list float) : list float :=
  let '(ax1_start, ax1_end) := ax1_cell in
  let '(ax2_start, ax2_end) := ax2_cell in
  let small_sky_cut := _load_rectangular_slice a_astro ax1_start ax1_end ax2_start ax2_end 0 in
  let a_astro_small := np.compress small_sky_cut a_astro in
  match a_astro_small with
  | [] => full_counts
  | _ :: _ =>
      let overlap_sky_cut := _load_rectangular_slice a_astro_overlap_cut ax1_start ax1_end
                               ax2_start ax2_end density_radius in
      let cut := np.logical_and overlap_sky_cut
                   (map (fun m => (m <=? density_mag)%float) a_photo_overlap_cut) in
      let a_astro_overlap_cut_small := np.compress cut a_astro_overlap_cut in
      match a_astro_overlap_cut_small with
      | _ :: _ =>
          let counts := get_density (map ax1_of a_astro_small) (map ax2_of a_astro_small)
                          (map ax1_of a_astro_overlap_cut_small)
                          (map ax2_of a_astro_overlap_cut_small) density_radius in
          np.put_mask small_sky_cut (map float_of_Z (at_least_one counts)) full_counts
      | [] => np.fill_mask small_sky_cut 1%float full_counts
      end
  end.

(** The two nested loops of lines 689-716. *)
Definition count_cells (a_astro a_astro_overlap_cut : list astro_row)
  (a_photo_overlap_cut : list float) (density_radius density_mag : float)
  (ax1_loops ax2_loops : list float) (full_counts : list float) : list float :=
  fold_left (fun fc ax1_cell =>
    fold_left (fun fc' ax2_cell =>
      count_cell a_astro a_astro_overlap_cut a_photo_overlap_cut density_radius density_mag
        ax1_cell ax2_cell fc')
      (np.consecutive ax2_loops) fc)
    (np.consecutive ax1_loops) full_counts.

Definition calculate_local_density (a_astro a_tot_astro : list astro_row)
  (a_tot_photo : list float) (density_radius density_mag : float) : py (list float) :=
  lon <- min_max_lon (map ax1_of a_astro) ;;
  let '(min_lon, max_lon) := lon in
  min_lat <- np.amin (map ax2_of a_astro) ;;
  max_lat <- np.amax (map ax2_of a_astro) ;;
  let overlap_sky_cut := _load_rectangular_slice a_tot_astro min_lon max_lon min_lat max_lat
                           density_radius in
  let cut := np.logical_and overlap_sky_cut
               (map (fun m => (m <=? density_mag)%float) a_tot_photo) in
  let a_astro_overlap_cut := np.compress cut a_tot_astro in
  let a_photo_overlap_cut := np.compress cut a_tot_photo in
  ax1_loops <- axis_loops min_lon max_lon ;;
  ax2_loops <- axis_loops min_lat max_lat ;;
  let full_counts := count_cells a_astro a_astro_overlap_cut a_photo_overlap_cut
                       density_radius density_mag ax1_loops ax2_loops
                       (np_empty (length a_astro)) in
  lon' <- min_max_lon (map ax1_of a_astro_overlap_cut) ;;
  let '(min_lon', max_lon') := lon' in
  min_lat' <- np.amin (map ax2_of a_astro_overlap_cut) ;;
  max_lat' <- np.amax (map ax2_of a_astro_overlap_cut) ;;
  let circle_overlap_area := get_circle_area_overlap (map ax1_of a_astro) (map ax2_of a_astro)
                               density_radius min_lon' max_lon' min_lat' max_lat' in
  ret (np.map2 PrimFloat.div full_counts circle_overlap_area).

End LocalDensity.

(** Modelled from the spec: [paf.get_density] of the Fortran module
    [perturbation_auf_fortran], which is not among the sources: for each
    source of the first set, the number of sources of the second set within
    [maxdist] of it on the sky. The test of angular separation, [within], is a
    parameter. *)
Definition get_density_model (within : float -> float -> float -> float -> float -> bool)
  (a_ax1 a_ax2 b_ax1 b_ax2 : list float) (maxdist : float) : list Z :=
  map (fun p : float * float =>
         Z.of_nat (length (filter (fun q : float * float =>
                                     within (fst p) (snd p) (fst q) (snd q) maxdist)
                                  (combine b_ax1 b_ax2))))
      (combine a_ax1 a_ax2).



(** Stand-ins, on a flat sky, for the helpers of [calculate_local_density]
    in the worked examples of Part II: the range of the longitudes, the
    sources inside a padded rectangle, [np.linspace] by its formula
    [i * step + start] with the end point set, [np.ceil] at the differences
    the examples meet, a fresh array holding NaN, the test of separation by
    Euclidean distance, and the area of a circle that lies inside the
    rectangle (NaN when it does not). *)
Definition flat_min_max_lon (lons : list float) : py (float * float) :=
  lo <- np.amin lons ;; hi <- np.amax lons ;; ret (lo, hi).

Definition flat_rectangular_slice (rows : list astro_row)
  (lo1 hi1 lo2 hi2 padding : float) : list bool :=
  map (fun s => (lo1 - padding <=? ax1_of s)%float && (ax1_of s <=? hi1 + padding)%float
                && (lo2 - padding <=? ax2_of s)%float && (ax2_of s <=? hi2 + padding)%float)
      rows.

Definition linspace_formula (start stop : float) (num : Z) : list float :=
  if (num <=? 0)%Z then []
  else if (num =? 1)%Z then [start]
  else let div := (num - 1)%Z in
       let step := ((stop - start) / float_of_Z div)%float in
       map (fun i => if Nat.eqb i (Z.to_nat div) then stop
                     else (float_of_Z (Z.of_nat i) * step + start)%float)
           (seq 0 (Z.to_nat num)).

Definition ceil_table (x : float) : float :=
  if (x =? 0)%float then 0%float else if (x =? 1)%float then 1%float else nan.

Definition empty_nan (n : nat) : list float := repeat nan n.

Definition flat_within (x1 y1 x2 y2 maxdist : float) : bool :=
  ((x1 - x2) * (x1 - x2) + (y1 - y2) * (y1 - y2) <=? maxdist * maxdist)%float.

Definition flat_circle_area (lons lats : list float) (r lo1 hi1 lo2 hi2 : float)
  : list float :=
  np.map2 (fun x y => if (lo1 <=? x - r)%float && (x + r <=? hi1)%float
                         && (lo2 <=? y - r)%float && (y + r <=? hi2)%float
                      then (np.pi * r * r)%float else nan) lons lats.

(** A catalogue of two faint sources between two bright ones, each bright
    source further than the radius 0.125 from each faint one. *)
Definition faint_1 : astro_row := (0.5, 0.5, 0.1)%float.

Definition faint_2 : astro_row := (1.5, 1.5, 0.1)%float.

Definition four_sources : list astro_row :=
  [(0.375, 0.375, 0.1)%float; faint_1; faint_2; (1.625, 1.625, 0.1)%float].

Definition four_magnitudes : list float := [10; 20; 20; 10]%float.

(** *** make_perturb_aufs: the loop over sky positions and filters
    (lines 258-427) *)

(** The files of [cat_folder]: astrometry, photometry (one row per source
    of the astrometry, one magnitude per filter, NaN where undetected) and
    best-filter index. *)
Record catalogue : Type := {
  a_tot_astro : list astro_row;
  a_tot_photo : np.array2;
  magref : list Z
}.

(** What the loop builds: the dictionary of bundles, and the assignments made
    to [arraylengths[j, i]] and [local_n[source, j]], oldest first. *)
Record loop_state : Type := {
  perturb_auf_outputs : list (string * auf_output);
  arraylengths : list (nat * nat * Z);
  local_n : list (nat * nat * float)
}.

(** [len(a)] of an array. *)
Definition len (a : np.ndarray) : Z :=
  match a with
  | np.Ints v => Z.of_nat (length v)
  | np.Floats v => Z.of_nat (length v)
  | np.Floats2 v => Z.of_nat (length (np.rows v))
  end.

(** [a[:, j]] for [j >= 0]: [IndexError] when the array has no column
    [j]. *)
Definition column (j : nat) (a : np.array2) : py (list float) :=
  if Nat.ltb j (np.ncols a) then for_each (np.item j) (np.rows a)
  else raise IndexError.

(** [a[mask]]: the rows whose mask is set. *)
Definition rows_where (mask : list bool) (a : np.array2) : np.array2 :=
  np.mk_array2 (np.ncols a) (np.compress mask (np.rows a)).

(** [np.arange(0, n)[mask]] *)
Definition indices_where (mask : list bool) : list nat :=
  np.compress mask (seq 0 (length mask)).

(** What lines 294-310 compute for a sky position: its sources and, when it
    holds any, their extent on the sky and the density magnitudes. *)
Record tile_extent : Type := {
  ax1_min : float;
  ax1_max : float;
  ax2_min : float;
  ax2_max : float;
  dens_mags : list float
}.

Record tile_data : Type := {
  med_index_slice : list nat;
  a_photo_cut : np.array2;
  a_astro_cut : list astro_row;
  extent : option tile_extent
}.


(** The text of the floats that the worked examples of Part II format. *)
Definition fmt_table (x : float) : string :=
  if (x =? 0)%float then "0.0" else if (x =? 10)%float then "10.0" else "nan".


Section MakePerturbAufs.

(** The text an f-string gives a float. *)
Variable fmt_float : float -> string.
(** The argument [auf_folder], [os.path.exists] and
    [os.makedirs(path, exist_ok=True)], which raises [OSError] when the
    folder cannot be made. *)
Variable auf_folder : string.
Variable path_exists : string -> bool.
Variable makedirs : string -> py unit.
(** [mff.find_nearest_point]: for each source the index of its nearest sky
    position. *)
Variable find_nearest_point : list astro_row -> list (float * float) -> list nat.
(** [misc_functions.min_max_lon]. *)
Variable min_max_lon : list float -> py (float * float).
(** [np.linspace]. *)
Variable np_linspace : float -> float -> Z -> list float.
(** Lines 303-310: the density magnitude of each filter, from the histogram
    of the magnitudes of a sky position. *)
Variable density_magnitudes : np.array2 -> nat -> list float.
(** Lines 315-334: the TRILEGAL download of a sky position, made when its
    file is missing or a new download is asked for. *)
Variable fetch_trilegal : config -> float * float -> tile_extent -> np.array2 -> py unit.
(** [calculate_local_density] and [create_single_perturb_auf], the latter
    applied to the entries of the per-filter arguments of filter [j]. *)
Variable local_density :
  list astro_row -> list astro_row -> list float -> option float -> float -> py (list float).
Variable single_perturb_auf :
  config -> float * float -> nat -> float -> list float -> list float ->
  list float -> list float -> py auf_output.

Definition perturb_auf_combo (auf_point : float * float) (filt : string) : string :=
  (fmt_float (fst auf_point) ++ "-" ++ fmt_float (snd auf_point) ++ "-" ++ filt)%string.

(** Lines 288-291: [ax_folder], made unless it exists. [auf_points] is a
    two-dimensional array of pairs of coordinates, as its docstring has it,
    so that [ax1, ax2 = auf_point] unpacks a pair. *)
Definition ax_folder (auf_point : float * float) : string :=
  (auf_folder ++ "/" ++ fmt_float (fst auf_point) ++ "/" ++ fmt_float (snd auf_point))%string.

Definition make_ax_folder (auf_point : float * float) : py unit :=
  if path_exists (ax_folder auf_point) then ret tt else makedirs (ax_folder auf_point).

Definition store (key : string) (out : auf_output) (st : loop_state) : loop_state :=
  {| perturb_auf_outputs := dict_set key out (perturb_auf_outputs st);
     arraylengths := arraylengths st; local_n := local_n st |}.

Definition set_arraylength (j i : nat) (n : Z) (st : loop_state) : loop_state :=
  {| perturb_auf_outputs := perturb_auf_outputs st;
     arraylengths := arraylengths st ++ [(j, i, n)]; local_n := local_n st |}.

Definition set_local_n (j : nat) (index_slice : list nat) (localn : list float)
  (st : loop_state) : loop_state :=
  {| perturb_auf_outputs := perturb_auf_outputs st;
     arraylengths := arraylengths st;
     local_n := local_n st ++ map (fun p => (fst p, j, snd p)) (combine index_slice localn) |}.

(** Line 427: [arraylengths[j, i] = len(perturb_auf_outputs[combo]['Narray'])]. *)
Definition record_length (j i : nat) (key : string) (st : loop_state) : py loop_state :=
  match dict_get key (perturb_auf_outputs st) with
  | None => raise KeyError
  | Some out =>
      match dict_get "Narray" out with
      | None => raise KeyError
      | Some narray => ret (set_arraylength j i (len narray) st)
      end
  end.

(** Lines 335-427: the body of [for j, filt in enumerate(filters)]. *)
Definition filter_step (c : config) (r dr : list float) (cat : catalogue)
  (i : nat) (auf_point : float * float) (t : tile_data) (j : nat) (filt : string)
  (st : loop_state) : py loop_state :=
  let key := perturb_auf_combo auf_point filt in
  if include_perturb_auf c
  then
    magnitudes <- column j (a_photo_cut t) ;;
    let good_mag_slice := map (fun m => negb (PrimFloat.is_nan m)) magnitudes in
    let a_photo := np.compress good_mag_slice magnitudes in
    match a_photo with
    | [] =>
        let st0 := set_arraylength j i 0 st in
        out <- delta_function_output r dr (j0s c) ;;
        ret (store key out st0)
    | _ :: _ =>
        let a_astro := np.compress good_mag_slice (a_astro_cut t) in
        tot_magnitudes <- column j (a_tot_photo cat) ;;
        match extent t with
        | None => raise NameError
        | Some e =>
            dens_mag <- np.item j (dens_mags e) ;;
            localn <- local_density a_astro (a_tot_astro cat) tot_magnitudes
                        (density_radius c) dens_mag ;;
            let index_slice := np.compress good_mag_slice (med_index_slice t) in
            let st1 := set_local_n j index_slice localn st in
            let ax1_list := np_linspace (ax1_min e) (ax1_max e) 7 in
            let ax2_list := np_linspace (ax2_min e) (ax2_max e) 7 in
            out <- single_perturb_auf c auf_point j dens_mag a_photo localn ax1_list ax2_list ;;
            record_length j i key (store key out st1)
        end
    end
  else
    out <- delta_function_output r dr (j0s c) ;;
    record_length j i key (store key out st).

Fixpoint filters_loop (c : config) (r dr : list float) (cat : catalogue)
  (i : nat) (auf_point : float * float) (t : tile_data) (j : nat) (filters : list string)
  (st : loop_state) : py loop_state :=
  match filters with
  | [] => ret st
  | filt :: filters' =>
      st' <- filter_step c r dr cat i auf_point t j filt st ;;
      filters_loop c r dr cat i auf_point t (S j) filters' st'
  end.

(** Lines 294-310. *)
Definition tile_extent_of (n_filters : nat) (photo_cut : np.array2)
  (astro_cut : list astro_row) : py (option tile_extent) :=
  match astro_cut with
  | [] => ret None
  | _ :: _ =>
      lon <- min_max_lon (map ax1_of astro_cut) ;;
      lat_min <- np.amin (map ax2_of astro_cut) ;;
      lat_max <- np.amax (map ax2_of astro_cut) ;;
      ret (Some {| ax1_min := fst lon; ax1_max := snd lon;
                   ax2_min := lat_min; ax2_max := lat_max;
                   dens_mags := density_magnitudes photo_cut n_filters |})
  end.

(** Lines 287-427: the body of [for i, auf_point in enumerate(auf_points)]. *)
Definition tile_step (c : config) (r dr : list float) (cat : catalogue)
  (filters : list string) (tiles : list nat) (i : nat) (auf_point : float * float)
  (st : loop_state) : py loop_state :=
  _ <- make_ax_folder auf_point ;;
  let sky_cut := map (Nat.eqb i) tiles in
  let photo_cut := rows_where sky_cut (a_tot_photo cat) in
  let astro_cut := np.compress sky_cut (a_tot_astro cat) in
  e <- (if include_perturb_auf c
        then tile_extent_of (length filters) photo_cut astro_cut
        else ret None) ;;
  _ <- match e with
       | Some e' => fetch_trilegal c auf_point e' photo_cut
       | None => ret tt
       end ;;
  filters_loop c r dr cat i auf_point
    {| med_index_slice := indices_where sky_cut; a_photo_cut := photo_cut;
       a_astro_cut := astro_cut; extent := e |}
    0 filters st.

Fixpoint tiles_loop (c : config) (r dr : list float) (cat : catalogue)
  (filters : list string) (tiles : list nat) (i : nat) (auf_points : list (float * float))
  (st : loop_state) : py loop_state :=
  match auf_points with
  | [] => ret st
  | auf_point :: auf_points' =>
      st' <- tile_step c r dr cat filters tiles i auf_point st ;;
      tiles_loop c r dr cat filters tiles (S i) auf_points' st'
  end.

(** Lines 429-498 assemble [modelrefinds] and the three grids from what the
    loop built; they are the function [finish]. *)
Variable result : Type.
Variable finish : config -> catalogue -> list nat -> loop_state -> py result.

Definition make_perturb_aufs (c : config) (cat : catalogue) (filters : list string)
  (auf_points : list (float * float)) (r dr : list float) : py result :=
  c' <- check_arguments c ;;
  let tiles := find_nearest_point (a_tot_astro cat) auf_points in
  st <- tiles_loop c' r dr cat filters tiles 0 auf_points
          {| perturb_auf_outputs := []; arraylengths := []; local_n := [] |} ;;
  finish c' cat tiles st.

End MakePerturbAufs.

(** *** download_trilegal_simulation (lines 501-637) *)

(** One call of [get_trilegal] as the function experiences it: how long the
    call takes, the pair it returns, and the number of lines of
    [trilegal_auf_simulation.dat] once it is over ([None]: no such file). *)
Record reply : Type := {
  elapsed : Z;
  av_inf : float;
  result_ : string;
  lines_after : option Z
}.

(** Where the function stands between two calls. [Searching] is the loop of
    lines 559-624, inside its [try]; [Rerun] is the loop of lines 625-631;
    [Finished] carries the area and extinction written to the header of the
    file, or the exception raised. *)
Inductive phase : Type :=
| Searching (triarea : float) (area_halved : bool) (nocomm_count : Z)
| Rerun (triarea : float)
| Finished (outcome : py (float * float)).

(** [min(10, x)] *)
Definition min_10 (x : float) : float := if (x <? 10)%float then x else 10%float.

(** [signal.alarm(11*60)] *)
Definition alarm_seconds : Z := 11 * 60.

(** The area of the next call and the alarm it runs under, if any. *)
Definition next_call (p : phase) : option (float * option Z) :=
  match p with
  | Searching triarea _ _ => Some (triarea, Some alarm_seconds)
  | Rerun triarea => Some (triarea, None)
  | Finished _ => None
  end.

(** Lines 594-624, after a call of the search loop returned a result other
    than "timeout" and "nocomm". *)
Definition judge_counts (total_objs triarea : float) (area_halved : bool) (r : reply)
  : phase :=
  match lines_after r with
  | None => Finished (raise FileNotFoundError)
  | Some n =>
      let nobjs := (n - 2)%Z in
      if (nobjs <? 10000)%Z && negb area_halved
      then let triarea' := min_10 (triarea * 10) in
           if (triarea' =? 10)%float then Rerun triarea'
           else Searching triarea' area_halved 0
      else if (float_of_Z nobjs <? total_objs)%float && negb area_halved
      then Rerun (min_10 (triarea / float_of_Z nobjs * total_objs))
      else Finished (ret (triarea, av_inf r))
  end.

(** The effect of one call of [get_trilegal]. *)
Definition step (total_objs : float) (p : phase) (r : reply) : phase :=
  match p with
  | Searching triarea area_halved nocomm_count =>
      if (alarm_seconds <=? elapsed r)%Z
      then Searching (triarea / 2) true 0
      else
        let nocomm_count' :=
          if String.eqb (result_ r) "nocomm" then (nocomm_count + 1)%Z else nocomm_count in
        if (5 <=? nocomm_count')%Z
        then Finished (raise (HTTPError ("TRILEGAL server has not communicated in "
                                         ++ str_of_Z nocomm_count' ++ " attempts.")%string))
        else if String.eqb (result_ r) "timeout" || String.eqb (result_ r) "nocomm"
        then Searching triarea area_halved nocomm_count'
        else judge_counts total_objs triarea area_halved r
  | Rerun triarea =>
      if String.eqb (result_ r) "timeout" then Rerun triarea
      else match lines_after r with
           | None => Finished (raise FileNotFoundError)
           | Some _ => Finished (ret (triarea, av_inf r))
           end
  | Finished outcome => Finished outcome
  end.

(** The function run against the replies of the server, in order. A result
    other than [Finished] means that the function is waiting for a further
    reply. *)
Definition download_trilegal_simulation (min_area total_objs : float)
  (replies : list reply) : phase :=
  fold_left (step total_objs) replies (Searching (min_10 min_area) false 0).

(** The calls made while the replies are consumed: area and alarm of each. *)
Fixpoint calls_from (total_objs : float) (p : phase) (replies : list reply)
  : list (float * option Z) :=
  match replies with
  | [] => []
  | r :: replies' =>
      match next_call p with
      | None => []
      | Some call => call :: calls_from total_objs (step total_objs p r) replies'
      end
  end.

(** A call that returns within the alarm and reports that the server did
    not communicate. *)
Definition silent_in_time (r : reply) : Prop :=
  (elapsed r < alarm_seconds)%Z /\ result_ r = "nocomm"%string.

(** Replies of the worked examples: a simulation of 50000 objects returned
    after a minute; a call that takes a day and reports no communication,
    leaving no file. *)
Definition good_reply : reply :=
  {| elapsed := 60; av_inf := 0.5%float; result_ := "good"; lines_after := Some 50002%Z |}.

Definition silent_reply : reply :=
  {| elapsed := 86400; av_inf := 0%float; result_ := "nocomm"; lines_after := None |}.

(** A call for the flux-weighted algorithm alone, which needs neither
    [dd_params] nor [l_cut]. *)
Definition flux_weighted_config : config :=
  {| include_perturb_auf := true; j0s := Some (np.ones2 2 3);
     tri_download_flag := false; delta_mag_cuts := Some [2.5; 5]%float;
     psf_fwhms := Some [6.1]%float; tri_set_name := Some "2mass_spitzer_wise"%string;
     tri_filt_num := Some 11%Z; tri_filt_names := Some ["W1"%string];
     tri_maglim_faint := Some 32%float; tri_num_faint := Some 1500000%Z;
     auf_region_frame := Some "galactic"%string; num_trials := Some 10000%Z;
     d_mag := Some 0.1%float; density_radius := Some 0.1%float; run_fw := Some true;
     run_psf := Some false; dd_params := None; l_cut := None;
     snr_mag_params := Some [np.mk_array2 5 [[0; 1; 0; 10; 0]%float]];
     al_avs := Some [0.039]%float; fit_gal_flag := Some false; cmau_array := None;
     wavs := None; z_maxs := None; nzs := None; ab_offsets := None;
     filter_names := None; alpha0 := None; alpha1 := None; alpha_weight := None |}.

(** The positions [(j, i)] of [arraylengths] in the order in which the two
    loops visit them, for [n_points] sky positions from [i0] on. *)
Definition visited (n_filters i0 n_points : nat) : list (nat * nat) :=
  flat_map (fun i => map (fun j => (j, i)) (seq 0 n_filters)) (seq i0 n_points).

(** The state after the bundle [b] of a Dirac delta was stored under each of
    [keys], with the length one at each position of [at_]. *)
Definition stored_deltas (b : auf_output) (keys : list string) (at_ : list (nat * nat))
  (st : loop_state) : loop_state :=
  {| perturb_auf_outputs := fold_left (fun d key => dict_set key b d) keys
                              (perturb_auf_outputs st);
     arraylengths := arraylengths st ++ map (fun ji => (ji, 1%Z)) at_;
     local_n := local_n st |}.

(** The state before the loops (lines 280-285). *)
Definition initial_state : loop_state :=
  {| perturb_auf_outputs := []; arraylengths := []; local_n := [] |}.

(** A bundle that holds the array ['Narray']. *)
Definition has_narray (out : auf_output) : Prop :=
  exists narray, dict_get "Narray" out = Some narray.

(** Every key of [keys] holds a bundle with its ['Narray']. *)
Definition all_stored (keys : list string) (d : list (string * auf_output)) : Prop :=
  forall key, In key keys -> exists out, dict_get key d = Some out /\ has_narray out.

(** A call of the search loop that returns within the alarm and asks for
    another call: the busy tone "timeout" of [get_trilegal], or "nocomm". *)
Definition retry_in_time (r : reply) : Prop :=
  (elapsed r < alarm_seconds)%Z /\ (result_ r = "timeout" \/ result_ r = "nocomm")%string.

(** The replies "nocomm" among the replies. *)
Definition count_nocomm (rs : list reply) : Z :=
  Z.of_nat (length (filter (fun r => String.eqb (result_ r) "nocomm") rs)).

(** A call that returns a simulation within the alarm. *)
Definition result_in_time (r : reply) : Prop :=
  (elapsed r < alarm_seconds)%Z /\ result_ r <> "timeout"%string
  /\ result_ r <> "nocomm"%string /\ lines_after r <> None.

(** The busy tone of [get_trilegal], and a reply that the server did not
    communicate, both well within the alarm. *)
Definition busy_reply : reply :=
  {| elapsed := 120; av_inf := 0%float; result_ := "timeout"; lines_after := None |}.

Definition nocomm_reply : reply :=
  {| elapsed := 120; av_inf := 0%float; result_ := "nocomm"; lines_after := None |}.

(** A call cut by the alarm, and a small simulation returned in time. *)
Definition stalled_reply : reply :=
  {| elapsed := 700; av_inf := 0%float; result_ := "timeout"; lines_after := None |}.

Definition small_reply : reply :=
  {| elapsed := 60; av_inf := 0.5%float; result_ := "good"; lines_after := Some 502%Z |}.

(** The sky position of [sparse_patch] with galaxy counts fitted and a
    density magnitude brighter than every bin of the model. *)
Definition bright_limit_patch : single_auf_args :=
  {| tri_folder := "auf/10.0/0.0"; auf_point := (10, 0)%float; psf_fwhm := 6%float;
     filt_header := "W1"; density_mag := 13%float; a_photo := [14; 16]%float;
     localn := [1000; 1000]%float; sa_d_mag := 0.1%float;
     sa_snr_mag_params := [[0; 1; 0; 10; 0]%float]; al_av := 0.1%float;
     region_frame := "galactic"; ax1s := [10]%float; ax2s := [0]%float;
     sa_fit_gal_flag := true |}.

(** *** The header of a TRILEGAL file (lines 632-637) and make_tri_counts
    (lines 995-1210) *)

(** The newline character, and the line break as a text. *)
Definition newline : ascii := ascii_of_nat 10.

Definition nl : string := String newline EmptyString.

(** [f.readline()]: the text up to and including the first newline, and
    what is left of the file. *)
Fixpoint readline (s : string) : string * string :=
  match s with
  | EmptyString => (EmptyString, EmptyString)
  | String ch s' =>
      if Ascii.eqb ch newline then (String ch EmptyString, s')
      else let (line, rest) := readline s' in (String ch line, rest)
  end.

(** [s.split(' ')]: the pieces between single spaces. *)
Fixpoint split_space (s : string) : list string :=
  match s with
  | EmptyString => [EmptyString]
  | String ch s' =>
      if Ascii.eqb ch " " then EmptyString :: split_space s'
      else match split_space s' with
           | piece :: pieces => String ch piece :: pieces
           | [] => [String ch EmptyString]
           end
  end.

(** A text without space and without newline, as the text of a float is. *)
Fixpoint unbroken (s : string) : bool :=
  match s with
  | EmptyString => true
  | String ch s' => negb (Ascii.eqb ch " ") && negb (Ascii.eqb ch newline) && unbroken s'
  end.

(** A text without newline. *)
Fixpoint one_line (s : string) : bool :=
  match s with
  | EmptyString => true
  | String ch s' => negb (Ascii.eqb ch newline) && one_line s'
  end.

(** Line 634: the two lines put before the lines of the file, and lines
    632-637: the file as rewritten. [fmt_float] is the text an f-string gives
    a float. *)
Definition header_text (fmt_float : float -> string) (triarea av_inf : float) : string :=
  ("#area = " ++ fmt_float triarea ++ " sq deg" ++ nl
   ++ "#Av at infinity = " ++ fmt_float av_inf ++ nl)%string.

Definition with_header (fmt_float : float -> string) (triarea av_inf : float)
  (contents : string) : string :=
  (header_text fmt_float triarea av_inf ++ contents)%string.

(** What [make_tri_counts] takes from one TRILEGAL file: the area and the
    extinction at infinity of its header, and the columns of the magnitudes
    of the filter and of [Av]. *)
Record tri_file : Type := {
  tri_area : float;
  tri_av_inf : float;
  tridata : list float;
  tri_avs : list float
}.

Section MakeTriCounts.

(** [float(text)], which raises [ValueError] on a text that is no number. *)
Variable py_float : string -> py float.
(** The content of a file, as [open(path, "r")] and the reads that follow
    see it; [FileNotFoundError] when there is none. *)
Variable read_text : string -> py string.
(** [np.genfromtxt(path, ..., skip_header=2, usecols=[trifiltname, 'Av'])]:
    the two columns. *)
Variable genfromtxt : string -> string -> py (list float * list float).
(** Lines 1091-1210: the histograms of the magnitudes and what is returned
    from them. *)
Variable histograms :
  float -> float -> float -> option float -> option (list float) ->
  option tri_file -> option tri_file -> py tri_counts.

(** Lines 1062-1075 for [which = "faint"], 1078-1089 for ["bright"]. *)
Definition load_tri_file (trifolder trifilename trifiltname which : string)
  (av_grid : option (list float)) : py tri_file :=
  let path := (trifolder ++ "/" ++ trifilename ++ "_" ++ which ++ ".dat")%string in
  content <- read_text path ;;
  let (area_line, rest) := readline content in
  let (av_line, _) := readline rest in
  area_text <- np.item 2 (split_space area_line) ;;
  area <- py_float area_text ;;
  av_text <- np.item 4 (split_space av_line) ;;
  av_inf <- py_float av_text ;;
  _ <- raise_if ((av_inf <? 0.1)%float && given av_grid)
         ("tri_av_inf_" ++ which ++ " cannot be smaller than 0.1 while using av_grid.") ;;
  columns <- genfromtxt path trifiltname ;;
  ret {| tri_area := area; tri_av_inf := av_inf;
         tridata := fst columns; tri_avs := snd columns |}.

Definition make_tri_counts (trifolder trifilename trifiltname : string)
  (dm brightest_source_mag density_mag : float) (use_bright use_faint : bool)
  (al_av : option float) (av_grid : option (list float)) : py tri_counts :=
  _ <- raise_if (negb use_bright && negb use_faint)
         "use_bright and use_faint cannot both be 'False'." ;;
  _ <- raise_if (is_None al_av && given av_grid || given al_av && is_None av_grid)
         "If one of al_av or av_grid is provided the other must be given as well." ;;
  faint <- (if use_faint
            then f <- load_tri_file trifolder trifilename trifiltname "faint" av_grid ;;
                 ret (Some f)
            else ret None) ;;
  bright <- (if use_bright
             then f <- load_tri_file trifolder trifilename trifiltname "bright" av_grid ;;
                  ret (Some f)
             else ret None) ;;
  histograms dm brightest_source_mag density_mag al_av av_grid faint bright.

(** The call of lines 862-865: the faint file only, with [al_av] and the
    grid of extinctions. *)
Definition make_tri_counts_faint (trifolder trifilename trifiltname : string)
  (dm brightest_source_mag density_mag al_av : float) (av_grid : list float)
  : py tri_counts :=
  make_tri_counts trifolder trifilename trifiltname dm brightest_source_mag density_mag
    false true (Some al_av) (Some av_grid).

End MakeTriCounts.

(** [float] at the texts of the worked examples of Part II, with or
    without a newline after them. *)
Definition float_table (text : string) : py float :=
  if (String.eqb text "0.0" || String.eqb text ("0.0" ++ nl))%string then ret 0%float
  else if (String.eqb text "10.0" || String.eqb text ("10.0" ++ nl))%string then ret 10%float
  else raise (ValueError "could not convert string to float").

(** *** make_perturb_aufs: what is assembled after the loops
    (lines 429-498) *)

(** The value last assigned at a position of a two-dimensional array that
    was created holding [default]. *)
Definition assigned {V : Type} (default : V) (log : list (nat * nat * V)) (a b : nat) : V :=
  fold_left (fun acc e => if Nat.eqb (fst (fst e)) a && Nat.eqb (snd (fst e)) b
                          then snd e else acc)
            log default.

(** [arraylengths], of shape [(len(filters), len(auf_points))]. *)
Definition arraylengths_array (n_filters n_points : nat) (log : list (nat * nat * Z))
  : list (list Z) :=
  map (fun j => map (fun i => assigned 0%Z log j i) (seq 0 n_points)) (seq 0 n_filters).

(** [np.amax] of an integer array. *)
Definition amax_Z (xs : list Z) : py Z :=
  match xs with
  | [] => raise (ValueError "zero-size array to reduction operation maximum which has no identity")
  | x :: xs' => ret (fold_left Z.max xs' x)
  end.

(** The position [i] of Python stands for in an axis of length [n]: a
    negative index counts from the end. *)
Definition wrap_index (i : Z) (n : nat) : py nat :=
  if (0 <=? i)%Z && (i <? Z.of_nat n)%Z then ret (Z.to_nat i)
  else if (- Z.of_nat n <=? i)%Z && (i <? 0)%Z then ret (Z.to_nat (Z.of_nat n + i))
  else raise IndexError.

(** [xs[i]] for a Python integer [i]. *)
Definition py_item {A : Type} (i : Z) (xs : list A) : py A :=
  k <- wrap_index i (length xs) ;; np.item k xs.

(** [np.argmin]: the position of the first NaN when there is one, of the
    first of the smallest entries otherwise. *)
Fixpoint argmin_from (best_k k : nat) (best : float) (xs : list float) : nat :=
  match xs with
  | [] => best_k
  | x :: xs' =>
      if negb (PrimFloat.is_nan best) && ((x <? best)%float || PrimFloat.is_nan x)
      then argmin_from k (S k) x xs'
      else argmin_from best_k (S k) best xs'
  end.

Definition argmin (xs : list float) : py nat :=
  match xs with
  | [] => raise (ValueError "attempt to get argmin of an empty sequence")
  | x :: xs' => ret (argmin_from 0 1 x xs')
  end.

(** [x**2] on an array: [np.square]. *)
Definition square (x : float) : float := (x * x)%float.

(** [row[:] = values] on a row of [n] entries: [values] has [n] entries, or
    one entry, which is repeated. *)
Definition assign_row {A : Type} (n : nat) (values : list A) : py (list A) :=
  if Nat.eqb (length values) n then ret values
  else match values with
       | [v] => ret (repeat v n)
       | _ => raise (ValueError "could not broadcast input array")
       end.

(** An array as the value assigned to a slice of one axis: one-dimensional,
    or two-dimensional with a single row. *)
Definition as_vector (a : np.ndarray) : py (list float) :=
  match a with
  | np.Ints v => ret (map float_of_Z v)
  | np.Floats v => ret v
  | np.Floats2 m =>
      match np.rows m with
      | [row] => ret row
      | _ => raise (ValueError "could not broadcast input array")
      end
  end.

(** [d[key]] *)
Definition dict_item {V : Type} (key : string) (d : list (string * V)) : py V :=
  match dict_get key d with
  | Some v => ret v
  | None => raise KeyError
  end.

(** [enumerate(xs)] *)
Definition enumerate {A : Type} (xs : list A) : list (nat * A) :=
  combine (seq 0 (length xs)) xs.

(** A value of the dictionary [perturb_auf_outputs] when it is returned:
    the bundle of a sky position and filter, or one of the three grids. *)
Inductive output_value (grid : Type) : Type :=
| Bundle (b : auf_output)
| Grid (g : grid).

Arguments Bundle {grid} b.
Arguments Grid {grid} g.

(** What [make_perturb_aufs] returns. *)
Record perturb_aufs_result (grid : Type) : Type := {
  modelrefinds : list (list Z);
  outputs : list (string * output_value grid)
}.

Arguments modelrefinds {grid} _.
Arguments outputs {grid} _.

Section Finish.

Variable fmt_float : float -> string.
Variable grid : Type.
(** [misc_functions.create_auf_params_grid(perturb_auf_outputs, auf_points,
    filters, name, arraylengths, len_first_axis)]. *)
Variable create_auf_params_grid :
  list (string * output_value grid) -> list (float * float) -> list string -> string ->
  list (list Z) -> option Z -> py grid.

Variable filters : list string.
Variable auf_points : list (float * float).
Variable c : config.
Variable cat : catalogue.
(** [modelrefinds[2, :]]: [mff.find_nearest_point] gives one index for each
    source. *)
Variable tiles : list nat.
Variable st : loop_state.

(** Lines 438-447 at one sky position and filter: the columns
    [narrays[:, j, i]] and [magarrays[:, j, i]]. *)
Definition fill_column (longestnm : Z) (i : nat) (auf_point : float * float)
  (j : nat) (filt : string) : py (list float * list float) :=
  let blank := repeat (-1)%float (Z.to_nat longestnm) in
  let length_ji := assigned 0%Z (arraylengths st) j i in
  if (length_ji =? 0)%Z then ret (blank, blank)
  else
    out <- dict_item (perturb_auf_combo fmt_float auf_point filt) (perturb_auf_outputs st) ;;
    narray <- dict_item "Narray" out ;;
    magarray <- dict_item "magarray" out ;;
    nvalues <- as_vector narray ;;
    ncol <- assign_row (Z.to_nat length_ji) nvalues ;;
    mvalues <- as_vector magarray ;;
    mcol <- assign_row (Z.to_nat length_ji) mvalues ;;
    ret ((ncol ++ skipn (Z.to_nat length_ji) blank)%list,
         (mcol ++ skipn (Z.to_nat length_ji) blank)%list).

(** Lines 430-447: [narrays] and [magarrays], as their columns at each sky
    position and filter. *)
Definition fill_arrays : py (list (list (list float * list float))) :=
  longestnm <- amax_Z (concat (arraylengths_array (length filters) (length auf_points)
                                 (arraylengths st))) ;;
  for_each (fun ip =>
              for_each (fun jf => fill_column longestnm (fst ip) (snd ip) (fst jf) (snd jf))
                       (enumerate filters))
           (enumerate auf_points).

(** The squared distances of line 465-468 for a source of local density
    [ln] and magnitude [m]. *)
Definition nm_distances (ln m : float) (narray magarray : list float) : list float :=
  np.map2 (fun N M => (square (ln - N) + square (m - M))%float) narray magarray.

(** Lines 463-469 for the source [i]. *)
Definition nm_index (columns : list (list (list float * list float))) (i : nat) : py Z :=
  axind <- np.item i tiles ;;
  filterind <- np.item i (magref cat) ;;
  j <- wrap_index filterind (length filters) ;;
  let ln := assigned 0%float (local_n st) i j in
  columns_i <- np.item axind columns ;;
  column <- np.item j columns_i ;;
  let length_ji := Z.to_nat (assigned 0%Z (arraylengths st) j axind) in
  row <- np.item i (np.rows (a_tot_photo cat)) ;;
  m <- py_item filterind row ;;
  nmind <- argmin (nm_distances ln m (firstn length_ji (fst column))
                     (firstn length_ji (snd column))) ;;
  ret (Z.of_nat nmind).

Definition finish : py (perturb_aufs_result grid) :=
  let n_sources := length (a_tot_astro cat) in
  let lengths := arraylengths_array (length filters) (length auf_points) (arraylengths st) in
  row0 <- (if include_perturb_auf c
           then columns <- fill_arrays ;;
                nm <- for_each (nm_index columns)
                        (seq 0 (length (np.rows (a_tot_photo cat)))) ;;
                ret (nm ++ repeat 0%Z (n_sources - length nm))%list
           else ret (repeat 0%Z n_sources)) ;;
  row1 <- assign_row n_sources (magref cat) ;;
  let n_fracs := match delta_mag_cuts c with
                 | None => 2%Z
                 | Some cuts => Z.of_nat (length cuts)
                 end in
  j0 <- match j0s c with
        | Some j => ret j
        | None => raise AttributeError
        end ;;
  let d0 := map (fun kv => (fst kv, Bundle (snd kv))) (perturb_auf_outputs st) in
  fourier_grid <- create_auf_params_grid d0 auf_points filters "fourier" lengths
                    (Some (Z.of_nat (length (np.rows j0)))) ;;
  let d1 := dict_set "fourier_grid" (Grid fourier_grid) d0 in
  frac_grid <- create_auf_params_grid d1 auf_points filters "frac" lengths (Some n_fracs) ;;
  let d2 := dict_set "frac_grid" (Grid frac_grid) d1 in
  flux_grid <- create_auf_params_grid d2 auf_points filters "flux" lengths None ;;
  let d3 := dict_set "flux_grid" (Grid flux_grid) d2 in
  ret {| modelrefinds := [row0; row1; map Z.of_nat tiles]; outputs := d3 |}.

End Finish.

(** Two sources at one sky position seen in one filter, with the three
    density-magnitude combinations simulated for it. *)
Definition three_combinations : auf_output :=
  [("frac", np.Floats2 (np.zeros2 2 3)); ("flux", np.Floats (np.zeros 3));
   ("offset", np.Floats2 (np.zeros2 2 3)); ("cumulative", np.Floats2 (np.ones2 2 3));
   ("fourier", np.Floats2 (np.ones2 2 3));
   ("Narray", np.Floats [1; 2; 4]%float); ("magarray", np.Floats [15; 15; 16]%float)]%string.

Definition two_sources_state : loop_state :=
  {| perturb_auf_outputs := [("10.0-0.0-W1"%string, three_combinations)];
     arraylengths := [(0%nat, 0%nat, 3%Z)];
     local_n := [(0%nat, 0%nat, 2%float); (1%nat, 0%nat, 4%float)] |}.

Definition two_sources : catalogue :=
  {| a_tot_astro := [(10, 0, 0.1)%float; (10, 0.5, 0.1)%float];
     a_tot_photo := np.mk_array2 1 [[15%float]; [16.5%float]]; magref := [0%Z; 0%Z] |}.

(** [v], at position [k], is the first of the smallest entries of [xs]: no
    entry is smaller, and every earlier one is larger. *)
Definition first_smallest (xs : list float) (k : nat) (v : float) : Prop :=
  nth_error xs k = Some v
  /\ forall k' x, nth_error xs k' = Some x ->
                  (v <=? x)%float = true /\ (k' < k -> (v <? x)%float = true).

(** Every sky position and filter has the bundle [b] in the dictionary
    [d]. *)
Definition bundle_everywhere {grid : Type} (fmt_float : float -> string)
  (auf_points : list (float * float)) (filters : list string) (b : auf_output)
  (d : list (string * output_value grid)) : Prop :=
  forall p filt, In p auf_points -> In filt filters ->
                 dict_get (perturb_auf_combo fmt_float p filt) d = Some (Bundle b).

End perturbation_auf.

(* ----------------------------------------------------------------- *)
(** ** group_sources.py: the grid cutout *)
(* ----------------------------------------------------------------- *)

Module group_sources.

Local Open Scope Q_scope.

(** Modelled from the spec: [_load_cumulative_grid_cutouts] of
    [group_sources.py], which is not among the sources (only its test,
    [test_load_cumulative_grid_cutouts], is). The specification gives its
    contract: from the astrometry array, a rectangle
    [[ax1_min, ax1_max, ax2_min, ax2_max]] and a padding in degrees, (a) the
    rows inside the padded rectangle, (b) the grid indices (density-magnitude
    combination, filter, sky position) referenced by an included source,
    compacted to [0..K-1], and (c) the references of the included sources in
    the compacted index space. The test fixes the compaction: each of the
    three axes keeps its referenced values, in ascending order. Coordinates
    are rationals. *)
Record source : Type := { ax1 : Q; ax2 : Q; axerr : Q }.

Record rectangle : Type := { ax1_min : Q; ax1_max : Q; ax2_min : Q; ax2_max : Q }.

(** A column of [modelrefinds]. *)
Definition grid_ref : Type := (nat * nat * nat)%type.

(** Modelled from the spec: a position is inside the padded rectangle. *)
Definition inside_padded (rect : rectangle) (padding : Q) (s : source) : bool :=
  Qle_bool (ax1_min rect - padding) (ax1 s) && Qle_bool (ax1 s) (ax1_max rect + padding)
  && Qle_bool (ax2_min rect - padding) (ax2 s) && Qle_bool (ax2 s) (ax2_max rect + padding).

(** Modelled from the spec: (a) the indices of the rows of the cutout. *)
Definition cutout_rows (a : list source) (rect : rectangle) (padding : Q) : list nat :=
  filter (fun i => match nth_error a i with
                   | Some s => inside_padded rect padding s
                   | None => false
                   end) (seq 0 (length a)).

(** The references of the rows of a cutout. *)
Definition referenced (modelrefinds : list grid_ref) (rows : list nat) : list grid_ref :=
  flat_map (fun i => match nth_error modelrefinds i with
                     | Some g => [g]
                     | None => []
                     end) rows.

(** [np.unique]: the values of a list, each once, ascending. *)
Definition unique (xs : list nat) : list nat :=
  filter (fun v => existsb (Nat.eqb v) xs) (seq 0 (S (list_max xs))).

(** Modelled from the spec: (b) the indices kept along each axis of the
    grid; the cutout of the grid is their product. *)
Definition cutout_axes (a : list source) (modelrefinds : list grid_ref)
  (rect : rectangle) (padding : Q) : list nat * list nat * list nat :=
  let refs := referenced modelrefinds (cutout_rows a rect padding) in
  (unique (map (fun g : grid_ref => fst (fst g)) refs),
   unique (map (fun g : grid_ref => snd (fst g)) refs),
   unique (map (fun g : grid_ref => snd g) refs)).

(** The grid columns of the cutout, as references into the full grid. *)
Definition cutout_combos (a : list source) (modelrefinds : list grid_ref)
  (rect : rectangle) (padding : Q) : list grid_ref :=
  let '(combos, filters, tiles) := cutout_axes a modelrefinds rect padding in
  flat_map (fun c => flat_map (fun f => map (fun t => (c, f, t)) tiles) filters) combos.

Fixpoint index_of (v : nat) (kept : list nat) : nat :=
  match kept with
  | [] => O
  | x :: kept' => if Nat.eqb v x then O else S (index_of v kept')
  end.

(** Modelled from the spec: (c) the references of the included sources in
    the compacted index space. *)
Definition cutout_modelrefinds (a : list source) (modelrefinds : list grid_ref)
  (rect : rectangle) (padding : Q) : list grid_ref :=
  let '(combos, filters, tiles) := cutout_axes a modelrefinds rect padding in
  map (fun g : grid_ref =>
         (index_of (fst (fst g)) combos, index_of (snd (fst g)) filters,
          index_of (snd g) tiles))
      (referenced modelrefinds (cutout_rows a rect padding)).

(** The error circle of a source reaches the rectangle: some point of the
    rectangle lies within [axerr] of the position. *)
Definition error_circle_overlaps (rect : rectangle) (s : source) : Prop :=
  exists x y : Q,
    ax1_min rect <= x /\ x <= ax1_max rect /\ ax2_min rect <= y /\ y <= ax2_max rect /\
    (x - ax1 s) * (x - ax1 s) + (y - ax2 s) * (y - ax2 s) <= axerr s * axerr s.

(** The catalogue of [test_load_cumulative_grid_cutouts], with the sources
    that matter at rows 0, 2, 4 and 6 and sources at the origin between. *)
Definition origin : source := {| ax1 := 0; ax2 := 0; axerr := 0 |}.

Definition test_astro : list source :=
  [ {| ax1 := 50; ax2 := 50; axerr := 1 # 10 |}; origin;
    {| ax1 := 48; ax2 := 59; axerr := 5 # 10 |}; origin;
    {| ax1 := 3998 # 100; ax2 := 43; axerr := 2 # 10 |}; origin;
    {| ax1 := 45; ax2 := 45; axerr := 2 # 10 |} ].

Definition test_modelrefinds : list grid_ref :=
  [(0, 2, 1); (0, 0, 0); (0, 2, 1); (0, 0, 0); (0, 1, 0); (0, 0, 0); (0, 2, 1)]%nat.

Definition test_rect : rectangle :=
  {| ax1_min := 40; ax1_max := 60; ax2_min := 40; ax2_max := 60 |}.

End group_sources.

(* ================================================================= *)
(** * Part II: properties *)
(* ================================================================= *)

(** ** numpy idioms *)

Module np_facts.

Lemma nth_logical_and (m1 m2 : list bool) (k : nat) :
  nth k (np.logical_and m1 m2) false = nth k m1 false && nth k m2 false.
Proof.
  revert m2 k; induction m1 as [|b m1 IH]; intros [|c m2] [|k]; simpl;
    rewrite ?andb_false_r; auto.
Qed.

Lemma nth_map_bool {A : Type} (f : A -> bool) (xs : list A) (k : nat) :
  nth k (map f xs) false = match nth_error xs k with
                           | Some x => f x
                           | None => false
                           end.
Proof.
  revert k; induction xs as [|x xs IH]; intros [|k]; simpl; auto.
Qed.

Lemma nth_repeat_true (n k : nat) : nth k (repeat true n) false = (k <? n)%nat.
Proof.
  revert k; induction n as [|n IH]; intros [|k]; simpl; auto.
Qed.

Lemma nth_all_axis0 (cond : float -> bool) (a : np.array2) (k : nat) :
  nth k (np.all_axis0 cond a) false
  = (k <? np.ncols a)%nat
    && forallb (fun row => match nth_error row k with
                           | Some x => cond x
                           | None => false
                           end) (np.rows a).
Proof.
  unfold np.all_axis0. induction (np.rows a) as [|row rs IH]; simpl.
  - rewrite nth_repeat_true, andb_true_r. reflexivity.
  - rewrite nth_logical_and, IH, nth_map_bool.
    destruct (nth_error row k) as [x|]; simpl.
    + destruct (cond x); simpl; auto. now rewrite andb_false_r.
    + now rewrite andb_false_r.
Qed.

Lemma compress_Forall {A : Type} (P : A -> Prop) (m : list bool) (xs : list A) :
  (forall k x, nth k m false = true -> nth_error xs k = Some x -> P x) ->
  Forall P (np.compress m xs).
Proof.
  revert xs; induction m as [|b m IH]; intros [|x xs] H; simpl; auto.
  destruct b.
  - constructor.
    + apply (H 0%nat x); reflexivity.
    + apply IH. intros k y Hk Hy. apply (H (S k) y); assumption.
  - apply IH. intros k y Hk Hy. apply (H (S k) y); assumption.
Qed.

End np_facts.

(** ** counterpart_pairing: what is saved *)

Module pairing_properties.

Import counterpart_pairing.
Import np_facts.

Lemma filter_map_S (f : nat -> bool) (l : list nat) :
  filter f (map S l) = map S (filter (fun k => f (S k)) l).
Proof.
  induction l as [|x l IH]; simpl; auto.
  destruct (f (S x)); simpl; now rewrite IH.
Qed.

Lemma gather_cons_S {A : Type} (x : A) (xs : list A) (ks : list nat) :
  gather (x :: xs) (map S ks) = gather xs ks.
Proof.
  unfold gather. induction ks as [|k ks IH]; simpl; auto.
  now rewrite IH.
Qed.

Lemma compress_gather {A : Type} (m : list bool) (xs : list A) :
  np.compress m xs
  = gather xs (kept_rows m (length xs)).
Proof.
  unfold kept_rows.
  revert m; induction xs as [|x xs IH]; intros [|b m]; simpl; auto.
  - induction (seq 1 (length xs)) as [|k ks IHk]; simpl; auto.
    destruct k; simpl; auto.
  - rewrite <- seq_shift, filter_map_S. simpl.
    destruct b; simpl; rewrite ?gather_cons_S, <- ?IH; auto.
Qed.

Lemma kept_rows_nil (n : nat) : kept_rows [] n = [].
Proof.
  unfold kept_rows. induction (seq 0 n) as [|k ks IH]; simpl; auto.
  destruct k; simpl; auto.
Qed.

Lemma kept_rows_cons (b : bool) (m : list bool) (n : nat) :
  kept_rows (b :: m) (S n) = (if b then [0%nat] else []) ++ map S (kept_rows m n).
Proof.
  unfold kept_rows. rewrite <- cons_seq, <- seq_shift. simpl.
  rewrite filter_map_S. destruct b; reflexivity.
Qed.

Lemma length_filter_firstn (m : list bool) (n : nat) :
  length (filter (fun b : bool => b) (firstn n m)) = length (kept_rows m n).
Proof.
  revert m; induction n as [|n IH]; intros [|b m];
    rewrite ?kept_rows_nil, ?kept_rows_cons; simpl; auto.
  rewrite length_app, length_map, <- IH. destruct b; reflexivity.
Qed.

Lemma index_rows_kept (variable : npy) (m : list bool) :
  index_rows variable m = rows_kept variable m.
Proof.
  destruct variable; simpl; now rewrite compress_gather.
Qed.

Lemma index_cols_kept (a : np.array2) (m : list bool) :
  index_cols (np.Floats2 a) m = columns_kept a m.
Proof.
  unfold index_cols, columns_kept, np.compress_cols.
  rewrite length_filter_firstn. do 2 f_equal.
  apply map_ext. intro row. apply compress_gather.
Qed.

Lemma files_check_totals (cat tail : string) (tot big_len : Z) (w : world) :
  files (check_totals cat tail tot big_len w) = files w.
Proof.
  unfold check_totals. destruct (tot <? big_len)%Z, (tot >? big_len)%Z; reflexivity.
Qed.

Lemma warnings_save_all (folder : string) (plan : list (string * npy * list bool)) (w : world) :
  warnings (save_all folder plan w) = warnings w.
Proof.
  unfold save_all. revert w; induction plan as [|[[n v] f] plan IH]; intro w; simpl; auto.
  rewrite IH. reflexivity.
Qed.

Lemma source_pairing_files fip (i : pairing_inputs) (w : world) :
  files (source_pairing fip i w)
  = files w ++ saved_arrays (large_len_of i) (probabilities_of fip i) (joint_folder_path i).
Proof.
  unfold source_pairing. rewrite !files_check_totals.
  unfold save_all, file_names, variables, filter_variables, saved_arrays.
  cbn [combine fold_left save_one String.eqb Ascii.eqb Bool.eqb orb np_save files].
  rewrite <- !index_rows_kept, <- !index_cols_kept.
  rewrite <- !app_assoc. reflexivity.
Qed.

Lemma nth_map_entry {A : Type} (f : A -> bool) (xs : list A) (k : nat) :
  nth k (map f xs) false = true <-> entry xs k (fun x => f x = true).
Proof.
  rewrite nth_map_bool. unfold entry. destruct (nth_error xs k) as [x|].
  - split; [intro H; exists x; auto | intros [y [E H]]; congruence].
  - split; [discriminate | intros [y [E _]]; discriminate].
Qed.

Lemma nth_below_sentinel (L : Z) (inds : list Z) (k : nat) :
  nth k (below_sentinel L inds) false = true <-> entry inds k (fun x => (x < L + 1)%Z).
Proof.
  unfold below_sentinel. rewrite nth_map_entry. unfold entry.
  split; intros [x [E H]]; exists x; split; auto; apply Z.ltb_lt; exact H.
Qed.

Lemma nth_all_axis0_entries (cond : float -> bool) (a : np.array2) (k : nat) :
  nth k (np.all_axis0 cond a) false = true
  <-> column_entries a k (fun x => cond x = true).
Proof.
  rewrite nth_all_axis0, andb_true_iff, Nat.ltb_lt, forallb_forall.
  unfold column_entries, entry. split; intros [Hk H]; split; auto.
  - intros row Hrow. specialize (H row Hrow).
    destruct (nth_error row k) as [x|]; [exists x; auto | discriminate].
  - intros row Hrow. destruct (H row Hrow) as [x [E Hx]]. now rewrite E.
Qed.

Lemma countfilter_valid (L : Z) (o : island_probabilities) (k : nat) :
  nth k (countfilter L o) false = true <-> counterpart_row_valid L o k.
Proof.
  unfold countfilter, counterpart_row_valid.
  rewrite !nth_logical_and, !andb_true_iff, !nth_below_sentinel,
    !nth_all_axis0_entries, !nth_map_entry.
  unfold ge0, ge_m30. tauto.
Qed.

Lemma afieldfilter_valid (L : Z) (o : island_probabilities) (k : nat) :
  nth k (afieldfilter L o) false = true
  <-> field_row_valid L (afieldinds o) (probfaarray o) k.
Proof.
  unfold afieldfilter, field_row_valid.
  rewrite nth_logical_and, andb_true_iff, nth_below_sentinel, nth_map_entry.
  unfold ge0. tauto.
Qed.

Lemma bfieldfilter_valid (L : Z) (o : island_probabilities) (k : nat) :
  nth k (bfieldfilter L o) false = true
  <-> field_row_valid L (bfieldinds o) (probfbarray o) k.
Proof.
  unfold bfieldfilter, field_row_valid.
  rewrite nth_logical_and, andb_true_iff, nth_below_sentinel, nth_map_entry.
  unfold ge0. tauto.
Qed.

Lemma skipn_written {A : Type} (old new : list A) : skipn (length old) (old ++ new) = new.
Proof.
  induction old as [|x old IH]; simpl; auto.
Qed.

Lemma gather_Forall {A : Type} (P : A -> Prop) (m : list bool) (xs : list A) :
  (forall k x, nth k m false = true -> nth_error xs k = Some x -> P x) ->
  Forall P (gather xs (kept_rows m (length xs))).
Proof.
  rewrite <- compress_gather. apply compress_Forall.
Qed.

Lemma entry_unique {A : Type} (xs : list A) (k : nat) (P : A -> Prop) (x : A) :
  entry xs k P -> nth_error xs k = Some x -> P x.
Proof.
  intros [y [E H]] E'. congruence.
Qed.

(** C10: a row of the counterpart arrays is saved only when both indices are
    below the sentinel, every contamination probability of both catalogues,
    both contaminating fluxes and the match probability are non-negative, and
    [eta] and [xi] are at least -30; a row of the field arrays only when its
    index is below the sentinel and its probability is non-negative. Every
    saved array holds exactly the rows that pass, so a row can be dropped
    although no sentinel marks it (as row 0 of [weak_pair] is). *)
Theorem saved_rows_pass_every_check :
  (forall (fip : pairing_inputs -> Z -> Z -> island_probabilities)
          (i : pairing_inputs) (w : world),
      let L := large_len_of i in
      let o := probabilities_of fip i in
      (forall k, nth k (countfilter L o) false = true <-> counterpart_row_valid L o k)
      /\ (forall k, nth k (afieldfilter L o) false = true
                    <-> field_row_valid L (afieldinds o) (probfaarray o) k)
      /\ (forall k, nth k (bfieldfilter L o) false = true
                    <-> field_row_valid L (bfieldinds o) (probfbarray o) k)
      /\ skipn (length (files w)) (files (source_pairing fip i w))
         = saved_arrays L o (joint_folder_path i))
  /\ (entry (acountinds weak_pair) 0 (fun x => (x < 1 + 1)%Z)
      /\ entry (bcountinds weak_pair) 0 (fun x => (x < 1 + 1)%Z)
      /\ nth 0 (countfilter 1 weak_pair) false = false).
Proof.
  split.
  - intros fip i w L o.
    split; [intro k; apply countfilter_valid |].
    split; [intro k; apply afieldfilter_valid |].
    split; [intro k; apply bfieldfilter_valid |].
    rewrite source_pairing_files. apply skipn_written.
  - repeat split; try (exists 0%Z; split; [reflexivity | lia]).
Qed.

(** C1: no index at or above [large_len + 1] is in a saved index array, and a
    row of the counterpart or field arrays whose index is at or above
    [large_len + 1] is dropped by the filter of its files. *)
Theorem sentinel_rows_never_saved :
  forall (fip : pairing_inputs -> Z -> Z -> island_probabilities)
         (i : pairing_inputs) (w : world),
    let L := large_len_of i in
    let o := probabilities_of fip i in
    Forall (index_array_below L)
           (skipn (length (files w)) (files (source_pairing fip i w)))
    /\ (forall k x,
          nth_error (acountinds o) k = Some x \/ nth_error (bcountinds o) k = Some x ->
          (L + 1 <= x)%Z -> nth k (countfilter L o) false = false)
    /\ (forall k x, nth_error (afieldinds o) k = Some x ->
                    (L + 1 <= x)%Z -> nth k (afieldfilter L o) false = false)
    /\ (forall k x, nth_error (bfieldinds o) k = Some x ->
                    (L + 1 <= x)%Z -> nth k (bfieldfilter L o) false = false).
Proof.
  intros fip i w L o. repeat split.
  - rewrite source_pairing_files, skipn_written. fold L o.
    unfold saved_arrays, index_array_below.
    repeat (apply Forall_cons; [cbn [snd rows_kept columns_kept]; auto |]);
      try apply Forall_nil.
    + apply gather_Forall. intros k x Hk E.
      apply countfilter_valid in Hk. destruct Hk as [Ha _].
      exact (entry_unique _ _ _ _ Ha E).
    + apply gather_Forall. intros k x Hk E.
      apply countfilter_valid in Hk. destruct Hk as [_ [Hb _]].
      exact (entry_unique _ _ _ _ Hb E).
    + apply gather_Forall. intros k x Hk E.
      apply afieldfilter_valid in Hk. destruct Hk as [Ha _].
      exact (entry_unique _ _ _ _ Ha E).
    + apply gather_Forall. intros k x Hk E.
      apply bfieldfilter_valid in Hk. destruct Hk as [Hb _].
      exact (entry_unique _ _ _ _ Hb E).
  - intros k x E Hx. apply not_true_is_false. intro Hk.
    apply countfilter_valid in Hk. destruct Hk as [Ha [Hb _]].
    destruct E as [E|E];
      [pose proof (entry_unique _ _ _ _ Ha E) | pose proof (entry_unique _ _ _ _ Hb E)];
      simpl in *; lia.
  - intros k x E Hx. apply not_true_is_false. intro Hk.
    apply afieldfilter_valid in Hk. destruct Hk as [Ha _].
    pose proof (entry_unique _ _ _ _ Ha E). simpl in *. lia.
  - intros k x E Hx. apply not_true_is_false. intro Hk.
    apply bfieldfilter_valid in Hk. destruct Hk as [Ha _].
    pose proof (entry_unique _ _ _ _ Ha E). simpl in *. lia.
Qed.

Lemma warnings_check_totals (cat tail : string) (tot big_len : Z) (w : world) :
  warnings (check_totals cat tail tot big_len w)
  = warnings w ++ mismatch_warning cat tail tot big_len.
Proof.
  unfold check_totals, mismatch_warning.
  destruct (Z.ltb_spec tot big_len), (Z.gtb_spec tot big_len); simpl;
    rewrite ?app_nil_r; try reflexivity; lia.
Qed.

Lemma mismatch_warning_nil (cat tail : string) (tot big_len : Z) :
  mismatch_warning cat tail tot big_len = [] <-> tot = big_len.
Proof.
  unfold mismatch_warning.
  destruct (Z.ltb_spec tot big_len), (Z.gtb_spec tot big_len); simpl;
    split; intro E; try discriminate; try reflexivity; lia.
Qed.

(** C2: whatever the totals, the 22 arrays are saved. After that, each
    catalogue whose counterparts, field sources and rejected sources do not
    add up to its length gets one warning, for a shortfall or for an excess,
    and none when they add up; the function ends normally, leaving both the
    files and the warnings. *)
Theorem totals_mismatch_only_warns :
  forall (fip : pairing_inputs -> Z -> Z -> island_probabilities)
         (i : pairing_inputs) (w : world),
    let out := source_pairing fip i w in
    let big_len_a := Z.of_nat (length (a_astro i)) in
    let big_len_b := Z.of_nat (length (b_astro i)) in
    files out
    = files w ++ saved_arrays (large_len_of i) (probabilities_of fip i) (joint_folder_path i)
    /\ map fst (skipn (length (files w)) (files out))
       = map (pairing_file (joint_folder_path i)) file_names
    /\ warnings out
       = warnings w ++ mismatch_warning "a" "" (total_a fip i) big_len_a
                    ++ mismatch_warning "b" "." (total_b fip i) big_len_b
    /\ (mismatch_warning "a" "" (total_a fip i) big_len_a = [] <-> total_a fip i = big_len_a)
    /\ (mismatch_warning "b" "." (total_b fip i) big_len_b = [] <-> total_b fip i = big_len_b).
Proof.
  intros fip i w out big_len_a big_len_b.
  split; [apply source_pairing_files |].
  split; [unfold out; rewrite source_pairing_files, skipn_written; reflexivity |].
  split.
  - unfold out, source_pairing. rewrite !warnings_check_totals, warnings_save_all.
    rewrite <- app_assoc. reflexivity.
  - split; apply mismatch_warning_nil.
Qed.

(** The sentinel row of [padded_pair] is dropped from the counterpart files. *)
Lemma sentinel_rows_never_saved_witness :
  nth 1 (countfilter 2 padded_pair) false = false.
Proof.
  apply (proj1 (proj2 (sentinel_rows_never_saved (fun _ _ _ => padded_pair)
                         two_and_one empty_world)) 1%nat 3%Z).
  - left. reflexivity.
  - vm_compute. discriminate.
Defined.

End pairing_properties.

Module perturbation_properties.

Import perturbation_auf.

(** ** make_perturb_aufs: the checks of the arguments *)

Ltac next_argument x := destruct x; cbn; try reflexivity.

Lemma check_arguments_raises (c : config) :
  raises (check_arguments c) = missing_required c.
Proof.
  destruct c as [inc j0 tdf dmc psf tsn tfn tfns tmf tnf arf nt dm dr rfw rpsf dd lc
                 snr al fg cmau wv zm nz ab fn a0 a1 aw].
  unfold check_arguments, missing_required, given_up_to_run_psf, given.
  cbn. destruct inc; cbn; [|reflexivity].
  next_argument tsn. next_argument tfn. next_argument tfns. next_argument tmf.
  next_argument tnf. next_argument arf. next_argument dmc. next_argument psf.
  next_argument nt. next_argument j0. next_argument dm. next_argument rfw.
  destruct rpsf as [[|]|]; cbn; try reflexivity.
  all: next_argument dd.
  all: next_argument lc.
  all: next_argument snr.
  all: next_argument al.
  all: next_argument dr.
  all: destruct fg as [[|]|]; cbn; try reflexivity.
  all: next_argument cmau.
  all: next_argument wv.
  all: next_argument zm.
  all: next_argument nz.
  all: next_argument ab.
  all: next_argument fn.
  all: next_argument a0.
  all: next_argument a1.
  all: next_argument aw.
Qed.

Ltac given_argument x := destruct x; cbn in *; try discriminate.

Lemma dd_params_missing (c : config) :
  include_perturb_auf c = true -> given_up_to_run_psf c = true ->
  run_psf c = Some true -> dd_params c = None ->
  check_arguments c
  = inl (ValueError "dd_params must be given if include_perturb_auf and run_psf are True.").
Proof.
  destruct c as [inc j0 tdf dmc psf tsn tfn tfns tmf tnf arf nt dm dr rfw rpsf dd lc
                 snr al fg cmau wv zm nz ab fn a0 a1 aw].
  unfold check_arguments, given_up_to_run_psf, given. cbn.
  intros -> H -> ->. revert H.
  given_argument tsn; given_argument tfn; given_argument tfns; given_argument tmf;
    given_argument tnf; given_argument arf; given_argument dmc; given_argument psf;
    given_argument nt; given_argument j0; given_argument dm; given_argument rfw.
  reflexivity.
Qed.

Lemma l_cut_missing (c : config) :
  include_perturb_auf c = true -> given_up_to_run_psf c = true ->
  run_psf c = Some true -> given (dd_params c) = true -> l_cut c = None ->
  check_arguments c
  = inl (ValueError "l_cut must be given if include_perturb_auf and run_psf are True.").
Proof.
  destruct c as [inc j0 tdf dmc psf tsn tfn tfns tmf tnf arf nt dm dr rfw rpsf dd lc
                 snr al fg cmau wv zm nz ab fn a0 a1 aw].
  unfold check_arguments, given_up_to_run_psf, given. cbn.
  intros -> H -> Hdd ->. revert H Hdd.
  given_argument tsn; given_argument tfn; given_argument tfns; given_argument tmf;
    given_argument tnf; given_argument arf; given_argument dmc; given_argument psf;
    given_argument nt; given_argument j0; given_argument dm; given_argument rfw;
    given_argument dd.
  reflexivity.
Qed.

Ltac next_checked x := destruct x; cbn; try exact I.

Lemma check_arguments_only_ValueError (c : config) : is_ValueError (check_arguments c).
Proof.
  destruct c as [inc j0 tdf dmc psf tsn tfn tfns tmf tnf arf nt dm dr rfw rpsf dd lc
                 snr al fg cmau wv zm nz ab fn a0 a1 aw].
  unfold check_arguments, is_ValueError.
  cbn. destruct inc; cbn; [|exact I].
  next_checked tsn. next_checked tfn. next_checked tfns. next_checked tmf.
  next_checked tnf. next_checked arf. next_checked dmc. next_checked psf.
  next_checked nt. next_checked j0. next_checked dm. next_checked rfw.
  destruct rpsf as [[|]|]; cbn; try exact I.
  all: next_checked dd.
  all: next_checked lc.
  all: next_checked snr.
  all: next_checked al.
  all: next_checked dr.
  all: destruct fg as [[|]|]; cbn; try exact I.
  all: next_checked cmau.
  all: next_checked wv.
  all: next_checked zm.
  all: next_checked nz.
  all: next_checked ab.
  all: next_checked fn.
  all: next_checked a0.
  all: next_checked a1.
  all: next_checked aw.
Qed.

(** X19: an error of the checks is a [ValueError], and [make_perturb_aufs]
    raises it whatever the functions that make folders, load, download and
    simulate would do; with [include_perturb_auf] and [run_psf] set, a
    missing [dd_params] or [l_cut] raises, with the message that names it when
    the arguments checked before it are given. *)
Theorem checked_arguments_raise_before_any_work :
  (forall fmt_float auf_folder path_exists makedirs find_nearest_point min_max_lon
          np_linspace density_magnitudes fetch_trilegal local_density single_perturb_auf
          (result : Type) (finish : config -> catalogue -> list nat -> loop_state -> py result)
          c cat filters auf_points r dr e,
      check_arguments c = inl e ->
      (exists msg, e = ValueError msg)
      /\ make_perturb_aufs fmt_float auf_folder path_exists makedirs find_nearest_point
           min_max_lon np_linspace density_magnitudes fetch_trilegal local_density
           single_perturb_auf result finish c cat filters auf_points r dr = inl e)
  /\ (forall c : config,
         include_perturb_auf c = true -> run_psf c = Some true ->
         is_None (dd_params c) || is_None (l_cut c) = true ->
         exists msg, check_arguments c = inl (ValueError msg))
  /\ (forall c : config,
         include_perturb_auf c = true -> given_up_to_run_psf c = true ->
         run_psf c = Some true -> dd_params c = None ->
         check_arguments c
         = inl (ValueError
                  "dd_params must be given if include_perturb_auf and run_psf are True."))
  /\ (forall c : config,
         include_perturb_auf c = true -> given_up_to_run_psf c = true ->
         run_psf c = Some true -> given (dd_params c) = true -> l_cut c = None ->
         check_arguments c
         = inl (ValueError
                  "l_cut must be given if include_perturb_auf and run_psf are True.")).
Proof.
  split.
  { intros until e. intro H. split.
    - pose proof (check_arguments_only_ValueError c) as V. rewrite H in V.
      destruct e; try contradiction. now exists msg.
    - unfold make_perturb_aufs. rewrite H. reflexivity. }
  split.
  { intros c Hinc Hpsf Hmiss.
    pose proof (check_arguments_raises c) as R.
    assert (M : missing_required c = true).
    { unfold missing_required. rewrite Hinc, Hpsf, Hmiss. cbn.
      now rewrite orb_true_r. }
    rewrite M in R. pose proof (check_arguments_only_ValueError c) as V.
    destruct (check_arguments c) as [e|c']; [|discriminate].
    destruct e; try contradiction. now exists msg. }
  split; [exact dd_params_missing | exact l_cut_missing].
Qed.

Lemma checked_arguments_raise_before_any_work_witness :
  check_arguments psf_config_without_dd_params
  = inl (ValueError "dd_params must be given if include_perturb_auf and run_psf are True.").
Proof.
  apply (proj1 (proj2 (proj2 checked_arguments_raise_before_any_work)));
    reflexivity.
Defined.

(** ** make_perturb_aufs: the bundle without perturbation *)

Lemma dict_get_set {V : Type} (name : string) (v : V) (d : list (string * V)) :
  dict_get name (dict_set name v d) = Some v.
Proof.
  induction d as [|[k v'] d IH]; simpl.
  - now rewrite String.eqb_refl.
  - destruct (String.eqb k name) eqn:E; simpl; rewrite E; auto.
Qed.

Lemma delta_function_output_bundle (r0 r1 : float) (rs : list float) (dr0 : float)
  (drs : list float) (j0 : np.array2) :
  delta_function_output (r0 :: r1 :: rs) (dr0 :: drs) (Some j0)
  = inr (delta_bundle r0 dr0 (S (length rs)) (length (np.rows j0))).
Proof.
  unfold delta_function_output, delta_bundle. cbn. rewrite Nat.sub_0_r. reflexivity.
Qed.




(** ** np.maximum on float64 *)

Lemma SFcompare_refl (a : spec_float) :
  a <> S754_nan -> SFcompare a a = Some Eq.
Proof.
  destruct a as [s|s| |s m e]; intro H; try congruence; simpl;
    try (destruct s; reflexivity).
  destruct s; rewrite Z.compare_refl, Pos.compare_cont_refl; reflexivity.
Qed.

Lemma SFcompare_antisym (a b : spec_float) :
  SFcompare b a = option_map CompOpp (SFcompare a b).
Proof.
  destruct a as [s|s| |s m e], b as [s'|s'| |s' m' e']; simpl; auto;
    try (destruct s; reflexivity); try (destruct s'; reflexivity);
    try (destruct s, s'; reflexivity).
  destruct s, s'; simpl; auto;
    rewrite (Z.compare_antisym e e'); destruct (e ?= e')%Z eqn:E; simpl; auto;
    rewrite (Pos.compare_cont_antisym m m' Eq); simpl;
    rewrite ?CompOpp_involutive; reflexivity.
Qed.

Lemma not_nan_spec (x : float) : PrimFloat.is_nan x = false -> Prim2SF x <> S754_nan.
Proof.
  unfold PrimFloat.is_nan. rewrite negb_false_iff, eqb_spec. unfold SFeqb.
  intros H E. rewrite E in H. discriminate.
Qed.

Lemma leb_refl (x : float) : PrimFloat.is_nan x = false -> (x <=? x)%float = true.
Proof.
  intro H. rewrite leb_spec. unfold SFleb.
  now rewrite (SFcompare_refl _ (not_nan_spec x H)).
Qed.

Lemma leb_total (x y : float) :
  PrimFloat.is_nan x = false -> PrimFloat.is_nan y = false ->
  (y <=? x)%float = false -> (x <=? y)%float = true.
Proof.
  intros Hx Hy. rewrite !leb_spec. unfold SFleb.
  rewrite (SFcompare_antisym (Prim2SF y) (Prim2SF x)).
  pose proof (not_nan_spec x Hx) as Nx. pose proof (not_nan_spec y Hy) as Ny.
  destruct (SFcompare (Prim2SF y) (Prim2SF x)) as [[| |]|] eqn:E; simpl; auto;
    try discriminate.
  destruct (Prim2SF y), (Prim2SF x); simpl in E; congruence.
Qed.

Lemma maximum1_is_the_larger (x y : float) :
  PrimFloat.is_nan x = false -> PrimFloat.is_nan y = false ->
  (np.maximum1 x y = x \/ np.maximum1 x y = y)
  /\ (x <=? np.maximum1 x y)%float = true
  /\ (y <=? np.maximum1 x y)%float = true.
Proof.
  intros Hx Hy. unfold np.maximum1. rewrite Hx, orb_false_r.
  destruct (y <=? x)%float eqn:E.
  - split; [now left|]. split; [now apply leb_refl | exact E].
  - split; [now right|]. split; [now apply leb_total | now apply leb_refl].
Qed.

(** ** _calculate_magnitude_offsets *)

Section MagnitudeOffsetsFacts.

Variables np_log10 np_log : float -> float.
Variable np_power : float -> float -> float.

Let thr := no_perturber_threshold np_log.

Lemma compress_fainter (mids log10y interval : list float) (r n_norm count mag : float) :
  length log10y = length mids -> length interval = length mids ->
  combine (np.compress (model_bins_from mids mag) mids)
          (expected_perturbers np_power mids log10y interval r n_norm count mag)
  = fainter_bins np_power mids log10y interval r n_norm count mag
  /\ length (np.compress (model_bins_from mids mag) mids)
     = length (expected_perturbers np_power mids log10y interval r n_norm count mag).
Proof.
  unfold expected_perturbers, fainter_bins, model_bins_from.
  revert log10y interval.
  induction mids as [|m mids IH]; intros [|l ls] [|w ws] Hl Hw; try discriminate;
    simpl; auto.
  injection Hl as Hl. injection Hw as Hw. destruct (IH ls ws Hl Hw) as [IH1 IH2].
  destruct (mag <=? m)%float; simpl; rewrite ?IH1, ?IH2; auto.
Qed.

Lemma item_app_here {A : Type} (pre : list A) (x : A) (xs : list A) :
  np.item (length pre) (pre ++ x :: xs) = inr x.
Proof.
  unfold np.item. rewrite nth_error_app2, Nat.sub_diag; auto.
Qed.

Lemma item_last_snoc {A : Type} (pre : list A) (x : A) :
  np.item_last (pre ++ [x]) = inr x.
Proof.
  unfold np.item_last. rewrite rev_app_distr. reflexivity.
Qed.

(** The pick of lines 1268-1274 on the bins after a prefix. *)
Lemma pick_from (ys xs pre : list float) (acc : float) :
  length xs = length ys ->
  match np.where_from (length pre) (map (fun l => (thr <=? l)%float) (np.cumsum_from acc ys)) with
  | q0 :: _ => np.item q0 (pre ++ xs)
  | [] => np.item_last (pre ++ xs)
  end
  = match first_bin_reaching np_log (Some acc) (combine xs ys) with
    | Some m => inr m
    | None => np.item_last (pre ++ xs)
    end.
Proof.
  revert xs pre acc. induction ys as [|y ys IH]; intros [|x xs] pre acc Hlen;
    try discriminate; simpl; auto.
  injection Hlen as Hlen. fold thr.
  destruct (thr <=? acc + y)%float.
  - apply item_app_here.
  - specialize (IH xs (pre ++ [x]) (acc + y)%float Hlen).
    rewrite length_app, Nat.add_1_r, <- app_assoc in IH. simpl in IH.
    rewrite IH.
    destruct (first_bin_reaching np_log (Some (acc + y)%float) (combine xs ys)) as [m|] eqn:E;
      auto.
    destruct xs as [|x' xs]; [apply item_last_snoc|].
    destruct ys as [|y' ys]; [discriminate|]. simpl in E.
    destruct (no_perturber_threshold np_log <=? acc + y + y')%float; [discriminate|].
    destruct (first_bin_reaching np_log (Some (acc + y + y')%float) (combine xs ys));
      discriminate.
Qed.

Lemma pick (xs ys : list float) :
  length xs = length ys ->
  match np.where_ (map (fun l => (thr <=? l)%float) (np.cumsum ys)) with
  | q0 :: _ => np.item q0 xs
  | [] => np.item_last xs
  end
  = match first_bin_reaching np_log None (combine xs ys) with
    | Some m => inr m
    | None => inl IndexError
    end.
Proof.
  destruct xs as [|x xs], ys as [|y ys]; try discriminate; auto.
  intro Hlen. injection Hlen as Hlen. unfold np.where_. simpl. fold thr.
  destruct (thr <=? y)%float; [reflexivity|].
  pose proof (pick_from ys xs [x] y Hlen) as P. simpl in P. rewrite P.
  destruct (first_bin_reaching np_log (Some y) (combine xs ys)) as [m|] eqn:E; auto.
  destruct xs as [|x' xs]; [reflexivity|].
  destruct ys as [|y' ys]; [discriminate|]. simpl in E.
  destruct (no_perturber_threshold np_log <=? y + y')%float; [discriminate|].
  destruct (first_bin_reaching np_log (Some (y + y')%float) (combine xs ys)); discriminate.
Qed.

Lemma dm_max_no_perturb_at_spec (mids log10y interval : list float)
  (r n_norm count mag : float) :
  length log10y = length mids -> length interval = length mids ->
  dm_max_no_perturb_at np_log np_power mids log10y interval r n_norm count mag
  = match first_bin_reaching np_log None
            (fainter_bins np_power mids log10y interval r n_norm count mag) with
    | Some m => inr (m - mag)%float
    | None => inl IndexError
    end.
Proof.
  intros Hl Hw. destruct (compress_fainter mids log10y interval r n_norm count mag Hl Hw)
    as [Hbins Hlen].
  unfold dm_max_no_perturb_at. rewrite <- Hbins.
  pose proof (pick _ _ Hlen) as P. fold thr.
  destruct (first_bin_reaching np_log None
              (combine (np.compress (model_bins_from mids mag) mids)
                 (expected_perturbers np_power mids log10y interval r n_norm count mag)))
    as [m|].
  - destruct (np.where_ _) as [|q0 qs]; rewrite P; reflexivity.
  - destruct (np.where_ _) as [|q0 qs]; rewrite P; reflexivity.
Qed.

Lemma first_bin_reaching_some (running : option float) (bins : list (float * float)) :
  bins <> [] -> exists m, first_bin_reaching np_log running bins = Some m.
Proof.
  destruct bins as [|[m e] bins]; [congruence|]. intros _. simpl.
  destruct (_ <=? _)%float; [now exists m|].
  destruct (first_bin_reaching np_log _ bins) as [m'|]; [now exists m' | now exists m].
Qed.

Lemma fainter_bins_nonempty (mids log10y interval : list float)
  (r n_norm count mag : float) :
  length log10y = length mids -> length interval = length mids ->
  existsb (fun m => (mag <=? m)%float) mids = true ->
  fainter_bins np_power mids log10y interval r n_norm count mag <> [].
Proof.
  unfold fainter_bins. revert log10y interval.
  induction mids as [|m mids IH]; intros [|l ls] [|w ws] Hl Hw; try discriminate; simpl.
  injection Hl as Hl. injection Hw as Hw.
  destruct (mag <=? m)%float; simpl; [discriminate|]. apply IH; assumption.
Qed.

Lemma dm_max_no_perturb_loop_spec (mids log10y interval : list float) (r n_norm : float)
  (mags counts pre : list float) :
  length log10y = length mids -> length interval = length mids ->
  length counts = length mags ->
  (forall mag, In mag mags -> existsb (fun m => (mag <=? m)%float) mids = true) ->
  exists ds,
    dm_max_no_perturb_loop np_log np_power (pre ++ counts) mids log10y interval r n_norm
      (length pre) mags = inr ds
    /\ length ds = length mags
    /\ forall k count mag,
         nth_error counts k = Some count -> nth_error mags k = Some mag ->
         exists m,
           first_bin_reaching np_log None
             (fainter_bins np_power mids log10y interval r n_norm count mag) = Some m
           /\ nth_error ds k = Some (m - mag)%float.
Proof.
  intros Hl Hw. revert counts pre.
  induction mags as [|mag mags IH]; intros [|count counts] pre Hlen Hbins;
    try discriminate.
  - exists []. repeat split. intros [|k] ? ? E; discriminate.
  - injection Hlen as Hlen. simpl.
    rewrite item_app_here. cbn [bind].
    rewrite (dm_max_no_perturb_at_spec mids log10y interval r n_norm count mag Hl Hw).
    destruct (first_bin_reaching_some None
                (fainter_bins np_power mids log10y interval r n_norm count mag))
      as [m Hm].
    { apply fainter_bins_nonempty; auto. apply Hbins. now left. }
    rewrite Hm. cbn [bind].
    destruct (IH counts (pre ++ [count]) Hlen) as [ds [Hds [Hlds Hnth]]].
    { intros mag' Hin. apply Hbins. now right. }
    rewrite length_app, Nat.add_1_r, <- app_assoc in Hds. simpl in Hds.
    rewrite Hds. cbn [bind ret].
    exists ((m - mag)%float :: ds). split; [reflexivity|]. split; [simpl; congruence|].
    intros [|k] c' mag' Ec Em; simpl in Ec, Em.
    + injection Ec as <-. injection Em as <-. exists m. split; auto.
    + apply (Hnth k c' mag' Ec Em).
Qed.

Lemma nth_error_map2 {A B C : Type} (f : A -> B -> C) (xs : list A) (ys : list B)
  (k : nat) (x : A) (y : B) :
  nth_error xs k = Some x -> nth_error ys k = Some y ->
  nth_error (np.map2 f xs ys) k = Some (f x y).
Proof.
  revert ys k. induction xs as [|x' xs IH]; intros [|y' ys] [|k] Ex Ey;
    try discriminate; simpl in *.
  - congruence.
  - apply IH; assumption.
Qed.

Lemma length_map2 {A B C : Type} (f : A -> B -> C) (xs : list A) (ys : list B) :
  length xs = length ys -> length (np.map2 f xs ys) = length xs.
Proof.
  revert ys. induction xs as [|x xs IH]; intros [|y ys] H; try discriminate; simpl; auto.
Qed.

Lemma calculate_magnitude_offsets_spec :
  forall (count_array mag_array : list float) (b : float)
         (snr model_mag_mids log10y model_mags_interval : list float) (r n_norm : float),
    length log10y = length model_mag_mids ->
    length model_mags_interval = length model_mag_mids ->
    length count_array = length mag_array ->
    length snr = length mag_array ->
    (forall mag, In mag mag_array ->
                 existsb (fun m => (mag <=? m)%float) model_mag_mids = true) ->
    exists dm,
      _calculate_magnitude_offsets np_log10 np_log np_power count_array mag_array b snr
        model_mag_mids log10y model_mags_interval r n_norm = inr dm
      /\ length dm = length mag_array
      /\ forall k count mag s,
           nth_error count_array k = Some count ->
           nth_error mag_array k = Some mag ->
           nth_error snr k = Some s ->
           exists m,
             first_bin_reaching np_log None
               (fainter_bins np_power model_mag_mids log10y model_mags_interval
                  r n_norm count mag) = Some m
             /\ nth_error dm k
                = Some (np.maximum1 (-2.5 * np_log10 (b / s))%float (m - mag)%float).
Proof.
  intros count_array mag_array b snr mids log10y interval r n_norm Hl Hw Hc Hs Hbins.
  destruct (dm_max_no_perturb_loop_spec mids log10y interval r n_norm mag_array
              count_array [] Hl Hw Hc Hbins) as [ds [Hds [Hlds Hnth]]].
  simpl in Hds. unfold _calculate_magnitude_offsets. rewrite Hds. cbn [bind].
  unfold np.broadcast2, dm_max_snr. rewrite length_map, Hs, Hlds, Nat.eqb_refl.
  eexists. split; [reflexivity|]. split.
  - rewrite length_map2; rewrite length_map; congruence.
  - intros k count mag s Ec Em Es.
    destruct (Hnth k count mag Ec Em) as [m [Hm Hk]].
    exists m. split; [exact Hm|].
    apply nth_error_map2; [|exact Hk].
    rewrite nth_error_map, Es. reflexivity.
Qed.

End MagnitudeOffsetsFacts.

(** ** create_single_perturb_auf: the count of bright simulated sources *)

Section CreateSinglePerturbAufFacts.

Variables np_log10 np_log : float -> float.
Variable np_power : float -> float -> float.
Variable np_sum : list float -> float.
Variable av_grid : single_auf_args -> list float.
Variable make_tri_counts :
  string -> string -> string -> float -> float -> float -> float -> list float -> py tri_counts.
Variable create_galaxy_counts : single_auf_args -> list float -> list float -> list float.
Variable populated_bins : list float -> list float -> list float * list float.
Variable find_nearest_point : float * float -> list (list float) -> nat.
Variable simulate_perturbations :
  single_auf_args -> list float -> list float -> list float -> list float -> auf_output.

Lemma create_single_perturb_auf_too_few (a : single_auf_args) (brightest : float)
  (t : tri_counts) (tot : float) :
  np.amin (a_photo a) = inr brightest ->
  make_tri_counts (tri_folder a) "trilegal_auf_simulation" (filt_header a) (sa_d_mag a)
    brightest (density_mag a) (al_av a) (av_grid a) = inr t ->
  tot_n_bright_sources (sa_fit_gal_flag a)
    (gal_count_of np_sum av_grid create_galaxy_counts a t)
    (tri_count_of np_log10 np_power np_sum a t) (n_bright_sources_star t) = inr tot ->
  (tot <? 100)%float = true ->
  create_single_perturb_auf np_log10 np_log np_power np_sum av_grid make_tri_counts
    create_galaxy_counts populated_bins find_nearest_point simulate_perturbations a
  = inl (ValueError too_few_message).
Proof.
  intros Hmin Htri Htot Hlow. unfold create_single_perturb_auf.
  rewrite Hmin. cbn [bind]. rewrite Htri. cbn [bind]. rewrite Htot. cbn [bind].
  unfold check_bright_sources, raise_if. rewrite Hlow. reflexivity.
Qed.

End CreateSinglePerturbAufFacts.

(** C7: the count compared with 100 is the number of bright simulated stars,
    plus, when galaxies are fitted, that number scaled by the ratio of the
    galaxy to the star bright densities and truncated; below 100 the check
    raises, and [create_single_perturb_auf] ends with that [ValueError]
    instead of simulating. *)
Theorem too_few_bright_sources_is_fatal :
  (forall (fit_gal : bool) (gal_count tri_count n_star : float),
      tot_n_bright_sources fit_gal gal_count tri_count n_star
      = if fit_gal
        then n_gal <- py_int (gal_count / tri_count * n_star)%float ;;
             ret (n_star + float_of_Z n_gal)%float
        else ret n_star)
  /\ (forall tot : float,
         check_bright_sources tot
         = if (tot <? 100)%float then inl (ValueError too_few_message) else inr tt)
  /\ (forall np_log10 np_log np_power np_sum av_grid make_tri_counts create_galaxy_counts
             populated_bins find_nearest_point simulate_perturbations
             (a : single_auf_args) (brightest : float) (t : tri_counts) (tot : float),
         np.amin (a_photo a) = inr brightest ->
         make_tri_counts (tri_folder a) "trilegal_auf_simulation"%string (filt_header a)
           (sa_d_mag a) brightest (density_mag a) (al_av a) (av_grid a) = inr t ->
         tot_n_bright_sources (sa_fit_gal_flag a)
           (gal_count_of np_sum av_grid create_galaxy_counts a t)
           (tri_count_of np_log10 np_power np_sum a t) (n_bright_sources_star t) = inr tot ->
         (tot <? 100)%float = true ->
         create_single_perturb_auf np_log10 np_log np_power np_sum av_grid make_tri_counts
           create_galaxy_counts populated_bins find_nearest_point simulate_perturbations a
         = inl (ValueError too_few_message)).
Proof.
  split; [intros [|] ? ? ?; reflexivity |].
  split; [intro tot; unfold check_bright_sources, raise_if; destruct (tot <? 100)%float;
          reflexivity |].
  intros. eapply create_single_perturb_auf_too_few; eassumption.
Qed.

Lemma too_few_bright_sources_is_fatal_witness :
  create_single_perturb_auf log10_table log_table power_table sum_in_order
    (fun _ => [1%float]) (fun _ _ _ _ _ _ _ _ => inr sparse_counts)
    (fun _ _ _ => []) (fun _ _ => ([], [])) (fun _ _ => 0) (fun _ _ _ _ _ => [])
    sparse_patch
  = inl (ValueError too_few_message).
Proof.
  apply (proj2 (proj2 too_few_bright_sources_is_fatal)) with
    (brightest := 14%float) (t := sparse_counts) (tot := 40%float); reflexivity.
Defined.

End perturbation_properties.

(** ** group_sources: the grid cutout *)

Module group_properties.

Import group_sources.

Local Open Scope Q_scope.

(** The expectations of [test_load_cumulative_grid_cutouts], rows renumbered. *)
Example test_rows_padded : cutout_rows test_astro test_rect (1 # 10) = [0; 2; 4; 6]%nat.
Proof. reflexivity. Qed.

Example test_rows_exact : cutout_rows test_astro test_rect 0 = [0; 2; 6]%nat.
Proof. reflexivity. Qed.

Example test_axes_padded :
  cutout_axes test_astro test_modelrefinds test_rect (1 # 10)
  = ([0], [1; 2], [0; 1])%nat.
Proof. reflexivity. Qed.

Example test_modelrefinds_padded :
  cutout_modelrefinds test_astro test_modelrefinds test_rect (1 # 10)
  = [(0, 1, 1); (0, 1, 1); (0, 0, 0); (0, 1, 1)]%nat.
Proof. reflexivity. Qed.

Example test_modelrefinds_exact :
  cutout_axes test_astro test_modelrefinds test_rect 0 = ([0], [2], [1])%nat
  /\ cutout_modelrefinds test_astro test_modelrefinds test_rect 0
     = [(0, 0, 0); (0, 0, 0); (0, 0, 0)]%nat.
Proof. split; reflexivity. Qed.

Lemma inside_padded_mono (rect : rectangle) (p1 p2 : Q) (s : source) :
  p1 <= p2 -> inside_padded rect p1 s = true -> inside_padded rect p2 s = true.
Proof.
  unfold inside_padded. rewrite !andb_true_iff, !Qle_bool_iff. intros Hp H. lra.
Qed.

Lemma cutout_rows_mono (a : list source) (rect : rectangle) (p1 p2 : Q) :
  p1 <= p2 -> incl (cutout_rows a rect p1) (cutout_rows a rect p2).
Proof.
  intros Hp k. unfold cutout_rows. rewrite !filter_In. intros [Hk H]. split; auto.
  destruct (nth_error a k) as [s|]; [|discriminate].
  now apply inside_padded_mono with p1.
Qed.

Lemma referenced_mono (m : list grid_ref) (rows1 rows2 : list nat) :
  incl rows1 rows2 -> incl (referenced m rows1) (referenced m rows2).
Proof.
  intros H g. unfold referenced. rewrite !in_flat_map.
  intros [k [Hk Hg]]. exists k. auto.
Qed.

Lemma list_max_ge (xs : list nat) (v : nat) : In v xs -> (v <= list_max xs)%nat.
Proof.
  induction xs as [|x xs IH]; simpl; [tauto|]. intros [->|H]; [lia|].
  specialize (IH H). lia.
Qed.

Lemma in_unique (xs : list nat) (v : nat) : In v (unique xs) <-> In v xs.
Proof.
  unfold unique. rewrite filter_In, in_seq, existsb_exists. split.
  - intros [_ [x [Hx E]]]. apply Nat.eqb_eq in E. now subst.
  - intro H. split; [pose proof (list_max_ge xs v H); lia|].
    exists v. split; auto. apply Nat.eqb_refl.
Qed.

Lemma unique_mono (f : grid_ref -> nat) (refs1 refs2 : list grid_ref) :
  incl refs1 refs2 -> incl (unique (map f refs1)) (unique (map f refs2)).
Proof.
  intros H v. rewrite !in_unique, !in_map_iff. intros [g [E Hg]]. exists g. auto.
Qed.

Lemma in_cutout_combos (a : list source) (m : list grid_ref) (rect : rectangle) (p : Q)
  (g : grid_ref) :
  In g (cutout_combos a m rect p)
  <-> In (fst (fst g)) (fst (fst (cutout_axes a m rect p)))
      /\ In (snd (fst g)) (snd (fst (cutout_axes a m rect p)))
      /\ In (snd g) (snd (cutout_axes a m rect p)).
Proof.
  unfold cutout_combos. destruct (cutout_axes a m rect p) as [[cs fs] ts]. simpl.
  destruct g as [[c f] t]. simpl. rewrite in_flat_map. split.
  - intros [c' [Hc H]]. apply in_flat_map in H. destruct H as [f' [Hf H]].
    apply in_map_iff in H. destruct H as [t' [E Ht]]. injection E as -> -> ->. auto.
  - intros [Hc [Hf Ht]]. exists c. split; auto. apply in_flat_map. exists f. split; auto.
    apply in_map_iff. exists t. auto.
Qed.

Lemma Qsquare_nonneg (e : Q) : 0 <= e * e.
Proof.
  destruct e as [n d]. unfold Qle. simpl. rewrite Z.mul_1_r. apply Z.square_nonneg.
Qed.

(** C6 (on the model of the cutout taken from the specification): with a
    larger padding the cutout keeps every row it had, every index along each
    axis of the grid and so every grid column; and with no padding it holds
    no source whose error circle misses the rectangle. *)
Theorem padding_only_adds :
  forall (a : list source) (modelrefinds : list grid_ref) (rect : rectangle) (p1 p2 : Q),
    0 <= p1 -> p1 < p2 ->
    incl (cutout_rows a rect p1) (cutout_rows a rect p2)
    /\ incl (fst (fst (cutout_axes a modelrefinds rect p1)))
            (fst (fst (cutout_axes a modelrefinds rect p2)))
    /\ incl (snd (fst (cutout_axes a modelrefinds rect p1)))
            (snd (fst (cutout_axes a modelrefinds rect p2)))
    /\ incl (snd (cutout_axes a modelrefinds rect p1))
            (snd (cutout_axes a modelrefinds rect p2))
    /\ incl (cutout_combos a modelrefinds rect p1) (cutout_combos a modelrefinds rect p2)
    /\ forall k s, nth_error a k = Some s -> ~ error_circle_overlaps rect s ->
                   ~ In k (cutout_rows a rect 0).
Proof.
  intros a m rect p1 p2 H0 Hlt.
  assert (Hrows : incl (cutout_rows a rect p1) (cutout_rows a rect p2))
    by (apply cutout_rows_mono; lra).
  pose proof (referenced_mono m _ _ Hrows) as Hrefs.
  assert (Hc : incl (fst (fst (cutout_axes a m rect p1))) (fst (fst (cutout_axes a m rect p2))))
    by (apply unique_mono; exact Hrefs).
  assert (Hf : incl (snd (fst (cutout_axes a m rect p1))) (snd (fst (cutout_axes a m rect p2))))
    by (apply unique_mono; exact Hrefs).
  assert (Ht : incl (snd (cutout_axes a m rect p1)) (snd (cutout_axes a m rect p2)))
    by (apply unique_mono; exact Hrefs).
  repeat (split; [assumption|]). split.
  - intros g. rewrite !in_cutout_combos. intros [H1 [H2 H3]]. auto.
  - intros k s Hk Hno Hin. apply Hno. unfold cutout_rows in Hin.
    apply filter_In in Hin. destruct Hin as [_ Hin]. rewrite Hk in Hin.
    unfold inside_padded in Hin. rewrite !andb_true_iff, !Qle_bool_iff in Hin.
    exists (ax1 s), (ax2 s). repeat split; try lra.
    apply Qle_trans with 0; [apply Qle_lteq; right; ring|].
    apply Qsquare_nonneg.
Qed.

Lemma padding_only_adds_witness :
  incl (cutout_rows test_astro test_rect 0) (cutout_rows test_astro test_rect (1 # 10)).
Proof.
  assert (H0 : 0 <= 0) by discriminate.
  assert (Hlt : 0 < 1 # 10) by reflexivity.
  exact (proj1 (padding_only_adds test_astro test_modelrefinds test_rect 0 (1 # 10) H0 Hlt)).
Defined.

End group_properties.

(** ** download_trilegal_simulation *)

Module download_properties.

Import perturbation_auf.

Lemma step_finished (total_objs : float) (outcome : py (float * float)) (rs : list reply) :
  fold_left (step total_objs) rs (Finished outcome) = Finished outcome.
Proof.
  induction rs as [|r rs IH]; simpl; auto.
Qed.

Lemma step_alarm (total_objs triarea : float) (halved : bool) (n : Z) (r : reply) :
  (alarm_seconds <= elapsed r)%Z ->
  step total_objs (Searching triarea halved n) r = Searching (triarea / 2) true 0.
Proof.
  intro H. simpl. apply Z.leb_le in H. now rewrite H.
Qed.

Lemma step_silent (total_objs triarea : float) (halved : bool) (n : Z) (r : reply) :
  silent_in_time r ->
  step total_objs (Searching triarea halved n) r
  = if (5 <=? n + 1)%Z
    then Finished (inl (HTTPError ("TRILEGAL server has not communicated in "
                                   ++ str_of_Z (n + 1) ++ " attempts.")%string))
    else Searching triarea halved (n + 1).
Proof.
  intros [Ht Hr]. simpl.
  destruct (Z.leb_spec alarm_seconds (elapsed r)); [lia|].
  rewrite Hr. simpl. reflexivity.
Qed.

Lemma five_silent_replies (total_objs triarea : float) (halved : bool) (n : Z)
  (rs rest : list reply) :
  (0 <= n)%Z -> length rs = 5 -> Forall silent_in_time rs ->
  exists msg,
    fold_left (step total_objs) (rs ++ rest) (Searching triarea halved n)
    = Finished (inl (HTTPError msg)).
Proof.
  intros Hn Hlen Hall.
  destruct rs as [|r1 [|r2 [|r3 [|r4 [|r5 [|r6 rs]]]]]]; try discriminate.
  inversion Hall as [|? ? H1 Hall1]; subst.
  inversion Hall1 as [|? ? H2 Hall2]; subst.
  inversion Hall2 as [|? ? H3 Hall3]; subst.
  inversion Hall3 as [|? ? H4 Hall4]; subst.
  inversion Hall4 as [|? ? H5 _]; subst.
  cbn [app fold_left].
  rewrite (step_silent _ _ _ _ _ H1).
  destruct (Z.leb_spec 5 (n + 1)); [cbn [step]; rewrite step_finished; eauto|].
  rewrite (step_silent _ _ _ _ _ H2).
  destruct (Z.leb_spec 5 (n + 1 + 1)); [cbn [step]; rewrite step_finished; eauto|].
  rewrite (step_silent _ _ _ _ _ H3).
  destruct (Z.leb_spec 5 (n + 1 + 1 + 1)); [cbn [step]; rewrite step_finished; eauto|].
  rewrite (step_silent _ _ _ _ _ H4).
  destruct (Z.leb_spec 5 (n + 1 + 1 + 1 + 1)); [cbn [step]; rewrite step_finished; eauto|].
  rewrite (step_silent _ _ _ _ _ H5).
  destruct (Z.leb_spec 5 (n + 1 + 1 + 1 + 1 + 1)); [cbn [step]; rewrite step_finished; eauto|].
  lia.
Qed.

Lemma five_silent_replies_from_start (total_objs triarea : float) (halved : bool)
  (rs rest : list reply) :
  length rs = 5 -> Forall silent_in_time rs ->
  fold_left (step total_objs) (rs ++ rest) (Searching triarea halved 0)
  = Finished (inl (HTTPError "TRILEGAL server has not communicated in 5 attempts.")).
Proof.
  intros Hlen Hall.
  destruct rs as [|r1 [|r2 [|r3 [|r4 [|r5 [|r6 rs]]]]]]; try discriminate.
  inversion Hall as [|? ? H1 Hall1]; subst.
  inversion Hall1 as [|? ? H2 Hall2]; subst.
  inversion Hall2 as [|? ? H3 Hall3]; subst.
  inversion Hall3 as [|? ? H4 Hall4]; subst.
  inversion Hall4 as [|? ? H5 _]; subst.
  cbn [app fold_left].
  rewrite (step_silent _ _ _ _ _ H1). cbn [Z.add Z.leb Z.compare Pos.compare Pos.compare_cont Pos.add Pos.succ].
  rewrite (step_silent _ _ _ _ _ H2). cbn [Z.add Z.leb Z.compare Pos.compare Pos.compare_cont Pos.add Pos.succ].
  rewrite (step_silent _ _ _ _ _ H3). cbn [Z.add Z.leb Z.compare Pos.compare Pos.compare_cont Pos.add Pos.succ].
  rewrite (step_silent _ _ _ _ _ H4). cbn [Z.add Z.leb Z.compare Pos.compare Pos.compare_cont Pos.add Pos.succ].
  rewrite (step_silent _ _ _ _ _ H5). cbn [Z.add Z.leb Z.compare Pos.compare Pos.compare_cont Pos.add Pos.succ].
  cbn [step]. rewrite step_finished. reflexivity.
Qed.

(** X1: in the search loop every call runs under the alarm of 11 minutes; a call
    cut by the alarm is followed by a call for half the area, again under the
    alarm; and five calls in a row that report no communication end the
    function with an [HTTPError], whatever the server would reply next. *)
Theorem search_loop_halves_and_escalates :
  forall (total_objs triarea : float) (halved : bool) (n : Z),
    next_call (Searching triarea halved n) = Some (triarea, Some (11 * 60)%Z)
    /\ (forall r, (11 * 60 <= elapsed r)%Z ->
                  step total_objs (Searching triarea halved n) r
                  = Searching (triarea / 2) true 0
                  /\ next_call (step total_objs (Searching triarea halved n) r)
                     = Some ((triarea / 2)%float, Some (11 * 60)%Z))
    /\ (forall rs rest, (0 <= n)%Z -> length rs = 5 -> Forall silent_in_time rs ->
                        exists msg,
                          fold_left (step total_objs) (rs ++ rest) (Searching triarea halved n)
                          = Finished (inl (HTTPError msg)))
    /\ (forall rs rest, length rs = 5 -> Forall silent_in_time rs ->
                        fold_left (step total_objs) (rs ++ rest) (Searching triarea halved 0)
                        = Finished (inl (HTTPError
                            "TRILEGAL server has not communicated in 5 attempts."))).
Proof.
  intros total_objs triarea halved n. split; [reflexivity|]. split.
  - intros r Hr. rewrite (step_alarm _ _ _ _ _ Hr). split; reflexivity.
  - split.
    + intros rs rest Hn Hlen Hall. now apply five_silent_replies.
    + intros rs rest Hlen Hall. now apply five_silent_replies_from_start.
Qed.

Lemma search_loop_halves_and_escalates_witness :
  download_trilegal_simulation 1 1500000
    [ {| elapsed := 700; av_inf := 0%float; result_ := "timeout"; lines_after := None |};
      {| elapsed := 120; av_inf := 0%float; result_ := "nocomm"; lines_after := None |};
      {| elapsed := 120; av_inf := 0%float; result_ := "nocomm"; lines_after := None |};
      {| elapsed := 120; av_inf := 0%float; result_ := "nocomm"; lines_after := None |};
      {| elapsed := 120; av_inf := 0%float; result_ := "nocomm"; lines_after := None |};
      {| elapsed := 120; av_inf := 0%float; result_ := "nocomm"; lines_after := None |};
      good_reply ]
  = Finished (inl (HTTPError "TRILEGAL server has not communicated in 5 attempts.")).
Proof.
  unfold download_trilegal_simulation. cbn [fold_left].
  rewrite step_alarm by (vm_compute; discriminate).
  apply (proj2 (proj2 (proj2 (search_loop_halves_and_escalates 1500000 (min_10 1 / 2) true 0)))
           [ {| elapsed := 120; av_inf := 0%float; result_ := "nocomm"; lines_after := None |};
             {| elapsed := 120; av_inf := 0%float; result_ := "nocomm"; lines_after := None |};
             {| elapsed := 120; av_inf := 0%float; result_ := "nocomm"; lines_after := None |};
             {| elapsed := 120; av_inf := 0%float; result_ := "nocomm"; lines_after := None |};
             {| elapsed := 120; av_inf := 0%float; result_ := "nocomm"; lines_after := None |} ]
           [good_reply]).
  - reflexivity.
  - repeat constructor.
Defined.

(** C9: the call of lines 627-631, made when a first simulation held too few
    objects and the area was scaled up: it runs without an alarm, and a reply
    that the server did not communicate, a day later, is neither retried nor
    raised as an [HTTPError]: the function goes on to open a file that is
    not there. *)
Theorem rerun_call_has_no_alarm :
  download_trilegal_simulation 1 1500000 [good_reply] = Rerun 10
  /\ next_call (Rerun 10) = Some (10%float, None)
  /\ download_trilegal_simulation 1 1500000 [good_reply; silent_reply]
     = Finished (inl FileNotFoundError).
Proof.
  repeat split; vm_compute; reflexivity.
Qed.

End download_properties.

(** ** calculate_local_density: the density of bright sources around each
    source *)

Module density_properties.

Import perturbation_auf.
Import np_facts.
Import perturbation_properties.

(** *** Masked assignment *)







(** *** Counting through a mask *)











Section LocalDensityFacts.

Variable min_max_lon : list float -> py (float * float).
Variable _load_rectangular_slice :
  list astro_row -> float -> float -> float -> float -> float -> list bool.
Variable np_linspace : float -> float -> Z -> list float.
Variable np_ceil : float -> float.
Variable np_empty : nat -> list float.
Variable get_circle_area_overlap :
  list float -> list float -> float -> float -> float -> float -> float -> list float.
Variable within : float -> float -> float -> float -> float -> bool.

(** A mask has the length of the array it is a mask of. *)
Hypothesis slice_length :
  forall rows a b c d p, length (_load_rectangular_slice rows a b c d p) = length rows.

Variables a_astro overlap : list astro_row.
Variable photo_overlap : list float.
Variables density_radius density_mag : float.









End LocalDensityFacts.

Section LocalDensityResult.

Variable min_max_lon : list float -> py (float * float).
Variable _load_rectangular_slice :
  list astro_row -> float -> float -> float -> float -> float -> list bool.
Variable np_linspace : float -> float -> Z -> list float.
Variable np_ceil : float -> float.
Variable np_empty : nat -> list float.
Variable get_circle_area_overlap :
  list float -> list float -> float -> float -> float -> float -> float -> list float.
Variable within : float -> float -> float -> float -> float -> bool.


End LocalDensityResult.



(** When the sources share one longitude the grid has no cell, and the
    result is the content of the fresh array over the area. *)
Example single_source_is_never_counted :
  calculate_local_density flat_min_max_lon flat_rectangular_slice linspace_formula
    ceil_table empty_nan (get_density_model flat_within) flat_circle_area
    [faint_1] four_sources four_magnitudes 0.125 15
  = inr (np.map2 PrimFloat.div (empty_nan 1)
           (flat_circle_area [0.5] [0.5] 0.125 0.375 1.625 0.375 1.625))%float.
Proof. vm_compute. reflexivity. Qed.

End density_properties.

(** ** Comparisons with NaN *)

Module float_facts.

Import perturbation_properties.

Lemma is_nan_spec (x : float) : PrimFloat.is_nan x = true -> Prim2SF x = S754_nan.
Proof.
  unfold PrimFloat.is_nan. rewrite negb_true_iff, eqb_spec. unfold SFeqb.
  intro H. destruct (Prim2SF x) as [s|s| |s m e] eqn:E; auto;
    rewrite SFcompare_refl in H by discriminate; discriminate.
Qed.

Lemma SFcompare_nan_r (a : spec_float) : SFcompare a S754_nan = None.
Proof. destruct a; reflexivity. Qed.

(** No comparison with NaN holds. *)
Lemma leb_nan_r (x y : float) : PrimFloat.is_nan y = true -> (x <=? y)%float = false.
Proof.
  intro H. rewrite leb_spec, (is_nan_spec y H). unfold SFleb.
  now rewrite SFcompare_nan_r.
Qed.

Lemma leb_nan_l (x y : float) : PrimFloat.is_nan x = true -> (x <=? y)%float = false.
Proof.
  intro H. rewrite leb_spec, (is_nan_spec x H). reflexivity.
Qed.

Lemma ltb_nan_r (x y : float) : PrimFloat.is_nan y = true -> (x <? y)%float = false.
Proof.
  intro H. rewrite ltb_spec, (is_nan_spec y H). unfold SFltb.
  now rewrite SFcompare_nan_r.
Qed.

Lemma ltb_nan_l (x y : float) : PrimFloat.is_nan x = true -> (x <? y)%float = false.
Proof.
  intro H. rewrite ltb_spec, (is_nan_spec x H). reflexivity.
Qed.

End float_facts.

(** ** counterpart_pairing: the files and the totals *)

Module pairing_files.

Import counterpart_pairing.
Import np_facts.
Import pairing_properties.

(** *** Reading a saved array back *)

Lemma np_load_app (path : string) (old new : list (string * npy)) (a : npy) :
  np_load path new = Some a -> np_load path (old ++ new) = Some a.
Proof.
  intro H. induction old as [|[p b] old IH]; simpl; auto.
  now rewrite IH.
Qed.

Lemma np_load_absent (path : string) (fs : list (string * npy)) :
  ~ In path (map fst fs) -> np_load path fs = None.
Proof.
  induction fs as [|[p b] fs IH]; simpl; intro H; auto.
  rewrite IH by tauto.
  destruct (String.eqb_spec p path); [tauto | reflexivity].
Qed.

Lemma np_load_NoDup (fs : list (string * npy)) :
  NoDup (map fst fs) ->
  Forall (fun f => np_load (fst f) fs = Some (snd f)) fs.
Proof.
  induction fs as [|[p b] fs IH]; simpl; intro H; constructor.
  - inversion H; subst. simpl. rewrite np_load_absent by assumption.
    now rewrite String.eqb_refl.
  - inversion H; subst. specialize (IH H3).
    rewrite Forall_forall in *. intros f Hf. simpl. now rewrite (IH f Hf).
Qed.

Lemma append_inv_head (s a b : string) : (s ++ a = s ++ b)%string -> a = b.
Proof.
  induction s as [|c s IH]; simpl; intro H; auto.
  inversion H. auto.
Qed.

Lemma NoDup_map_injective {A B : Type} (f : A -> B) (l : list A) :
  (forall x y, f x = f y -> x = y) -> NoDup l -> NoDup (map f l).
Proof.
  intros Hf H. induction H as [|x l Hx H IH]; simpl; constructor; auto.
  rewrite in_map_iff. intros [y [E Hy]]. apply Hf in E. now subst.
Qed.

Lemma file_tails_NoDup :
  NoDup (map (fun n => "/pairing/" ++ n ++ ".npy")%string file_names).
Proof.
  unfold file_names. cbn [map append].
  repeat (constructor; [cbn [In]; intuition discriminate |]). constructor.
Qed.

Lemma saved_paths (L : Z) (o : island_probabilities) (folder : string) :
  map fst (saved_arrays L o folder) = map (pairing_file folder) file_names.
Proof. reflexivity. Qed.

Lemma saved_paths_NoDup (L : Z) (o : island_probabilities) (folder : string) :
  NoDup (map fst (saved_arrays L o folder)).
Proof.
  rewrite saved_paths.
  replace (map (pairing_file folder) file_names)
    with (map (append folder) (map (fun n => "/pairing/" ++ n ++ ".npy")%string file_names))
    by (rewrite map_map; reflexivity).
  apply NoDup_map_injective; [apply append_inv_head | apply file_tails_NoDup].
Qed.

Lemma np_load_saved (L : Z) (o : island_probabilities) (folder : string)
  (old : list (string * npy)) (path : string) (a : npy) :
  In (path, a) (saved_arrays L o folder) ->
  np_load path (old ++ saved_arrays L o folder) = Some a.
Proof.
  intro H. apply np_load_app.
  pose proof (np_load_NoDup _ (saved_paths_NoDup L o folder)) as F.
  rewrite Forall_forall in F. exact (F _ H).
Qed.

(** X2: each of the 22 files, read back after [source_pairing], holds the
    array saved under its name, whatever the folder held before. *)
Theorem saved_files_read_back :
  forall (fip : pairing_inputs -> Z -> Z -> island_probabilities)
         (i : pairing_inputs) (w : world),
    Forall (fun f => np_load (fst f) (files (source_pairing fip i w)) = Some (snd f))
           (saved_arrays (large_len_of i) (probabilities_of fip i) (joint_folder_path i)).
Proof.
  intros fip i w. rewrite source_pairing_files.
  apply Forall_forall. intros [path a] Hf. now apply np_load_saved.
Qed.

(** *** The number of sources in a file *)

Lemma length_logical_and (m1 m2 : list bool) :
  length (np.logical_and m1 m2) = Nat.min (length m1) (length m2).
Proof.
  unfold np.logical_and.
  revert m2; induction m1 as [|b m1 IH]; intros [|c m2]; simpl; auto.
Qed.

Lemma length_all_axis0 (cond : float -> bool) (a : np.array2) :
  length (np.all_axis0 cond a) <= np.ncols a.
Proof.
  unfold np.all_axis0. induction (np.rows a) as [|row rs IH]; simpl.
  - now rewrite repeat_length.
  - rewrite length_logical_and. lia.
Qed.

Lemma length_compress_sum {A : Type} (m : list bool) (xs : list A) :
  length m <= length xs -> Z.of_nat (length (np.compress m xs)) = np.sum_bool m.
Proof.
  revert xs; induction m as [|b m IH]; intros [|x xs] H; simpl in *; auto; try lia.
  specialize (IH xs ltac:(lia)). destruct b; simpl length; lia.
Qed.

Lemma length_kept_rows_sum (m : list bool) (n : nat) :
  length m <= n -> Z.of_nat (length (kept_rows m n)) = np.sum_bool m.
Proof.
  intro H. rewrite <- length_filter_firstn, firstn_all2 by exact H.
  clear H. induction m as [|b m IH]; simpl; auto.
  destruct b; simpl length; lia.
Qed.

Lemma n_sources_rows_kept_ints (v : list Z) (m : list bool) :
  length m <= length v -> n_sources_of (rows_kept (np.Ints v) m) = np.sum_bool m.
Proof.
  intro H. simpl. rewrite <- compress_gather. now apply length_compress_sum.
Qed.

Lemma n_sources_rows_kept_floats (v : list float) (m : list bool) :
  length m <= length v -> n_sources_of (rows_kept (np.Floats v) m) = np.sum_bool m.
Proof.
  intro H. simpl. rewrite <- compress_gather. now apply length_compress_sum.
Qed.

Lemma length_countfilter (L : Z) (o : island_probabilities) :
  let n := length (countfilter L o) in
  n <= length (acountinds o) /\ n <= length (bcountinds o)
  /\ n <= np.ncols (acontamprob o) /\ n <= np.ncols (bcontamprob o)
  /\ n <= length (acontamflux o) /\ n <= length (bcontamflux o)
  /\ n <= length (probcarray o) /\ n <= length (etaarray o) /\ n <= length (xiarray o).
Proof.
  unfold countfilter, below_sentinel. cbv zeta.
  rewrite !length_logical_and, !length_map.
  pose proof (length_all_axis0 ge0 (acontamprob o)).
  pose proof (length_all_axis0 ge0 (bcontamprob o)). lia.
Qed.

Lemma length_afieldfilter (L : Z) (o : island_probabilities) :
  length (afieldfilter L o) <= length (afieldinds o)
  /\ length (afieldfilter L o) <= length (probfaarray o).
Proof.
  unfold afieldfilter, below_sentinel. rewrite length_logical_and, !length_map. lia.
Qed.

Lemma length_bfieldfilter (L : Z) (o : island_probabilities) :
  length (bfieldfilter L o) <= length (bfieldinds o)
  /\ length (bfieldfilter L o) <= length (probfbarray o).
Proof.
  unfold bfieldfilter, below_sentinel. rewrite length_logical_and, !length_map. lia.
Qed.

Ltac file_of_sources Hlen :=
  eexists; split;
  [ eapply np_load_saved; unfold saved_arrays; cbn [In];
    repeat first [left; reflexivity | right]
  | cbn [snd]; first [ apply n_sources_rows_kept_ints; lia
                     | apply n_sources_rows_kept_floats; lia
                     | cbn [columns_kept n_sources_of np.ncols];
                       apply length_kept_rows_sum; lia ] ].

(** X3: the totals compared with the catalogue lengths count the sources of
    the files. Every counterpart file whose array enters [countfilter] holds
    [countsum] sources, rows or, for the contamination probabilities,
    columns; the field index and probability files of a catalogue hold
    [afieldsum] or [bfieldsum]; and no warning is issued exactly when, for
    both catalogues, the counterparts, field sources and rejected sources
    add up to the length of the catalogue. *)
Theorem totals_count_the_sources_of_the_files :
  forall (fip : pairing_inputs -> Z -> Z -> island_probabilities)
         (i : pairing_inputs) (w : world),
    let out := source_pairing fip i w in
    let L := large_len_of i in
    let o := probabilities_of fip i in
    let holds (n : Z) (name : string) :=
      exists a, np_load (pairing_file (joint_folder_path i) name) (files out) = Some a
                /\ n_sources_of a = n in
    let countsum := np.sum_bool (countfilter L o) in
    let afieldsum := np.sum_bool (afieldfilter L o) in
    let bfieldsum := np.sum_bool (bfieldfilter L o) in
    Forall (holds countsum)
      ["ac"; "bc"; "pacontam"; "pbcontam"; "acontamflux"; "bcontamflux"; "pc"; "eta"; "xi"]%string
    /\ Forall (holds afieldsum) ["af"; "pfa"]%string
    /\ Forall (holds bfieldsum) ["bf"; "pfb"]%string
    /\ (skipn (length (warnings w)) (warnings out) = []
        <-> (countsum + afieldsum + lenrejecta (group_sources i)
             = Z.of_nat (length (a_astro i))
             /\ countsum + bfieldsum + lenrejectb (group_sources i)
                = Z.of_nat (length (b_astro i)))%Z).
Proof.
  intros fip i w out L o holds countsum afieldsum bfieldsum.
  pose proof (length_countfilter L o) as Hc. cbv zeta in Hc.
  pose proof (length_afieldfilter L o) as Ha.
  pose proof (length_bfieldfilter L o) as Hb.
  assert (W : skipn (length (warnings w)) (warnings out)
              = mismatch_warning "a" "" (countsum + afieldsum + lenrejecta (group_sources i))
                  (Z.of_nat (length (a_astro i)))
                ++ mismatch_warning "b" "." (countsum + bfieldsum + lenrejectb (group_sources i))
                     (Z.of_nat (length (b_astro i)))).
  { unfold out, source_pairing. rewrite !warnings_check_totals, warnings_save_all.
    rewrite <- app_assoc, skipn_written. reflexivity. }
  unfold holds, out. rewrite source_pairing_files. fold L o.
  split; [|split; [|split]].
  - repeat (constructor; [file_of_sources Hc |]). constructor.
  - repeat (constructor; [file_of_sources Ha |]). constructor.
  - repeat (constructor; [file_of_sources Hb |]). constructor.
  - fold out. rewrite W. split.
    + intro E. apply app_eq_nil in E. destruct E as [Ea Eb].
      apply mismatch_warning_nil in Ea. apply mismatch_warning_nil in Eb. auto.
    + intros [Ea Eb].
      apply (mismatch_warning_nil "a" "") in Ea.
      apply (mismatch_warning_nil "b" ".") in Eb.
      now rewrite Ea, Eb.
Qed.

End pairing_files.

(** ** counterpart_pairing: rows with NaN *)

Module pairing_nan.

Import counterpart_pairing.
Import np_facts.
Import pairing_properties.
Import float_facts.

(** X4: a row in which a contamination probability, a contaminating flux,
    the match probability, [eta] or [xi] is NaN is dropped from the
    counterpart files, and a field row whose probability is NaN from the
    field files of its catalogue: no comparison with NaN holds. *)
Theorem nan_rows_are_never_saved :
  forall (L : Z) (o : island_probabilities) (k : nat) (x : float),
    PrimFloat.is_nan x = true ->
    ((nth_error (acontamflux o) k = Some x \/ nth_error (bcontamflux o) k = Some x
      \/ nth_error (probcarray o) k = Some x \/ nth_error (etaarray o) k = Some x
      \/ nth_error (xiarray o) k = Some x
      \/ (exists row, In row (np.rows (acontamprob o)) /\ nth_error row k = Some x)
      \/ (exists row, In row (np.rows (bcontamprob o)) /\ nth_error row k = Some x)) ->
     nth k (countfilter L o) false = false)
    /\ (nth_error (probfaarray o) k = Some x -> nth k (afieldfilter L o) false = false)
    /\ (nth_error (probfbarray o) k = Some x -> nth k (bfieldfilter L o) false = false).
Proof.
  intros L o k x Hx.
  assert (N0 : (0 <=? x)%float = false) by now apply leb_nan_r.
  assert (N30 : (-30 <=? x)%float = false) by now apply leb_nan_r.
  split; [|split].
  - intro H. apply not_true_is_false. intro Hk.
    apply countfilter_valid in Hk.
    destruct Hk as (_ & _ & [_ Hpa] & [_ Hpb] & Hfa & Hfb & Hpc & Heta & Hxi).
    destruct H as [E|[E|[E|[E|[E|[[row [Hin E]]|[row [Hin E]]]]]]]].
    + pose proof (entry_unique _ _ _ _ Hfa E) as F. simpl in F. congruence.
    + pose proof (entry_unique _ _ _ _ Hfb E) as F. simpl in F. congruence.
    + pose proof (entry_unique _ _ _ _ Hpc E) as F. simpl in F. congruence.
    + pose proof (entry_unique _ _ _ _ Heta E) as F. simpl in F. congruence.
    + pose proof (entry_unique _ _ _ _ Hxi E) as F. simpl in F. congruence.
    + pose proof (entry_unique _ _ _ _ (Hpa row Hin) E) as F. simpl in F. congruence.
    + pose proof (entry_unique _ _ _ _ (Hpb row Hin) E) as F. simpl in F. congruence.
  - intro E. apply not_true_is_false. intro Hk.
    apply afieldfilter_valid in Hk. destruct Hk as [_ Hp].
    pose proof (entry_unique _ _ _ _ Hp E) as F. simpl in F. congruence.
  - intro E. apply not_true_is_false. intro Hk.
    apply bfieldfilter_valid in Hk. destruct Hk as [_ Hp].
    pose proof (entry_unique _ _ _ _ Hp E) as F. simpl in F. congruence.
Qed.

(** The pair whose [eta] is NaN is dropped. *)
Lemma nan_rows_are_never_saved_witness :
  nth 0 (countfilter 1 undefined_pair) false = false.
Proof.
  apply (proj1 (nan_rows_are_never_saved 1 undefined_pair 0 nan eq_refl)).
  right. right. right. left. reflexivity.
Defined.

End pairing_nan.

(** ** make_perturb_aufs: a configuration that passes the checks *)

Module argument_properties.

Import perturbation_auf.

Ltac checked_argument x := destruct x; cbn; try discriminate.

(** X5: a configuration that passes the checks is handed on as it was
    given. With [include_perturb_auf] off nothing changes; with it on, only
    a [dd_params] or [l_cut] left at [None] is replaced, by zeros of shape
    [(1, 1)] and [(1)], and that happens only when [run_psf] is [False]. *)
Theorem accepted_configuration_is_handed_on :
  forall c c' : config,
    check_arguments c = inr c' ->
    if include_perturb_auf c
    then c' = with_l_cut
                (with_dd_params c (match dd_params c with
                                   | Some v => v
                                   | None => np.zeros2 1 1
                                   end))
                (match l_cut c with
                 | Some v => v
                 | None => np.zeros 1
                 end)
         /\ (is_None (dd_params c) || is_None (l_cut c) = true -> run_psf c = Some false)
    else c' = c.
Proof.
  intros c c'.
  destruct c as [inc j0 tdf dmc psf tsn tfn tfns tmf tnf arf nt dm dr rfw rpsf dd lc
                 snr al fg cmau wv zm nz ab fn a0 a1 aw].
  unfold check_arguments. cbn. destruct inc; cbn; [|now intros [= <-]].
  checked_argument tsn. checked_argument tfn. checked_argument tfns. checked_argument tmf.
  checked_argument tnf. checked_argument arf. checked_argument dmc. checked_argument psf.
  checked_argument nt. checked_argument j0. checked_argument dm. checked_argument rfw.
  destruct rpsf as [[|]|]; cbn; try discriminate.
  all: checked_argument dd.
  all: checked_argument lc.
  all: checked_argument snr.
  all: checked_argument al.
  all: checked_argument dr.
  all: destruct fg as [[|]|]; cbn; try discriminate.
  all: try (intros [= <-]; split; [reflexivity | intro; try reflexivity; discriminate]).
  all: checked_argument cmau.
  all: checked_argument wv.
  all: checked_argument zm.
  all: checked_argument nz.
  all: checked_argument ab.
  all: checked_argument fn.
  all: checked_argument a0.
  all: checked_argument a1.
  all: checked_argument aw.
  all: intros [= <-]; split; [reflexivity | intro; try reflexivity; discriminate].
Qed.

Lemma accepted_configuration_is_handed_on_witness :
  exists c',
    check_arguments flux_weighted_config = inr c'
    /\ c' = with_l_cut (with_dd_params flux_weighted_config (np.zeros2 1 1)) (np.zeros 1)
    /\ run_psf flux_weighted_config = Some false.
Proof.
  pose proof (accepted_configuration_is_handed_on flux_weighted_config _ eq_refl) as H.
  cbv beta iota delta [include_perturb_auf flux_weighted_config dd_params l_cut] in H.
  destruct H as [E R].
  eexists. split; [reflexivity|]. split; [exact E | apply R; reflexivity].
Defined.

End argument_properties.

(** ** download_trilegal_simulation: retries, halving and the header *)

Module trilegal_properties.

Import perturbation_auf.
Import download_properties.

Lemma step_retry (total_objs triarea : float) (halved : bool) (n : Z) (r : reply) :
  retry_in_time r ->
  step total_objs (Searching triarea halved n) r
  = let n' := if String.eqb (result_ r) "nocomm" then (n + 1)%Z else n in
    if (5 <=? n')%Z
    then Finished (inl (HTTPError ("TRILEGAL server has not communicated in "
                                   ++ str_of_Z n' ++ " attempts.")%string))
    else Searching triarea halved n'.
Proof.
  intros [Ht Hr]. simpl.
  destruct (Z.leb_spec alarm_seconds (elapsed r)); [lia|].
  destruct Hr as [Hr|Hr]; rewrite Hr; simpl; reflexivity.
Qed.

Lemma count_nocomm_cons (r : reply) (rs : list reply) :
  count_nocomm (r :: rs)
  = ((if String.eqb (result_ r) "nocomm" then 1 else 0) + count_nocomm rs)%Z.
Proof.
  unfold count_nocomm. simpl. destruct (String.eqb (result_ r) "nocomm"); simpl length; lia.
Qed.

Lemma count_nocomm_nonneg (rs : list reply) : (0 <= count_nocomm rs)%Z.
Proof. unfold count_nocomm. lia. Qed.

(** X6: within one search the replies "nocomm" are counted whether or not
    they follow one another: the busy tone "timeout" of [get_trilegal] asks
    for another call without resetting the count. After replies that all
    came in time and asked for another call, the function has raised
    [HTTPError] if five of them (with those counted before) were "nocomm",
    and otherwise waits for the next reply with the same area. *)
Theorem busy_replies_do_not_reset_the_count :
  forall (total_objs triarea : float) (halved : bool) (n : Z) (rs : list reply),
    (0 <= n < 5)%Z ->
    Forall retry_in_time rs ->
    fold_left (step total_objs) rs (Searching triarea halved n)
    = if (5 <=? n + count_nocomm rs)%Z
      then Finished (inl (HTTPError "TRILEGAL server has not communicated in 5 attempts."))
      else Searching triarea halved (n + count_nocomm rs).
Proof.
  intros total_objs triarea halved n rs Hn Hall. revert n Hn.
  induction Hall as [|r rs Hr Hall IH]; intros n Hn.
  - cbn [fold_left]. unfold count_nocomm. cbn. rewrite Z.add_0_r.
    destruct (Z.leb_spec 5 n); [lia | reflexivity].
  - cbn [fold_left]. rewrite (step_retry _ _ _ _ _ Hr), count_nocomm_cons. cbv zeta.
    pose proof (count_nocomm_nonneg rs) as Hc.
    destruct (String.eqb (result_ r) "nocomm").
    + destruct (Z.leb_spec 5 (n + 1)) as [H5|H5].
      * assert (n + 1 = 5)%Z as -> by lia. cbn [str_of_Z].
        rewrite step_finished.
        destruct (Z.leb_spec 5 (n + (1 + count_nocomm rs))); [reflexivity | lia].
      * rewrite IH by lia. now rewrite Z.add_assoc.
    + destruct (Z.leb_spec 5 n); [lia|]. rewrite IH by lia. reflexivity.
Qed.

Lemma busy_replies_do_not_reset_the_count_witness :
  download_trilegal_simulation 1 1500000
    [nocomm_reply; busy_reply; nocomm_reply; nocomm_reply; busy_reply; busy_reply;
     nocomm_reply; nocomm_reply]
  = Finished (inl (HTTPError "TRILEGAL server has not communicated in 5 attempts.")).
Proof.
  apply (busy_replies_do_not_reset_the_count 1500000 (min_10 1) false 0
           [nocomm_reply; busy_reply; nocomm_reply; nocomm_reply; busy_reply; busy_reply;
            nocomm_reply; nocomm_reply]).
  - lia.
  - repeat constructor; (right; reflexivity) || (left; reflexivity).
Defined.

(** *** After a halving *)

Lemma step_after_halving (total_objs triarea : float) (n : Z) (r : reply) :
  (exists triarea' n', step total_objs (Searching triarea true n) r
                       = Searching triarea' true n')
  \/ (exists outcome, step total_objs (Searching triarea true n) r = Finished outcome).
Proof.
  simpl.
  destruct (alarm_seconds <=? elapsed r)%Z; [left; eauto|].
  destruct (5 <=? _)%Z; [right; eauto|].
  destruct (_ || _); [left; eauto|].
  unfold judge_counts. destruct (lines_after r); [|right; eauto].
  rewrite !andb_false_r. right; eauto.
Qed.

Lemma calls_after_halving (total_objs triarea : float) (n : Z) (rs : list reply) :
  Forall (fun call => snd call = Some alarm_seconds)
         (calls_from total_objs (Searching triarea true n) rs).
Proof.
  revert triarea n; induction rs as [|r rs IH]; intros triarea n; cbn [calls_from next_call].
  - constructor.
  - constructor; [reflexivity|].
    destruct (step_after_halving total_objs triarea n r) as [[t' [n' ->]]|[o ->]].
    + apply IH.
    + destruct rs; cbn; constructor.
Qed.

Lemma never_rerun_after_halving (total_objs triarea : float) (n : Z) (rs : list reply) :
  forall triarea', fold_left (step total_objs) rs (Searching triarea true n) <> Rerun triarea'.
Proof.
  revert triarea n; induction rs as [|r rs IH]; intros triarea n triarea'; cbn [fold_left].
  - discriminate.
  - destruct (step_after_halving total_objs triarea n r) as [[t' [n' ->]]|[o ->]].
    + apply IH.
    + rewrite step_finished. discriminate.
Qed.

(** X7: once a call has been cut by the alarm the area is never scaled
    back up. The halved search makes every later call under the alarm and
    never reaches the call without alarm of lines 627-631; and the first
    simulation returned in time is accepted with the area it was asked for,
    however few objects it holds. *)
Theorem after_a_halving_the_first_result_is_kept :
  forall (total_objs triarea : float) (n : Z) (r : reply),
    (0 <= n < 5)%Z ->
    result_in_time r ->
    step total_objs (Searching triarea true n) r = Finished (inr (triarea, av_inf r))
    /\ (forall rs, Forall (fun call => snd call = Some alarm_seconds)
                     (calls_from total_objs (Searching triarea true n) rs))
    /\ (forall rs triarea',
           fold_left (step total_objs) rs (Searching triarea true n) <> Rerun triarea').
Proof.
  intros total_objs triarea n r Hn (Ht & Hto & Hnc & Hfile).
  split; [|split; [intro rs; apply calls_after_halving
                  | intros rs t'; apply never_rerun_after_halving]].
  simpl.
  destruct (Z.leb_spec alarm_seconds (elapsed r)); [lia|].
  apply String.eqb_neq in Hto. apply String.eqb_neq in Hnc. rewrite Hto, Hnc.
  destruct (Z.leb_spec 5 n); [lia|]. simpl.
  unfold judge_counts. destruct (lines_after r); [|congruence].
  rewrite !andb_false_r. reflexivity.
Qed.

(** After a halving to half a square degree, a simulation of 500 objects
    returned in time is accepted. *)
Lemma after_a_halving_the_first_result_is_kept_witness :
  step 1500000 (Searching 0.5 true 0) small_reply = Finished (inr (0.5, 0.5)%float).
Proof.
  assert (Hn : (0 <= 0 < 5)%Z) by lia.
  assert (Hr : result_in_time small_reply).
  { unfold result_in_time. split; [reflexivity|]. repeat split; discriminate. }
  exact (proj1 (after_a_halving_the_first_result_is_kept 1500000 0.5 0 small_reply Hn Hr)).
Defined.

(** *** The header of the file *)

(** X8: when a call ends the function normally, the area and the extinction
    returned for the header of the file are those of that call: the area it
    was made with, and the [av_inf] it returned; and it left a file. *)
Theorem header_describes_the_last_call :
  forall (total_objs : float) (p : phase) (r : reply) (area av : float),
    p <> Finished (inr (area, av)) ->
    step total_objs p r = Finished (inr (area, av)) ->
    (exists alarm, next_call p = Some (area, alarm))
    /\ av = av_inf r /\ lines_after r <> None /\ result_ r <> "timeout"%string.
Proof.
  intros total_objs p r area av Hp H.
  destruct p as [triarea halved n|triarea|o]; simpl in H.
  - destruct (alarm_seconds <=? elapsed r)%Z; [discriminate|].
    destruct (5 <=? _)%Z; [discriminate|].
    destruct (String.eqb (result_ r) "timeout") eqn:Et; [discriminate|].
    destruct (String.eqb (result_ r) "nocomm") eqn:En; [discriminate|].
    simpl in H. unfold judge_counts in H.
    destruct (lines_after r) as [k|] eqn:El; [|discriminate].
    destruct (_ && _); [destruct (_ =? _)%float; discriminate|].
    destruct (_ && _); [discriminate|].
    inversion H; subst. split; [eexists; reflexivity|].
    split; [reflexivity|]. split; [congruence|]. now apply String.eqb_neq.
  - destruct (String.eqb (result_ r) "timeout") eqn:Et; [discriminate|].
    destruct (lines_after r) as [k|] eqn:El; [|discriminate].
    inversion H; subst. split; [eexists; reflexivity|].
    split; [reflexivity|]. split; [congruence|]. now apply String.eqb_neq.
  - congruence.
Qed.

Lemma header_describes_the_last_call_witness :
  (exists alarm, next_call (Rerun 10) = Some (10%float, alarm))
  /\ 0.5%float = av_inf good_reply /\ lines_after good_reply <> None
  /\ result_ good_reply <> "timeout"%string.
Proof.
  apply (header_describes_the_last_call 1500000 (Rerun 10) good_reply 10 0.5).
  - discriminate.
  - reflexivity.
Defined.

End trilegal_properties.

(** ** make_perturb_aufs: the loops over sky positions and filters *)

Module loop_properties.

Import perturbation_auf.
Import perturbation_properties.

Lemma dict_get_set_other {V : Type} (name name' : string) (v : V) (d : list (string * V)) :
  name <> name' -> dict_get name (dict_set name' v d) = dict_get name d.
Proof.
  intro H. induction d as [|[k v'] d IH]; simpl.
  - destruct (String.eqb_spec name' name); congruence.
  - destruct (String.eqb_spec k name'); simpl.
    + subst k. destruct (String.eqb_spec name' name); congruence.
    + now rewrite IH.
Qed.

Lemma all_stored_set (keys : list string) (key : string) (out : auf_output)
  (d : list (string * auf_output)) :
  has_narray out -> all_stored keys d -> all_stored (key :: keys) (dict_set key out d).
Proof.
  intros Hout H k [<-|Hk].
  - exists out. split; [apply dict_get_set | exact Hout].
  - destruct (String.eqb_spec k key) as [->|Hne].
    + exists out. split; [apply dict_get_set | exact Hout].
    + rewrite dict_get_set_other by exact Hne. now apply H.
Qed.

Lemma delta_function_output_has_narray (r dr : list float) (j0 : option np.array2)
  (out : auf_output) :
  delta_function_output r dr j0 = inr out -> has_narray out.
Proof.
  unfold delta_function_output.
  destruct (length r); [discriminate|].
  destruct (np.item 0 r); [discriminate|]. cbn [bind].
  destruct (np.item 0 dr); [discriminate|]. cbn [bind].
  destruct (delta_offset _ _); [discriminate|]. cbn [bind].
  destruct j0; [|discriminate].
  intros [= <-]. eexists. reflexivity.
Qed.

Section LoopFacts.

Variable fmt_float : float -> string.
Variable auf_folder : string.
Variable path_exists : string -> bool.
Variable makedirs : string -> py unit.
Variable find_nearest_point : list astro_row -> list (float * float) -> list nat.
Variable min_max_lon : list float -> py (float * float).
Variable np_linspace : float -> float -> Z -> list float.
Variable density_magnitudes : np.array2 -> nat -> list float.
Variable fetch_trilegal : config -> float * float -> tile_extent -> np.array2 -> py unit.
Variable local_density :
  list astro_row -> list astro_row -> list float -> option float -> float -> py (list float).
Variable single_perturb_auf :
  config -> float * float -> nat -> float -> list float -> list float ->
  list float -> list float -> py auf_output.

Variable c : config.
Variables r dr : list float.
Variable cat : catalogue.

Let combo := perturb_auf_combo fmt_float.

Lemma record_length_spec (j i : nat) (key : string) (st st' : loop_state) :
  record_length j i key st = inr st' ->
  exists out narray,
    dict_get key (perturb_auf_outputs st) = Some out
    /\ dict_get "Narray" out = Some narray
    /\ st' = set_arraylength j i (len narray) st.
Proof.
  unfold record_length.
  destruct (dict_get key (perturb_auf_outputs st)) as [out|]; [|discriminate].
  destruct (dict_get "Narray" out) as [narray|] eqn:E; [|discriminate].
  intros [= <-]. eauto.
Qed.

Lemma filter_step_spec (i : nat) (p : float * float) (t : tile_data) (j : nat)
  (filt : string) (st st' : loop_state) :
  filter_step fmt_float np_linspace local_density single_perturb_auf
    c r dr cat i p t j filt st = inr st' ->
  exists out n,
    has_narray out
    /\ perturb_auf_outputs st' = dict_set (combo p filt) out (perturb_auf_outputs st)
    /\ arraylengths st' = arraylengths st ++ [(j, i, n)].
Proof.
  unfold filter_step. fold (combo p filt).
  destruct (include_perturb_auf c).
  - destruct (column j (a_photo_cut t)) as [?|magnitudes]; [discriminate|]. cbn [bind].
    destruct (np.compress _ magnitudes) as [|m ms].
    + destruct (delta_function_output r dr (j0s c)) as [e|out] eqn:E; [discriminate|].
      cbn [bind]. intros [= <-]. exists out, 0%Z.
      split; [eapply delta_function_output_has_narray; eauto|]. split; reflexivity.
    + destruct (column j (a_tot_photo cat)) as [?|tot_magnitudes]; [discriminate|].
      cbn [bind].
      destruct (extent t) as [e|]; [|discriminate].
      destruct (np.item j (dens_mags e)) as [?|dens_mag]; [discriminate|]. cbn [bind].
      destruct (local_density _ _ _ _ _) as [?|localn]; [discriminate|]. cbn [bind].
      destruct (single_perturb_auf _ _ _ _ _ _ _ _) as [?|out]; [discriminate|]. cbn [bind].
      intro H. apply record_length_spec in H.
      destruct H as (out' & narray & Hget & Hn & ->).
      cbn [store perturb_auf_outputs] in Hget. rewrite dict_get_set in Hget.
      injection Hget as <-.
      exists out, (len narray). split; [eexists; eauto|]. split; reflexivity.
  - destruct (delta_function_output r dr (j0s c)) as [e|out] eqn:E; [discriminate|].
    cbn [bind]. intro H. apply record_length_spec in H.
    destruct H as (out' & narray & Hget & Hn & ->).
    cbn [store perturb_auf_outputs] in Hget. rewrite dict_get_set in Hget.
    injection Hget as <-.
    exists out, (len narray). split; [eexists; eauto|]. split; reflexivity.
Qed.

Lemma filters_loop_spec (i : nat) (p : float * float) (t : tile_data)
  (filters : list string) :
  forall (j : nat) (keys : list string) (st st' : loop_state),
    filters_loop fmt_float np_linspace local_density single_perturb_auf
      c r dr cat i p t j filters st = inr st' ->
    all_stored keys (perturb_auf_outputs st) ->
    all_stored (map (combo p) filters ++ keys) (perturb_auf_outputs st')
    /\ exists new, arraylengths st' = arraylengths st ++ new
                   /\ map fst new = map (fun j' => (j', i)) (seq j (length filters)).
Proof.
  induction filters as [|filt filters IH]; intros j keys st st' H Hst; cbn [filters_loop] in H.
  - injection H as <-. split; [exact Hst|]. exists []. now rewrite app_nil_r.
  - destruct (filter_step _ _ _ _ _ _ _ _ _ _ _ _ _ st) as [?|st1] eqn:E; [discriminate|].
    cbn [bind] in H. apply filter_step_spec in E.
    destruct E as (out & n & Hout & Ho & Ha).
    specialize (IH (S j) (combo p filt :: keys) st1 st' H).
    destruct IH as [Hall [new [Hnew Hfst]]].
    { rewrite Ho. now apply all_stored_set. }
    split.
    + intros key Hk. apply Hall. cbn [map app In] in Hk.
      rewrite in_app_iff in *. cbn [In]. tauto.
    + exists ((j, i, n) :: new). split.
      * rewrite Hnew, Ha, <- app_assoc. reflexivity.
      * cbn [map fst length seq]. now rewrite Hfst.
Qed.

Lemma tile_step_spec (filters : list string) (tiles : list nat) (i : nat)
  (p : float * float) (keys : list string) (st st' : loop_state) :
  tile_step fmt_float auf_folder path_exists makedirs min_max_lon np_linspace
    density_magnitudes fetch_trilegal local_density single_perturb_auf
    c r dr cat filters tiles i p st = inr st' ->
  all_stored keys (perturb_auf_outputs st) ->
  all_stored (map (combo p) filters ++ keys) (perturb_auf_outputs st')
  /\ exists new, arraylengths st' = arraylengths st ++ new
                 /\ map fst new = map (fun j' => (j', i)) (seq 0 (length filters)).
Proof.
  unfold tile_step.
  destruct (make_ax_folder _ _ _ _ p) as [?|[]]; [discriminate|]. cbn [bind].
  destruct (if include_perturb_auf c then _ else _) as [?|e]; [discriminate|]. cbn [bind].
  destruct (match e with Some _ => _ | None => _ end) as [?|[]]; [discriminate|]. cbn [bind].
  apply filters_loop_spec.
Qed.

Lemma tiles_loop_spec (filters : list string) (tiles : list nat)
  (auf_points : list (float * float)) :
  forall (i : nat) (keys : list string) (st st' : loop_state),
    tiles_loop fmt_float auf_folder path_exists makedirs min_max_lon np_linspace
      density_magnitudes fetch_trilegal local_density single_perturb_auf
      c r dr cat filters tiles i auf_points st = inr st' ->
    all_stored keys (perturb_auf_outputs st) ->
    all_stored (flat_map (fun p => map (combo p) filters) auf_points ++ keys)
               (perturb_auf_outputs st')
    /\ exists new, arraylengths st' = arraylengths st ++ new
                   /\ map fst new = visited (length filters) i (length auf_points).
Proof.
  induction auf_points as [|p ps IH]; intros i keys st st' H Hst; cbn [tiles_loop] in H.
  - injection H as <-. split; [exact Hst|]. exists []. now rewrite app_nil_r.
  - destruct (tile_step _ _ _ _ _ _ _ _ _ _ _ _ _ _ _ _ _ _ st) as [?|st1] eqn:E;
      [discriminate|].
    cbn [bind] in H.
    destruct (tile_step_spec _ _ _ _ keys _ _ E Hst) as [Hall1 [new1 [Hnew1 Hfst1]]].
    destruct (IH (S i) _ st1 st' H Hall1) as [Hall [new [Hnew Hfst]]].
    split.
    + intros key Hk. apply Hall. cbn [flat_map] in Hk.
      rewrite !in_app_iff in *. tauto.
    + exists (new1 ++ new). split.
      * rewrite Hnew, Hnew1, <- app_assoc. reflexivity.
      * unfold visited in *. cbn [length seq flat_map]. now rewrite map_app, Hfst1, Hfst.
Qed.

End LoopFacts.

(** X9: when the loops over sky positions and filters end normally, the
    dictionary holds, for every sky position and every filter, a bundle
    with its ['Narray'], and [arraylengths] was assigned once at every
    position [(j, i)], filter by filter within each sky position. *)
Theorem every_position_and_filter_gets_a_bundle :
  forall fmt_float auf_folder path_exists makedirs min_max_lon np_linspace
         density_magnitudes fetch_trilegal local_density single_perturb_auf
         (c : config) (r dr : list float) (cat : catalogue) (filters : list string)
         (tiles : list nat) (auf_points : list (float * float)) (st' : loop_state),
    tiles_loop fmt_float auf_folder path_exists makedirs min_max_lon np_linspace
      density_magnitudes fetch_trilegal local_density single_perturb_auf
      c r dr cat filters tiles 0 auf_points initial_state
    = inr st' ->
    (forall p filt, In p auf_points -> In filt filters ->
       exists out narray,
         dict_get (perturb_auf_combo fmt_float p filt) (perturb_auf_outputs st') = Some out
         /\ dict_get "Narray" out = Some narray)
    /\ map fst (arraylengths st') = visited (length filters) 0 (length auf_points).
Proof.
  intros fmt_float auf_folder path_exists makedirs min_max_lon np_linspace
    density_magnitudes fetch_trilegal local_density single_perturb_auf
    c r dr cat filters tiles auf_points st' H.
  destruct (tiles_loop_spec fmt_float auf_folder path_exists makedirs min_max_lon
              np_linspace density_magnitudes fetch_trilegal
              local_density single_perturb_auf c r dr cat filters tiles auf_points
              0 [] initial_state st' H) as [Hall [new [Hnew Hfst]]].
  { intros key []. }
  split.
  - intros p filt Hp Hf.
    destruct (Hall (perturb_auf_combo fmt_float p filt)) as [out [Hget [narray Hn]]].
    + rewrite app_nil_r, in_flat_map. exists p. split; [exact Hp|]. now apply in_map.
    + eauto.
  - rewrite Hnew. exact Hfst.
Qed.

Lemma every_position_and_filter_gets_a_bundle_witness :
  exists st',
    tiles_loop fmt_table "auf" (fun _ => false) (fun _ => inr tt)
      flat_min_max_lon linspace_formula (fun _ _ => [])
      (fun _ _ _ _ => inr tt) (fun _ _ _ _ _ => inr []) (fun _ _ _ _ _ _ _ _ => inr [])
      no_perturbation_config [0; 0.1; 0.2]%float [0.1; 0.1]%float
      {| a_tot_astro := []; a_tot_photo := np.mk_array2 2 []; magref := [] |}
      ["W1"; "W2"]%string [] 0 [(10, 0)%float] initial_state = inr st'
    /\ (forall p filt, In p [(10, 0)%float] -> In filt ["W1"; "W2"]%string ->
          exists out narray,
            dict_get (perturb_auf_combo fmt_table p filt) (perturb_auf_outputs st') = Some out
            /\ dict_get "Narray" out = Some narray)
    /\ map fst (arraylengths st') = visited 2 0 1.
Proof.
  eexists. split; [reflexivity|].
  apply (every_position_and_filter_gets_a_bundle fmt_table "auf"%string (fun _ => false)
           (fun _ => inr tt) flat_min_max_lon linspace_formula
           (fun _ _ => []) (fun _ _ _ _ => inr tt) (fun _ _ _ _ _ => inr [])
           (fun _ _ _ _ _ _ _ _ => inr [])
           no_perturbation_config [0; 0.1; 0.2]%float [0.1; 0.1]%float
           {| a_tot_astro := []; a_tot_photo := np.mk_array2 2 []; magref := [] |}
           ["W1"; "W2"]%string [] [(10, 0)%float]).
  reflexivity.
Defined.

(** *** Without the perturbation component *)

Section WithoutPerturbation.

Variable fmt_float : float -> string.
Variable auf_folder : string.
Variable path_exists : string -> bool.
Variable makedirs : string -> py unit.
Variable min_max_lon : list float -> py (float * float).
Variable np_linspace : float -> float -> Z -> list float.
Variable density_magnitudes : np.array2 -> nat -> list float.
Variable fetch_trilegal : config -> float * float -> tile_extent -> np.array2 -> py unit.
Variable local_density :
  list astro_row -> list astro_row -> list float -> option float -> float -> py (list float).
Variable single_perturb_auf :
  config -> float * float -> nat -> float -> list float -> list float ->
  list float -> list float -> py auf_output.

Variable c : config.
Variables r0 r1 dr0 : float.
Variables rs drs : list float.
Variable j0 : np.array2.
Variable cat : catalogue.

Hypothesis perturbation_off : include_perturb_auf c = false.
Hypothesis j0s_given : j0s c = Some j0.

Let bundle := delta_bundle r0 dr0 (S (length rs)) (length (np.rows j0)).

Lemma filter_step_off (i : nat) (p : float * float) (t : tile_data) (j : nat)
  (filt : string) (st : loop_state) :
  filter_step fmt_float np_linspace local_density single_perturb_auf
    c (r0 :: r1 :: rs) (dr0 :: drs) cat i p t j filt st
  = inr (stored_deltas bundle [perturb_auf_combo fmt_float p filt] [(j, i)] st).
Proof.
  unfold filter_step. rewrite perturbation_off, j0s_given, delta_function_output_bundle.
  fold bundle. cbn [bind]. unfold record_length. cbn [store perturb_auf_outputs].
  rewrite dict_get_set. reflexivity.
Qed.

Lemma stored_deltas_app (b : auf_output) (keys keys' : list string)
  (at_ at' : list (nat * nat)) (st : loop_state) :
  stored_deltas b keys' at' (stored_deltas b keys at_ st)
  = stored_deltas b (keys ++ keys') (at_ ++ at') st.
Proof.
  unfold stored_deltas. cbn [perturb_auf_outputs arraylengths local_n].
  now rewrite fold_left_app, map_app, app_assoc.
Qed.

Lemma stored_deltas_nil (b : auf_output) (st : loop_state) : stored_deltas b [] [] st = st.
Proof.
  destruct st. unfold stored_deltas. cbn. now rewrite app_nil_r.
Qed.

Lemma filters_loop_off (i : nat) (p : float * float) (t : tile_data)
  (filters : list string) :
  forall (j : nat) (st : loop_state),
    filters_loop fmt_float np_linspace local_density single_perturb_auf
      c (r0 :: r1 :: rs) (dr0 :: drs) cat i p t j filters st
    = inr (stored_deltas bundle (map (perturb_auf_combo fmt_float p) filters)
             (map (fun j' => (j', i)) (seq j (length filters))) st).
Proof.
  induction filters as [|filt filters IH]; intros j st; cbn [filters_loop].
  - cbn. now rewrite stored_deltas_nil.
  - rewrite filter_step_off. cbn [bind]. rewrite IH, stored_deltas_app. reflexivity.
Qed.

(** The loop over the sky positions does what making their folders does,
    and then holds the bundles of the Dirac delta. *)
Lemma tiles_loop_off (filters : list string) (tiles : list nat)
  (auf_points : list (float * float)) :
  forall (i : nat) (st : loop_state),
    tiles_loop fmt_float auf_folder path_exists makedirs min_max_lon np_linspace
      density_magnitudes fetch_trilegal local_density single_perturb_auf
      c (r0 :: r1 :: rs) (dr0 :: drs) cat filters tiles i auf_points st
    = (_ <- for_each (make_ax_folder fmt_float auf_folder path_exists makedirs) auf_points ;;
       ret (stored_deltas bundle
              (flat_map (fun p => map (perturb_auf_combo fmt_float p) filters) auf_points)
              (visited (length filters) i (length auf_points)) st)).
Proof.
  induction auf_points as [|p ps IH]; intros i st; cbn [tiles_loop for_each].
  - cbn. now rewrite stored_deltas_nil.
  - unfold tile_step.
    destruct (make_ax_folder fmt_float auf_folder path_exists makedirs p) as [e|[]];
      [reflexivity|].
    cbn [bind]. rewrite perturbation_off. cbn [bind ret].
    rewrite filters_loop_off. cbn [bind]. rewrite IH.
    destruct (for_each _ ps) as [e|made]; [reflexivity|].
    cbn [bind ret]. rewrite stored_deltas_app. reflexivity.
Qed.

Lemma for_each_all {A B : Type} (f : A -> py B) (y : B) (xs : list A) :
  (forall x, In x xs -> f x = inr y) -> for_each f xs = inr (map (fun _ => y) xs).
Proof.
  induction xs as [|x xs IH]; intro H; cbn [for_each map]; [reflexivity|].
  rewrite (H x) by now left. cbn [bind]. rewrite IH; [reflexivity|].
  intros x' Hx. apply H. now right.
Qed.

Lemma for_each_raises {A B : Type} (f : A -> py B) (xs : list A) (e : exception) :
  for_each f xs = inl e -> exists x, In x xs /\ f x = inl e.
Proof.
  induction xs as [|x xs IH]; cbn [for_each]; [discriminate|].
  destruct (f x) as [e'|y] eqn:E; cbn [bind].
  - intros [= <-]. exists x. split; [now left | exact E].
  - destruct (for_each f xs) as [e'|ys]; cbn [bind ret]; [|discriminate].
    intros [= <-]. destruct (IH eq_refl) as [x' [Hin Hx']]. exists x'. split; [now right | exact Hx'].
Qed.

End WithoutPerturbation.

(** X10: without the perturbation component the loops neither download nor
    simulate anything, and the folders of the sky positions are all that can
    make them fail: whatever the catalogue, and whatever the functions that
    compute densities, download TRILEGAL and simulate perturbations, when
    every folder exists or can be made every sky position and filter gets the
    bundle of the Dirac delta and the length one in [arraylengths], and
    [local_n] is left alone; and an exception of the loops is the exception
    [os.makedirs] raised for one of the sky positions. *)
Theorem without_perturbation_only_the_folders_can_fail :
  forall fmt_float auf_folder path_exists makedirs min_max_lon np_linspace
         density_magnitudes fetch_trilegal local_density single_perturb_auf
         (c : config) (r0 r1 dr0 : float) (rs drs : list float) (j0 : np.array2)
         (cat : catalogue) (filters : list string) (tiles : list nat)
         (auf_points : list (float * float)),
    include_perturb_auf c = false ->
    j0s c = Some j0 ->
    ((forall p, In p auf_points ->
                make_ax_folder fmt_float auf_folder path_exists makedirs p = inr tt) ->
     tiles_loop fmt_float auf_folder path_exists makedirs min_max_lon np_linspace
       density_magnitudes fetch_trilegal local_density single_perturb_auf
       c (r0 :: r1 :: rs) (dr0 :: drs) cat filters tiles 0 auf_points initial_state
     = inr (stored_deltas (delta_bundle r0 dr0 (S (length rs)) (length (np.rows j0)))
              (flat_map (fun p => map (perturb_auf_combo fmt_float p) filters) auf_points)
              (visited (length filters) 0 (length auf_points)) initial_state))
    /\ (forall e,
          tiles_loop fmt_float auf_folder path_exists makedirs min_max_lon np_linspace
            density_magnitudes fetch_trilegal local_density single_perturb_auf
            c (r0 :: r1 :: rs) (dr0 :: drs) cat filters tiles 0 auf_points initial_state
          = inl e ->
          exists p, In p auf_points
                    /\ path_exists (ax_folder fmt_float auf_folder p) = false
                    /\ makedirs (ax_folder fmt_float auf_folder p) = inl e).
Proof.
  intros fmt_float auf_folder path_exists makedirs min_max_lon np_linspace
    density_magnitudes fetch_trilegal local_density single_perturb_auf
    c r0 r1 dr0 rs drs j0 cat filters tiles auf_points Hoff Hj0.
  rewrite (tiles_loop_off fmt_float auf_folder path_exists makedirs min_max_lon np_linspace
             density_magnitudes fetch_trilegal local_density single_perturb_auf
             c r0 r1 dr0 rs drs j0 cat Hoff Hj0).
  split.
  - intro Hmade. rewrite (for_each_all _ tt _ Hmade). reflexivity.
  - intros e H.
    destruct (for_each _ auf_points) as [e'|made] eqn:E; [|discriminate].
    cbn [bind] in H. injection H as ->.
    destruct (for_each_raises _ _ _ E) as [p [Hin Hp]].
    exists p. split; [exact Hin|]. unfold make_ax_folder in Hp.
    destruct (path_exists _); [discriminate|]. split; [reflexivity | exact Hp].
Qed.

Lemma without_perturbation_only_the_folders_can_fail_witness :
  tiles_loop fmt_table "auf" (fun _ => false) (fun _ => inr tt)
    flat_min_max_lon linspace_formula (fun _ _ => [])
    (fun _ _ _ _ => inl (HTTPError "no network")) (fun _ _ _ _ _ => inl IndexError)
    (fun _ _ _ _ _ _ _ _ => inl (ValueError "no simulation"))
    no_perturbation_config [0; 0.1; 0.2]%float [0.1; 0.1]%float
    {| a_tot_astro := [(10, 0, 0.1)%float]; a_tot_photo := np.mk_array2 1 [[15%float]];
       magref := [0%Z] |}
    ["W1"]%string [0%nat] 0 [(10, 0)%float] initial_state
  = inr {| perturb_auf_outputs := [("10.0-0.0-W1"%string, delta_bundle 0 0.1 2 2)];
           arraylengths := [(0%nat, 0%nat, 1%Z)]; local_n := [] |}.
Proof.
  apply (proj1 (without_perturbation_only_the_folders_can_fail fmt_table "auf"%string
                  (fun _ => false) (fun _ => inr tt) flat_min_max_lon
                  linspace_formula (fun _ _ => [])
                  (fun _ _ _ _ => inl (HTTPError "no network"))
                  (fun _ _ _ _ _ => inl IndexError)
                  (fun _ _ _ _ _ _ _ _ => inl (ValueError "no simulation"))
                  no_perturbation_config 0 0.1 0.1 [0.2]%float [0.1]%float (np.ones2 2 3)
                  {| a_tot_astro := [(10, 0, 0.1)%float];
                     a_tot_photo := np.mk_array2 1 [[15%float]]; magref := [0%Z] |}
                  ["W1"]%string [0%nat] [(10, 0)%float] eq_refl eq_refl)).
  intros p Hp. reflexivity.
Defined.

End loop_properties.

(** ** _calculate_magnitude_offsets: what makes it fail *)

Module offsets_errors.

Import perturbation_auf.
Import perturbation_properties.

Section MagnitudeOffsetsErrors.

Variables np_log10 np_log : float -> float.
Variable np_power : float -> float -> float.

Lemma compress_all_false {A : Type} (m : list bool) (xs : list A) :
  forallb negb m = true -> np.compress m xs = [].
Proof.
  revert xs; induction m as [|b m IH]; intros [|x xs] H; simpl in *; auto.
  apply andb_true_iff in H. destruct H as [Hb H]. destruct b; [discriminate|]. now apply IH.
Qed.

Lemma model_bins_none (mids : list float) (mag : float) :
  existsb (fun m => (mag <=? m)%float) mids = false ->
  forallb negb (model_bins_from mids mag) = true.
Proof.
  unfold model_bins_from. induction mids as [|m mids IH]; simpl; auto.
  intro H. apply orb_false_iff in H. destruct H as [-> H]. simpl. now apply IH.
Qed.

Lemma dm_max_no_perturb_at_uncovered (mids log10y interval : list float)
  (r n_norm count mag : float) :
  existsb (fun m => (mag <=? m)%float) mids = false ->
  dm_max_no_perturb_at np_log np_power mids log10y interval r n_norm count mag
  = inl IndexError.
Proof.
  intro H. apply model_bins_none in H.
  unfold dm_max_no_perturb_at, expected_perturbers.
  rewrite !(compress_all_false _ _ H). reflexivity.
Qed.

Lemma dm_max_no_perturb_at_raises (mids log10y interval : list float)
  (r n_norm count mag : float) (e : exception) :
  dm_max_no_perturb_at np_log np_power mids log10y interval r n_norm count mag = inl e ->
  e = IndexError.
Proof.
  unfold dm_max_no_perturb_at, np.item, np.item_last.
  destruct (np.where_ _) as [|q0 qs].
  - destruct (rev _); cbv [bind ret raise]; intros [= <-]; reflexivity.
  - destruct (nth_error _ q0); cbv [bind ret raise]; intros [= <-]; reflexivity.
Qed.

Lemma dm_max_no_perturb_loop_raises (counts mids log10y interval : list float)
  (r n_norm : float) (mags : list float) :
  forall (i : nat) (e : exception),
    dm_max_no_perturb_loop np_log np_power counts mids log10y interval r n_norm i mags
    = inl e ->
    e = IndexError.
Proof.
  induction mags as [|mag mags IH]; intros i e H; cbn [dm_max_no_perturb_loop] in H.
  - discriminate.
  - unfold np.item at 1 in H. destruct (nth_error counts i) as [count|]; cbn [bind raise ret] in H;
      [|now injection H as <-].
    destruct (dm_max_no_perturb_at np_log np_power mids log10y interval r n_norm count mag)
      as [e'|d] eqn:E; cbn [bind raise ret] in H.
    + injection H as <-. eapply dm_max_no_perturb_at_raises; eauto.
    + destruct (dm_max_no_perturb_loop np_log np_power counts mids log10y interval r n_norm
                  (S i) mags) as [e'|ds] eqn:El; cbn [bind raise ret] in H.
      * injection H as <-. eapply IH; eauto.
      * discriminate.
Qed.

Lemma dm_max_no_perturb_loop_uncovered (counts mids log10y interval : list float)
  (r n_norm : float) (mags : list float) :
  forall i : nat,
    (exists mag, In mag mags /\ existsb (fun m => (mag <=? m)%float) mids = false)
    \/ (i <= length counts < i + length mags) ->
    dm_max_no_perturb_loop np_log np_power counts mids log10y interval r n_norm i mags
    = inl IndexError.
Proof.
  intros i H.
  destruct (dm_max_no_perturb_loop np_log np_power counts mids log10y interval r n_norm
              i mags) as [e|ds] eqn:E.
  - f_equal. eapply dm_max_no_perturb_loop_raises; eauto.
  - exfalso. revert i ds H E.
    induction mags as [|mag mags IH]; intros i ds H E; cbn [dm_max_no_perturb_loop] in E.
    + destruct H as [[mag [[] _]]|H]. simpl in H. lia.
    + unfold np.item at 1 in E.
      destruct (nth_error counts i) as [count|] eqn:Ec; cbn [bind raise ret] in E; [|discriminate].
      assert (Hi : i < length counts) by (apply nth_error_Some; congruence).
      destruct (dm_max_no_perturb_at np_log np_power mids log10y interval r n_norm count mag) as [e'|d] eqn:Ea; cbn [bind raise ret] in E;
        [discriminate|].
      destruct (dm_max_no_perturb_loop np_log np_power counts mids log10y interval r n_norm (S i) mags) as [e'|ds'] eqn:El;
        cbn [bind raise ret] in E; [discriminate|].
      destruct H as [[mag' [[<-|Hin] Hno]]|H].
      * rewrite dm_max_no_perturb_at_uncovered in Ea by exact Hno. discriminate.
      * apply (IH (S i) ds'); [left; eauto | exact El].
      * destruct mags as [|mag2 mags2].
        -- simpl in H. lia.
        -- apply (IH (S i) ds'); [right; simpl in *; lia | exact El].
Qed.

End MagnitudeOffsetsErrors.

(** X11: [_calculate_magnitude_offsets] raises [IndexError] when a magnitude
    is fainter than every model bin (a NaN magnitude is) or [count_array] is
    shorter than [mag_array]; and when every magnitude has its density and a
    model bin, but [snr] and [mag_array] differ in length and neither has
    length one, [np.maximum] raises [ValueError]. *)
Theorem magnitude_offsets_errors :
  forall (np_log10 np_log : float -> float) (np_power : float -> float -> float)
         (count_array mag_array : list float) (b : float)
         (snr model_mag_mids log10y model_mags_interval : list float) (r n_norm : float),
    ((exists mag, In mag mag_array
                  /\ existsb (fun m => (mag <=? m)%float) model_mag_mids = false)
     \/ length count_array < length mag_array ->
     _calculate_magnitude_offsets np_log10 np_log np_power count_array mag_array b snr
       model_mag_mids log10y model_mags_interval r n_norm = inl IndexError)
    /\ (length log10y = length model_mag_mids ->
        length model_mags_interval = length model_mag_mids ->
        length count_array = length mag_array ->
        (forall mag, In mag mag_array ->
                     existsb (fun m => (mag <=? m)%float) model_mag_mids = true) ->
        length snr <> length mag_array -> length snr <> 1 -> length mag_array <> 1 ->
        exists msg,
          _calculate_magnitude_offsets np_log10 np_log np_power count_array mag_array b snr
            model_mag_mids log10y model_mags_interval r n_norm
          = inl (ValueError msg)).
Proof.
  intros np_log10 np_log np_power count_array mag_array b snr mids log10y interval r n_norm.
  split.
  - intro H. unfold _calculate_magnitude_offsets.
    rewrite dm_max_no_perturb_loop_uncovered; [reflexivity|].
    destruct H as [H|H]; [now left | right; simpl; lia].
  - intros Hl Hw Hc Hbins Hs Hs1 Hm1.
    destruct (dm_max_no_perturb_loop_spec np_log np_power mids log10y interval r n_norm
                mag_array count_array [] Hl Hw Hc Hbins) as [ds [Hds [Hlds _]]].
    simpl in Hds. unfold _calculate_magnitude_offsets. rewrite Hds. cbn [bind].
    unfold np.broadcast2, dm_max_snr. rewrite length_map, Hlds.
    destruct (Nat.eqb_spec (length snr) (length mag_array)); [contradiction|].
    destruct snr as [|s [|s' snr]]; simpl in *; try contradiction.
    + destruct ds as [|d [|d' ds]]; simpl in *; try (eexists; reflexivity). congruence.
    + destruct ds as [|d [|d' ds]]; simpl in *; try (eexists; reflexivity). congruence.
Qed.

(** A source of magnitude 20 in front of model bins that end at 17.5; and
    three sources with two signal-to-noise ratios. *)
Lemma magnitude_offsets_errors_witness :
  _calculate_magnitude_offsets log10_table log_table power_table
    [1000; 1000]%float [15; 20]%float 0.05%float [5; 0.05]%float
    [15.5; 16.5; 17.5]%float [0; 0; 0]%float [1; 1; 1]%float 3600%float 1000%float
  = inl IndexError
  /\ exists msg,
       _calculate_magnitude_offsets log10_table log_table power_table
         [1000; 1000; 1000]%float [15; 16; 17]%float 0.05%float [5; 0.05]%float
         [15.5; 16.5; 17.5]%float [0; 0; 0]%float [1; 1; 1]%float 3600%float 1000%float
       = inl (ValueError msg).
Proof.
  split.
  - apply (proj1 (magnitude_offsets_errors log10_table log_table power_table
                    [1000; 1000]%float [15; 20]%float 0.05%float [5; 0.05]%float
                    [15.5; 16.5; 17.5]%float [0; 0; 0]%float [1; 1; 1]%float
                    3600%float 1000%float)).
    left. exists 20%float. split; [right; left; reflexivity | reflexivity].
  - apply (proj2 (magnitude_offsets_errors log10_table log_table power_table
                    [1000; 1000; 1000]%float [15; 16; 17]%float 0.05%float [5; 0.05]%float
                    [15.5; 16.5; 17.5]%float [0; 0; 0]%float [1; 1; 1]%float
                    3600%float 1000%float)); try reflexivity; try discriminate.
    intros mag [<-|[<-|[<-|[]]]]; reflexivity.
Defined.

End offsets_errors.

(** ** calculate_local_density: a grid of a single line *)

Module density_edges.

Import perturbation_auf.

Lemma consecutive_short {A : Type} (xs : list A) : length xs <= 1 -> np.consecutive xs = [].
Proof.
  destruct xs as [|x [|y xs]]; simpl; auto. lia.
Qed.

Lemma fold_left_unchanged {S A : Type} (l : list A) (s : S) :
  fold_left (fun s' _ => s') l s = s.
Proof.
  induction l as [|x l IH]; simpl; auto.
Qed.

(** X12: when the grid of sub-rectangles has a single line along one axis,
    as [np.linspace(lo, lo, int(np.ceil(0) + 1))] is when all the sources
    share one longitude or one latitude, no cell is visited: the counts of
    [calculate_local_density] are never written, and the densities returned
    are the content of the fresh [np.empty] array over the areas, whatever
    the catalogue holds. *)
Theorem single_grid_line_leaves_the_counts_unset :
  forall (min_max_lon : list float -> py (float * float))
         (_load_rectangular_slice :
            list astro_row -> float -> float -> float -> float -> float -> list bool)
         (np_linspace : float -> float -> Z -> list float) (np_ceil : float -> float)
         (np_empty : nat -> list float)
         (get_density : list float -> list float -> list float -> list float -> float -> list Z)
         (get_circle_area_overlap :
            list float -> list float -> float -> float -> float -> float -> float -> list float)
         (a_astro a_tot_astro : list astro_row) (a_tot_photo : list float)
         (density_radius density_mag : float)
         (min_lon max_lon min_lat max_lat : float) (ax1_loops ax2_loops : list float)
         (b_min_lon b_max_lon b_min_lat b_max_lat : float),
    let cut := np.logical_and
                 (_load_rectangular_slice a_tot_astro min_lon max_lon min_lat max_lat
                    density_radius)
                 (map (fun m => (m <=? density_mag)%float) a_tot_photo) in
    let overlap := np.compress cut a_tot_astro in
    min_max_lon (map ax1_of a_astro) = inr (min_lon, max_lon) ->
    np.amin (map ax2_of a_astro) = inr min_lat ->
    np.amax (map ax2_of a_astro) = inr max_lat ->
    axis_loops np_linspace np_ceil min_lon max_lon = inr ax1_loops ->
    axis_loops np_linspace np_ceil min_lat max_lat = inr ax2_loops ->
    length ax1_loops <= 1 \/ length ax2_loops <= 1 ->
    min_max_lon (map ax1_of overlap) = inr (b_min_lon, b_max_lon) ->
    np.amin (map ax2_of overlap) = inr b_min_lat ->
    np.amax (map ax2_of overlap) = inr b_max_lat ->
    calculate_local_density min_max_lon _load_rectangular_slice np_linspace np_ceil np_empty
      get_density get_circle_area_overlap
      a_astro a_tot_astro a_tot_photo density_radius density_mag
    = inr (np.map2 PrimFloat.div (np_empty (length a_astro))
             (get_circle_area_overlap (map ax1_of a_astro) (map ax2_of a_astro)
                density_radius b_min_lon b_max_lon b_min_lat b_max_lat)).
Proof.
  intros min_max_lon _load_rectangular_slice np_linspace np_ceil np_empty get_density
    get_circle_area_overlap a_astro a_tot_astro a_tot_photo density_radius density_mag
    min_lon max_lon min_lat max_lat ax1_loops ax2_loops
    b_min_lon b_max_lon b_min_lat b_max_lat cut overlap
    Hlon Hlat1 Hlat2 Hax1 Hax2 Hshort Hblon Hblat1 Hblat2.
  unfold calculate_local_density.
  rewrite Hlon. cbn [bind]. rewrite Hlat1. cbn [bind]. rewrite Hlat2. cbn [bind].
  rewrite Hax1. cbn [bind]. rewrite Hax2. cbn [bind].
  fold cut. fold overlap. rewrite Hblon. cbn [bind]. rewrite Hblat1. cbn [bind].
  rewrite Hblat2. cbn [bind]. unfold ret. f_equal. f_equal.
  unfold count_cells. destruct Hshort as [H|H]; rewrite (consecutive_short _ H).
  - reflexivity.
  - cbn [fold_left]. apply fold_left_unchanged.
Qed.

(** A single source: the grid is the one point of its longitude. *)
Lemma single_grid_line_leaves_the_counts_unset_witness :
  calculate_local_density flat_min_max_lon flat_rectangular_slice linspace_formula
    ceil_table empty_nan (get_density_model flat_within) flat_circle_area
    [faint_1] four_sources four_magnitudes 0.125 15
  = inr (np.map2 PrimFloat.div (empty_nan 1)
           (flat_circle_area [0.5] [0.5] 0.125 0.375 0.375 0.375 0.375))%float.
Proof.
  apply (single_grid_line_leaves_the_counts_unset flat_min_max_lon flat_rectangular_slice
           linspace_formula ceil_table empty_nan (get_density_model flat_within)
           flat_circle_area [faint_1] four_sources four_magnitudes 0.125 15
           0.5 0.5 0.5 0.5 [0.5]%float [0.5]%float 0.375 0.375 0.375 0.375)%float;
    try reflexivity.
  left. simpl. lia.
Defined.

End density_edges.

(** ** create_single_perturb_auf: no bright model counts *)

Module bright_count_properties.

Import perturbation_auf.
Import perturbation_properties.

Lemma eqb_zero_spec (x : float) :
  (x =? 0)%float = true -> exists s, Prim2SF x = S754_zero s.
Proof.
  rewrite eqb_spec. unfold SFeqb.
  replace (Prim2SF 0) with (S754_zero false) by reflexivity.
  destruct (Prim2SF x) as [s|s| |s m e]; simpl; try discriminate.
  - intros _. now exists s.
  - destruct s; discriminate.
  - destruct s; discriminate.
Qed.

(** A quotient by zero, times anything, is an infinity or NaN. *)
Lemma over_zero_times (x y z : float) :
  (y =? 0)%float = true ->
  (exists s, Prim2SF (x / y * z) = S754_infinity s) \/ Prim2SF (x / y * z) = S754_nan.
Proof.
  intro H. destruct (eqb_zero_spec y H) as [sy Hy].
  rewrite mul_spec, div_spec, Hy.
  destruct (Prim2SF x) as [s|s| |s m e], (Prim2SF z) as [s'|s'| |s' m' e']; simpl; eauto.
Qed.

Lemma py_int_over_zero (x y z : float) :
  (y =? 0)%float = true ->
  py_int (x / y * z) = inl OverflowError
  \/ py_int (x / y * z) = inl (ValueError "cannot convert float NaN to integer").
Proof.
  intro H. unfold py_int.
  destruct (over_zero_times x y z H) as [[s ->]| ->]; auto.
Qed.

(** X13: with galaxy counts fitted, a simulation without bright model
    counts ([tri_count] zero, as the sum over no bin is) never reaches the
    check of the number of bright sources: the ratio of the bright densities
    is an infinity or NaN, and [int] of it raises [OverflowError] or
    [ValueError] in place of the message about too few simulated objects. *)
Theorem no_bright_star_counts_with_galaxies :
  forall np_log10 np_log np_power np_sum av_grid make_tri_counts create_galaxy_counts
         populated_bins find_nearest_point simulate_perturbations
         (a : single_auf_args) (brightest : float) (t : tri_counts),
    sa_fit_gal_flag a = true ->
    np.amin (a_photo a) = inr brightest ->
    make_tri_counts (tri_folder a) "trilegal_auf_simulation"%string (filt_header a)
      (sa_d_mag a) brightest (density_mag a) (al_av a) (av_grid a) = inr t ->
    (tri_count_of np_log10 np_power np_sum a t =? 0)%float = true ->
    exists e,
      create_single_perturb_auf np_log10 np_log np_power np_sum av_grid make_tri_counts
        create_galaxy_counts populated_bins find_nearest_point simulate_perturbations a
      = inl e
      /\ (e = OverflowError \/ e = ValueError "cannot convert float NaN to integer").
Proof.
  intros np_log10 np_log np_power np_sum av_grid make_tri_counts create_galaxy_counts
    populated_bins find_nearest_point simulate_perturbations a brightest t
    Hgal Hmin Htri Hzero.
  unfold create_single_perturb_auf.
  rewrite Hmin. cbn [bind]. rewrite Htri. cbn [bind].
  rewrite Hgal. unfold tot_n_bright_sources.
  destruct (py_int_over_zero
              (gal_count_of np_sum av_grid create_galaxy_counts a t)
              (tri_count_of np_log10 np_power np_sum a t)
              (n_bright_sources_star t) Hzero) as [E|E];
    rewrite E; cbn [bind]; eauto.
Qed.

Lemma no_bright_star_counts_with_galaxies_witness :
  create_single_perturb_auf log10_table log_table power_table sum_in_order
    (fun _ => [1%float]) (fun _ _ _ _ _ _ _ _ => inr sparse_counts)
    (fun _ _ _ => [1; 1]%float) (fun _ _ => ([], [])) (fun _ _ => 0) (fun _ _ _ _ _ => [])
    bright_limit_patch
  = inl (ValueError "cannot convert float NaN to integer").
Proof.
  destruct (no_bright_star_counts_with_galaxies log10_table log_table power_table
              sum_in_order (fun _ => [1%float]) (fun _ _ _ _ _ _ _ _ => inr sparse_counts)
              (fun _ _ _ => [1; 1]%float) (fun _ _ => ([], [])) (fun _ _ => 0%nat)
              (fun _ _ _ _ _ => []) bright_limit_patch 14%float sparse_counts
              eq_refl eq_refl eq_refl eq_refl) as [e [E [He|He]]].
  - rewrite He in E. discriminate E.
  - rewrite He in E. exact E.
Defined.

End bright_count_properties.

(** ** The header of a TRILEGAL file, written and read *)

Module header_properties.

Import perturbation_auf.
Import perturbation_properties.

(** *** Lines and pieces of a text *)

Lemma append_assoc (s t u : string) : ((s ++ t) ++ u = s ++ t ++ u)%string.
Proof.
  induction s as [|ch s IH]; cbn [append]; [reflexivity | now rewrite IH].
Qed.

Lemma unbroken_cons (ch : ascii) (s : string) :
  unbroken (String ch s) = true ->
  Ascii.eqb ch " " = false /\ Ascii.eqb ch newline = false /\ unbroken s = true.
Proof.
  simpl. rewrite !andb_true_iff, !negb_true_iff. tauto.
Qed.

Lemma unbroken_one_line (s : string) : unbroken s = true -> one_line s = true.
Proof.
  induction s as [|ch s IH]; [reflexivity|]. intro H.
  apply unbroken_cons in H. destruct H as (_ & Hn & Hs).
  cbn [one_line]. now rewrite Hn, (IH Hs).
Qed.

Lemma one_line_app (s t : string) : one_line (s ++ t) = one_line s && one_line t.
Proof.
  induction s as [|ch s IH]; cbn [append one_line]; [reflexivity|].
  now rewrite IH, andb_assoc.
Qed.

Lemma readline_line (line rest : string) :
  one_line line = true ->
  readline (line ++ String newline rest) = ((line ++ nl)%string, rest).
Proof.
  induction line as [|ch line IH]; cbn [append readline one_line]; intro H.
  - rewrite Ascii.eqb_refl. reflexivity.
  - apply andb_true_iff in H. destruct H as [Hn Hl]. apply negb_true_iff in Hn.
    rewrite Hn, (IH Hl). reflexivity.
Qed.

Lemma split_space_word (word rest : string) :
  unbroken word = true ->
  split_space (word ++ String " " rest) = word :: split_space rest.
Proof.
  induction word as [|ch word IH]; cbn [append split_space]; intro H.
  - reflexivity.
  - apply unbroken_cons in H. destruct H as (Hs & _ & Hl).
    rewrite Hs, (IH Hl). reflexivity.
Qed.

Lemma split_space_last (word : string) :
  unbroken word = true -> split_space (word ++ nl) = [(word ++ nl)%string].
Proof.
  induction word as [|ch word IH]; cbn [append split_space]; intro H.
  - reflexivity.
  - apply unbroken_cons in H. destruct H as (Hs & _ & Hl).
    rewrite Hs, (IH Hl). reflexivity.
Qed.

Section HeaderFacts.

Variable fmt_float : float -> string.
Variables triarea av_inf : float.
Variable contents : string.

Hypothesis area_text_unbroken : unbroken (fmt_float triarea) = true.
Hypothesis av_text_unbroken : unbroken (fmt_float av_inf) = true.

Let area_line := ("#area = " ++ fmt_float triarea ++ " sq deg" ++ nl)%string.
Let av_line := ("#Av at infinity = " ++ fmt_float av_inf ++ nl)%string.

Lemma readline_area :
  readline (with_header fmt_float triarea av_inf contents)
  = (area_line, (av_line ++ contents)%string).
Proof.
  unfold with_header, header_text.
  replace (("#area = " ++ fmt_float triarea ++ " sq deg" ++ nl
            ++ "#Av at infinity = " ++ fmt_float av_inf ++ nl) ++ contents)%string
    with (("#area = " ++ fmt_float triarea ++ " sq deg")
          ++ String newline (av_line ++ contents))%string.
  - rewrite readline_line.
    + unfold area_line. now rewrite !append_assoc.
    + rewrite !one_line_app, (unbroken_one_line _ area_text_unbroken). reflexivity.
  - unfold av_line. rewrite !append_assoc. reflexivity.
Qed.

Lemma readline_av : readline (av_line ++ contents) = (av_line, contents).
Proof.
  unfold av_line.
  replace (("#Av at infinity = " ++ fmt_float av_inf ++ nl) ++ contents)%string
    with (("#Av at infinity = " ++ fmt_float av_inf) ++ String newline contents)%string.
  - rewrite readline_line.
    + now rewrite !append_assoc.
    + rewrite !one_line_app, (unbroken_one_line _ av_text_unbroken). reflexivity.
  - rewrite !append_assoc. reflexivity.
Qed.

Lemma split_area_line :
  split_space area_line
  = ["#area"; "="; fmt_float triarea; "sq"; ("deg" ++ nl)]%string.
Proof.
  unfold area_line.
  change ("#area = " ++ fmt_float triarea ++ " sq deg" ++ nl)%string
    with ("#area" ++ String " " ("=" ++ String " "
            (fmt_float triarea ++ String " " ("sq" ++ String " " ("deg" ++ nl)))))%string.
  rewrite !split_space_word by (reflexivity || assumption).
  rewrite split_space_last by reflexivity. reflexivity.
Qed.

Lemma split_av_line :
  split_space av_line
  = ["#Av"; "at"; "infinity"; "="; (fmt_float av_inf ++ nl)]%string.
Proof.
  unfold av_line.
  change ("#Av at infinity = " ++ fmt_float av_inf ++ nl)%string
    with ("#Av" ++ String " " ("at" ++ String " " ("infinity" ++ String " "
            ("=" ++ String " " (fmt_float av_inf ++ nl)))))%string.
  rewrite !split_space_word by reflexivity.
  rewrite split_space_last by assumption. reflexivity.
Qed.

End HeaderFacts.

Lemma load_tri_file_header (fmt_float : float -> string) (py_float : string -> py float)
  (read_text : string -> py string)
  (genfromtxt : string -> string -> py (list float * list float))
  (trifolder trifilename trifiltname which : string)
  (av_grid : option (list float)) (triarea av_inf : float) (contents : string) :
  unbroken (fmt_float triarea) = true ->
  unbroken (fmt_float av_inf) = true ->
  py_float (fmt_float triarea) = inr triarea ->
  py_float (fmt_float av_inf ++ nl)%string = inr av_inf ->
  read_text (trifolder ++ "/" ++ trifilename ++ "_" ++ which ++ ".dat")%string
  = inr (with_header fmt_float triarea av_inf contents) ->
  load_tri_file py_float read_text genfromtxt trifolder trifilename trifiltname which av_grid
  = if (av_inf <? 0.1)%float && given av_grid
    then inl (ValueError ("tri_av_inf_" ++ which
                          ++ " cannot be smaller than 0.1 while using av_grid.")%string)
    else columns <- genfromtxt (trifolder ++ "/" ++ trifilename ++ "_" ++ which ++ ".dat")%string
                      trifiltname ;;
         ret {| tri_area := triarea; tri_av_inf := av_inf;
                tridata := fst columns; tri_avs := snd columns |}.
Proof.
  intros Ha Hv Hfa Hfv Hread.
  unfold load_tri_file. rewrite Hread. cbn [bind].
  rewrite (readline_area fmt_float triarea av_inf contents Ha).
  rewrite (readline_av fmt_float av_inf contents Hv).
  rewrite (split_area_line fmt_float triarea Ha), (split_av_line fmt_float av_inf Hv).
  cbn [np.item nth_error ret bind]. rewrite Hfa. cbn [bind]. rewrite Hfv. cbn [bind].
  unfold raise_if. destruct ((av_inf <? 0.1)%float && given av_grid); reflexivity.
Qed.

(** X14: the header that [download_trilegal_simulation] puts before the
    lines of the file is the header [make_tri_counts] reads. From a file
    rewritten with an area and an extinction at infinity whose texts hold no
    space and no newline, the third piece of the first line is the text of
    the area and the fifth piece of the second line the text of the
    extinction followed by the newline; with [float] giving back the number
    of such a text, the file is loaded with that area and that extinction,
    unless the extinction is below 0.1 while a grid of extinctions is given. *)
Theorem header_written_is_header_read :
  forall (fmt_float : float -> string) (py_float : string -> py float)
         (read_text : string -> py string)
         (genfromtxt : string -> string -> py (list float * list float))
         (trifolder trifilename trifiltname which : string)
         (av_grid : option (list float)) (triarea av_inf : float) (contents : string)
         (columns : list float * list float),
    unbroken (fmt_float triarea) = true ->
    unbroken (fmt_float av_inf) = true ->
    py_float (fmt_float triarea) = inr triarea ->
    py_float (fmt_float av_inf ++ nl)%string = inr av_inf ->
    read_text (trifolder ++ "/" ++ trifilename ++ "_" ++ which ++ ".dat")%string
    = inr (with_header fmt_float triarea av_inf contents) ->
    genfromtxt (trifolder ++ "/" ++ trifilename ++ "_" ++ which ++ ".dat")%string trifiltname
    = inr columns ->
    np.item 2 (split_space (fst (readline (with_header fmt_float triarea av_inf contents))))
    = inr (fmt_float triarea)
    /\ np.item 4 (split_space
                    (fst (readline
                            (snd (readline (with_header fmt_float triarea av_inf contents))))))
       = inr (fmt_float av_inf ++ nl)%string
    /\ load_tri_file py_float read_text genfromtxt trifolder trifilename trifiltname which
         av_grid
       = if (av_inf <? 0.1)%float && given av_grid
         then inl (ValueError ("tri_av_inf_" ++ which
                               ++ " cannot be smaller than 0.1 while using av_grid.")%string)
         else inr {| tri_area := triarea; tri_av_inf := av_inf;
                     tridata := fst columns; tri_avs := snd columns |}.
Proof.
  intros fmt_float py_float read_text genfromtxt trifolder trifilename trifiltname which
    av_grid triarea av_inf contents columns Ha Hv Hfa Hfv Hread Hcols.
  split; [|split].
  - rewrite (readline_area fmt_float triarea av_inf contents Ha). cbn [fst].
    now rewrite (split_area_line fmt_float triarea Ha).
  - rewrite (readline_area fmt_float triarea av_inf contents Ha). cbn [snd].
    rewrite (readline_av fmt_float av_inf contents Hv). cbn [fst].
    now rewrite (split_av_line fmt_float av_inf Hv).
  - rewrite (load_tri_file_header fmt_float py_float read_text genfromtxt trifolder
               trifilename trifiltname which av_grid triarea av_inf contents
               Ha Hv Hfa Hfv Hread).
    destruct (_ && _); [reflexivity|]. rewrite Hcols. reflexivity.
Qed.

Lemma header_written_is_header_read_witness :
  load_tri_file float_table
    (fun _ => inr (with_header fmt_table 10 0 "#Gc logAge")) (fun _ _ => inr ([15%float], [0%float]))
    "auf/10.0/0.0" "trilegal_auf_simulation" "W1" "faint" None
  = inr {| tri_area := 10; tri_av_inf := 0; tridata := [15%float]; tri_avs := [0%float] |}.
Proof.
  apply (header_written_is_header_read fmt_table float_table
           (fun _ => inr (with_header fmt_table 10 0 "#Gc logAge"))
           (fun _ _ => inr ([15%float], [0%float]))
           "auf/10.0/0.0" "trilegal_auf_simulation" "W1" "faint" None 10 0 "#Gc logAge"
           ([15%float], [0%float])); reflexivity.
Defined.

(** *** What make_tri_counts rejects *)

(** X15: [make_tri_counts] raises [ValueError] before it opens a file when
    both [use_bright] and [use_faint] are [False] or when only one of [al_av]
    and [av_grid] is given; and a faint file whose header gives an
    extinction at infinity below 0.1 makes [create_single_perturb_auf],
    which always hands over a grid of extinctions, end with the
    [ValueError] of [make_tri_counts] before any column of the file is
    read. *)
Theorem make_tri_counts_rejections :
  forall (py_float : string -> py float) (read_text : string -> py string)
         (genfromtxt : string -> string -> py (list float * list float))
         (histograms : float -> float -> float -> option float -> option (list float) ->
                       option tri_file -> option tri_file -> py tri_counts),
    (forall trifolder trifilename trifiltname dm brightest density_mag al_av av_grid,
        make_tri_counts py_float read_text genfromtxt histograms trifolder trifilename
          trifiltname dm brightest density_mag false false al_av av_grid
        = inl (ValueError "use_bright and use_faint cannot both be 'False'."))
    /\ (forall trifolder trifilename trifiltname dm brightest density_mag use_bright
               use_faint al_av av_grid,
          use_bright || use_faint = true ->
          is_None al_av = negb (is_None av_grid) ->
          make_tri_counts py_float read_text genfromtxt histograms trifolder trifilename
            trifiltname dm brightest density_mag use_bright use_faint al_av av_grid
          = inl (ValueError
                   "If one of al_av or av_grid is provided the other must be given as well."))
    /\ (forall np_log10 np_log np_power np_sum av_grid create_galaxy_counts populated_bins
               find_nearest_point simulate_perturbations (fmt_float : float -> string)
               (a : single_auf_args) (brightest triarea av_inf : float) (contents : string),
          np.amin (a_photo a) = inr brightest ->
          unbroken (fmt_float triarea) = true ->
          unbroken (fmt_float av_inf) = true ->
          py_float (fmt_float triarea) = inr triarea ->
          py_float (fmt_float av_inf ++ nl)%string = inr av_inf ->
          read_text (tri_folder a ++ "/trilegal_auf_simulation_faint.dat")%string
          = inr (with_header fmt_float triarea av_inf contents) ->
          (av_inf <? 0.1)%float = true ->
          create_single_perturb_auf np_log10 np_log np_power np_sum av_grid
            (make_tri_counts_faint py_float read_text genfromtxt histograms)
            create_galaxy_counts populated_bins find_nearest_point simulate_perturbations a
          = inl (ValueError
                   "tri_av_inf_faint cannot be smaller than 0.1 while using av_grid.")).
Proof.
  intros py_float read_text genfromtxt histograms. split; [|split].
  - reflexivity.
  - intros trifolder trifilename trifiltname dm brightest density_mag use_bright use_faint
      al_av av_grid Hflag Hone.
    unfold make_tri_counts, given. rewrite Hone.
    destruct use_bright, use_faint; try discriminate;
      destruct (is_None av_grid); reflexivity.
  - intros np_log10 np_log np_power np_sum av_grid create_galaxy_counts populated_bins
      find_nearest_point simulate_perturbations fmt_float a brightest triarea av_inf contents
      Hmin Ha Hv Hfa Hfv Hread Hlow.
    unfold create_single_perturb_auf. rewrite Hmin. cbn [bind].
    unfold make_tri_counts_faint, make_tri_counts. cbn [negb andb orb raise_if bind ret
      is_None given].
    rewrite (load_tri_file_header fmt_float py_float read_text genfromtxt (tri_folder a)
               "trilegal_auf_simulation" (filt_header a) "faint" (Some (av_grid a))
               triarea av_inf contents Ha Hv Hfa Hfv).
    + rewrite Hlow. reflexivity.
    + rewrite <- Hread. f_equal.
Qed.

Lemma make_tri_counts_rejections_witness :
  create_single_perturb_auf log10_table log_table power_table sum_in_order
    (fun _ => [1%float])
    (make_tri_counts_faint float_table
       (fun _ => inr (with_header fmt_table 10 0 "#Gc logAge"))
       (fun _ _ => inr ([15%float], [0%float]))
       (fun _ _ _ _ _ _ _ => inr sparse_counts))
    (fun _ _ _ => []) (fun _ _ => ([], [])) (fun _ _ => 0) (fun _ _ _ _ _ => [])
    sparse_patch
  = inl (ValueError "tri_av_inf_faint cannot be smaller than 0.1 while using av_grid.").
Proof.
  apply (proj2 (proj2 (make_tri_counts_rejections float_table
                         (fun _ => inr (with_header fmt_table 10 0 "#Gc logAge"))
                         (fun _ _ => inr ([15%float], [0%float]))
                         (fun _ _ _ _ _ _ _ => inr sparse_counts)))
           log10_table log_table power_table sum_in_order (fun _ => [1%float])
           (fun _ _ _ => []) (fun _ _ => ([], [])) (fun _ _ => 0%nat) (fun _ _ _ _ _ => [])
           fmt_table sparse_patch 14%float 10%float 0%float "#Gc logAge"%string);
    reflexivity.
Defined.

End header_properties.

(** ** The order of float64 without NaN *)

Module float_order.

Import perturbation_properties.
Import float_facts.

Section Order.

(** A number as a triple of integers ordered as the numbers are: the sign
    class, then exponent and mantissa, mirrored for negative numbers. *)
Let key (a : spec_float) : Z * Z * Z :=
  match a with
  | S754_zero _ => (0, 0, 0)%Z
  | S754_infinity s => (if s then (-2)%Z else 2%Z, 0%Z, 0%Z)
  | S754_nan => (0, 0, 0)%Z
  | S754_finite s m e => if s then ((-1)%Z, (- e)%Z, Z.neg m) else (1%Z, e, Z.pos m)
  end.

Let lt3 (a b : Z * Z * Z) : Prop :=
  (fst (fst a) < fst (fst b)
   \/ (fst (fst a) = fst (fst b)
       /\ (snd (fst a) < snd (fst b)
           \/ (snd (fst a) = snd (fst b) /\ snd a < snd b))))%Z.

Let eq3 (a b : Z * Z * Z) : Prop :=
  (fst (fst a) = fst (fst b) /\ snd (fst a) = snd (fst b) /\ snd a = snd b)%Z.

Lemma SFcompare_key (a b : spec_float) :
  a <> S754_nan -> b <> S754_nan ->
  match SFcompare a b with
  | Some Lt => lt3 (key a) (key b)
  | Some Eq => eq3 (key a) (key b)
  | Some Gt => lt3 (key b) (key a)
  | None => False
  end.
Proof.
  intros Ha Hb. unfold lt3, eq3.
  destruct a as [s|s| |s m e], b as [s'|s'| |s' m' e']; try congruence; simpl;
    try (destruct s; simpl; lia); try (destruct s'; simpl; lia);
    try (destruct s, s'; simpl; lia).
  destruct s, s'; simpl; try lia.
  - destruct (Z.compare_spec e e'); simpl; try lia.
    subst. change (Pos.compare_cont Eq m m') with (Pos.compare m m').
    destruct (Pos.compare_spec m m'); simpl; subst; lia.
  - destruct (Z.compare_spec e e'); simpl; try lia.
    subst. change (Pos.compare_cont Eq m m') with (Pos.compare m m').
    destruct (Pos.compare_spec m m'); simpl; subst; lia.
Qed.

Lemma ltb_key (x y : float) :
  PrimFloat.is_nan x = false -> PrimFloat.is_nan y = false ->
  ((x <? y)%float = true <-> lt3 (key (Prim2SF x)) (key (Prim2SF y))).
Proof.
  intros Hx Hy. rewrite ltb_spec. unfold SFltb.
  pose proof (SFcompare_key _ _ (not_nan_spec x Hx) (not_nan_spec y Hy)) as K.
  unfold lt3, eq3 in *.
  destruct (SFcompare (Prim2SF x) (Prim2SF y)) as [[| |]|]; split; intro H;
    try discriminate; try reflexivity; try tauto; lia.
Qed.

Lemma leb_key (x y : float) :
  PrimFloat.is_nan x = false -> PrimFloat.is_nan y = false ->
  ((x <=? y)%float = true
   <-> lt3 (key (Prim2SF x)) (key (Prim2SF y)) \/ eq3 (key (Prim2SF x)) (key (Prim2SF y))).
Proof.
  intros Hx Hy. rewrite leb_spec. unfold SFleb.
  pose proof (SFcompare_key _ _ (not_nan_spec x Hx) (not_nan_spec y Hy)) as K.
  unfold lt3, eq3 in *.
  destruct (SFcompare (Prim2SF x) (Prim2SF y)) as [[| |]|]; split; intro H;
    try discriminate; try reflexivity; try tauto; lia.
Qed.

(** On numbers, [<] and [<=] order as they should. *)
Lemma ltb_leb_trans (x y z : float) :
  PrimFloat.is_nan x = false -> PrimFloat.is_nan y = false -> PrimFloat.is_nan z = false ->
  (x <? y)%float = true -> (y <=? z)%float = true -> (x <? z)%float = true.
Proof.
  intros Hx Hy Hz. rewrite (ltb_key x y), (leb_key y z), (ltb_key x z) by assumption.
  unfold lt3, eq3. lia.
Qed.

Lemma leb_trans (x y z : float) :
  PrimFloat.is_nan x = false -> PrimFloat.is_nan y = false -> PrimFloat.is_nan z = false ->
  (x <=? y)%float = true -> (y <=? z)%float = true -> (x <=? z)%float = true.
Proof.
  intros Hx Hy Hz. rewrite (leb_key x y), (leb_key y z), (leb_key x z) by assumption.
  unfold lt3, eq3. lia.
Qed.

Lemma ltb_leb (x y : float) :
  PrimFloat.is_nan x = false -> PrimFloat.is_nan y = false ->
  (x <? y)%float = true -> (x <=? y)%float = true.
Proof.
  intros Hx Hy. rewrite (ltb_key x y), (leb_key x y) by assumption. tauto.
Qed.

Lemma not_ltb_leb (x y : float) :
  PrimFloat.is_nan x = false -> PrimFloat.is_nan y = false ->
  (x <? y)%float = false -> (y <=? x)%float = true.
Proof.
  intros Hx Hy H. apply (leb_key y x Hy Hx).
  assert (N : ~ lt3 (key (Prim2SF x)) (key (Prim2SF y))).
  { intro L. apply (ltb_key x y Hx Hy) in L. congruence. }
  unfold lt3, eq3 in *. lia.
Qed.

End Order.

End float_order.

(** ** make_perturb_aufs: the arrays built after the loops *)

Module finish_properties.

Import perturbation_auf.
Import perturbation_properties.
Import float_facts.
Import float_order.
Import loop_properties.

(** *** np.argmin *)

Lemma argmin_from_spec (xs : list float) :
  forall (pre : list float) (best_k : nat) (best : float),
    Forall (fun x => PrimFloat.is_nan x = false) pre ->
    Forall (fun x => PrimFloat.is_nan x = false) xs ->
    first_smallest pre best_k best ->
    exists v, first_smallest (pre ++ xs) (argmin_from best_k (length pre) best xs) v.
Proof.
  induction xs as [|x xs IH]; intros pre best_k best Hpre Hxs Hbest.
  - exists best. rewrite app_nil_r. exact Hbest.
  - inversion Hxs as [|? ? Hx Hxs']; subst.
    assert (Hb : PrimFloat.is_nan best = false).
    { destruct Hbest as [E _]. rewrite Forall_forall in Hpre. apply Hpre.
      eapply nth_error_In; eauto. }
    assert (Hk : best_k < length pre).
    { destruct Hbest as [E _]. apply nth_error_Some. congruence. }
    cbn [argmin_from]. rewrite Hb, Hx, orb_false_r. cbn [negb andb].
    replace (pre ++ x :: xs)%list with ((pre ++ [x]) ++ xs)%list
      by (rewrite <- app_assoc; reflexivity).
    replace (S (length pre)) with (length (pre ++ [x])%list)
      by (rewrite length_app; simpl; lia).
    assert (Hpre' : Forall (fun x => PrimFloat.is_nan x = false) (pre ++ [x])%list)
      by (apply Forall_app; split; auto).
    destruct (x <? best)%float eqn:E.
    + replace (length pre) with (length pre) at 1 by reflexivity.
      apply IH; auto. split.
      * rewrite nth_error_app2 by lia. now rewrite Nat.sub_diag.
      * intros k' y Hy. destruct (Nat.lt_ge_cases k' (length pre)) as [Hlt|Hge].
        -- rewrite nth_error_app1 in Hy by exact Hlt.
           destruct Hbest as [_ Hall]. destruct (Hall k' y Hy) as [Hle _].
           assert (Hyn : PrimFloat.is_nan y = false).
           { rewrite Forall_forall in Hpre. apply Hpre. eapply nth_error_In; eauto. }
           assert (Hlty : (x <? y)%float = true) by (apply (ltb_leb_trans x best y); auto).
           split; [now apply ltb_leb | auto].
        -- rewrite nth_error_app2 in Hy by exact Hge.
           destruct (k' - length pre) as [|d] eqn:Ed; simpl in Hy.
           ++ injection Hy as <-. split; [now apply leb_refl | lia].
           ++ destruct d; discriminate.
    + apply IH; auto. destruct Hbest as [Eb Hall]. split.
      * rewrite nth_error_app1 by exact Hk. exact Eb.
      * intros k' y Hy. destruct (Nat.lt_ge_cases k' (length pre)) as [Hlt|Hge].
        -- rewrite nth_error_app1 in Hy by exact Hlt. now apply Hall.
        -- rewrite nth_error_app2 in Hy by exact Hge.
           destruct (k' - length pre) as [|d] eqn:Ed; simpl in Hy.
           ++ injection Hy as <-. split; [now apply not_ltb_leb | lia].
           ++ destruct d; discriminate.
Qed.

Lemma argmin_spec (xs : list float) :
  xs <> [] ->
  Forall (fun x => PrimFloat.is_nan x = false) xs ->
  exists k v, argmin xs = inr k /\ first_smallest xs k v.
Proof.
  destruct xs as [|x xs]; [congruence|]. intros _ H.
  inversion H as [|? ? Hx Hxs]; subst.
  destruct (argmin_from_spec xs [x] 0 x) as [v Hv]; auto.
  - split; [reflexivity|]. intros [|k'] y Hy; simpl in Hy.
    + injection Hy as <-. split; [now apply leb_refl | lia].
    + destruct k'; discriminate.
  - exists (argmin_from 0 1 x xs), v. split; [reflexivity | exact Hv].
Qed.

(** *** Loops in the error monad *)

Lemma for_each_nth {A B : Type} (f : A -> py B) (xs : list A) :
  forall ys, for_each f xs = inr ys ->
             length ys = length xs
             /\ forall k x, nth_error xs k = Some x ->
                            exists y, nth_error ys k = Some y /\ f x = inr y.
Proof.
  induction xs as [|x xs IH]; intros ys H; cbn [for_each] in H.
  - injection H as <-. split; [reflexivity|]. intros [|k] ? E; discriminate.
  - destruct (f x) as [e|y] eqn:Ef; [discriminate|]. cbn [bind] in H.
    destruct (for_each f xs) as [e|ys'] eqn:Er; [discriminate|]. cbn [bind ret] in H.
    injection H as <-. destruct (IH ys' eq_refl) as [Hlen Hnth].
    split; [simpl; congruence|].
    intros [|k] x' E; simpl in E.
    + injection E as <-. exists y. auto.
    + apply Hnth. exact E.
Qed.

Lemma enumerate_from_nth {A : Type} (xs : list A) :
  forall (start k : nat) (x : A),
    nth_error xs k = Some x ->
    nth_error (combine (seq start (length xs)) xs) k = Some (start + k, x).
Proof.
  induction xs as [|x' xs IH]; intros start [|k] x E; simpl in *; try discriminate.
  - injection E as <-. now rewrite Nat.add_0_r.
  - rewrite (IH (S start) k x E). f_equal. f_equal. lia.
Qed.

Lemma enumerate_nth {A : Type} (xs : list A) (k : nat) (x : A) :
  nth_error xs k = Some x -> nth_error (enumerate xs) k = Some (k, x).
Proof.
  intro E. unfold enumerate. now rewrite (enumerate_from_nth xs 0 k x E).
Qed.

Lemma wrap_index_nat (j n : nat) : j < n -> wrap_index (Z.of_nat j) n = inr j.
Proof.
  intro H. unfold wrap_index.
  destruct (Z.leb_spec 0 (Z.of_nat j)); [|lia].
  destruct (Z.ltb_spec (Z.of_nat j) (Z.of_nat n)); [|lia].
  cbn. now rewrite Nat2Z.id.
Qed.

Lemma firstn_app_exact {A : Type} (xs ys : list A) : firstn (length xs) (xs ++ ys) = xs.
Proof.
  induction xs as [|x xs IH]; simpl; [now destruct ys | now rewrite IH].
Qed.

Lemma assign_row_same {A : Type} (xs : list A) : assign_row (length xs) xs = inr xs.
Proof.
  unfold assign_row. now rewrite Nat.eqb_refl.
Qed.

Section FinishFacts.

Variable fmt_float : float -> string.
Variable grid : Type.
Variable create_auf_params_grid :
  list (string * output_value grid) -> list (float * float) -> list string -> string ->
  list (list Z) -> option Z -> py grid.
Variable filters : list string.
Variable auf_points : list (float * float).
Variable c : config.
Variable cat : catalogue.
Variable tiles : list nat.
Variable st : loop_state.

Lemma fill_column_combination (longestnm : Z) (i : nat) (p : float * float) (j : nat)
  (filt : string) (out : auf_output) (Ns Ms : list float) :
  assigned 0%Z (arraylengths st) j i = Z.of_nat (length Ns) ->
  Ns <> [] -> length Ms = length Ns ->
  dict_get (perturb_auf_combo fmt_float p filt) (perturb_auf_outputs st) = Some out ->
  dict_get "Narray" out = Some (np.Floats Ns) ->
  dict_get "magarray" out = Some (np.Floats Ms) ->
  exists rest_n rest_m,
    fill_column fmt_float st longestnm i p j filt
    = inr ((Ns ++ rest_n)%list, (Ms ++ rest_m)%list).
Proof.
  intros HL Hne Hlen Hout Hn Hm. unfold fill_column. rewrite HL.
  destruct (Z.eqb_spec (Z.of_nat (length Ns)) 0) as [E|_].
  { destruct Ns; [congruence | simpl in E; lia]. }
  unfold dict_item. rewrite Hout. cbn [bind ret]. rewrite Hn, Hm. cbn [bind ret as_vector].
  rewrite Nat2Z.id, assign_row_same. cbn [bind]. rewrite <- Hlen.
  rewrite assign_row_same. cbn [bind ret]. eauto.
Qed.

End FinishFacts.

End finish_properties.

(** ** make_perturb_aufs without the perturbation component *)

Module off_properties.

Import perturbation_auf.
Import perturbation_properties.
Import loop_properties.
Import finish_properties.

Lemma check_arguments_off (c : config) :
  include_perturb_auf c = false -> check_arguments c = inr c.
Proof.
  destruct c as [inc j0 tdf dmc psf tsn tfn tfns tmf tnf arf nt dm dr rfw rpsf dd lc
                 snr al fg cmau wv zm nz ab fn a0 a1 aw].
  cbn. intros ->. reflexivity.
Qed.

(** *** Keys of the dictionary *)

Lemma list_ascii_of_string_app (a b : string) :
  list_ascii_of_string (a ++ b) = (list_ascii_of_string a ++ list_ascii_of_string b)%list.
Proof.
  induction a as [|ch a IH]; simpl; [reflexivity | now rewrite IH].
Qed.

Lemma dash_in_combo (fmt_float : float -> string) (p : float * float) (filt : string) :
  In "-"%char (list_ascii_of_string (perturb_auf_combo fmt_float p filt)).
Proof.
  unfold perturb_auf_combo. rewrite list_ascii_of_string_app. apply in_or_app. right.
  simpl. left. reflexivity.
Qed.

Lemma combo_is_no_grid_name (fmt_float : float -> string) (p : float * float) (filt : string) :
  perturb_auf_combo fmt_float p filt <> "fourier_grid"%string
  /\ perturb_auf_combo fmt_float p filt <> "frac_grid"%string
  /\ perturb_auf_combo fmt_float p filt <> "flux_grid"%string.
Proof.
  pose proof (dash_in_combo fmt_float p filt) as H.
  repeat split; intro E; rewrite E in H; simpl in H; intuition discriminate.
Qed.

Lemma dict_get_map {V W : Type} (f : V -> W) (key : string) (d : list (string * V)) :
  dict_get key (map (fun kv => (fst kv, f (snd kv))) d) = option_map f (dict_get key d).
Proof.
  induction d as [|[k v] d IH]; simpl; [reflexivity|].
  destruct (String.eqb k key); [reflexivity | exact IH].
Qed.

Lemma dict_get_fold_keep {V : Type} (b : V) (key : string) (keys : list string) :
  forall d : list (string * V),
    dict_get key d = Some b ->
    dict_get key (fold_left (fun d' k => dict_set k b d') keys d) = Some b.
Proof.
  induction keys as [|k keys IH]; intros d H; simpl; [exact H|].
  apply IH. destruct (String.eqb_spec key k) as [->|Hne].
  - apply dict_get_set.
  - rewrite dict_get_set_other by exact Hne. exact H.
Qed.

Lemma dict_get_fold_set {V : Type} (b : V) (key : string) (keys : list string) :
  forall d : list (string * V),
    In key keys ->
    dict_get key (fold_left (fun d' k => dict_set k b d') keys d) = Some b.
Proof.
  induction keys as [|k keys IH]; intros d H; simpl; [destruct H|].
  destruct H as [->|H].
  - apply dict_get_fold_keep, dict_get_set.
  - now apply IH.
Qed.

Lemma bundle_everywhere_set {grid : Type} (fmt_float : float -> string)
  (auf_points : list (float * float)) (filters : list string) (b : auf_output)
  (d : list (string * output_value grid)) (name : string) (g : grid) :
  (forall p filt, perturb_auf_combo fmt_float p filt <> name) ->
  bundle_everywhere fmt_float auf_points filters b d ->
  bundle_everywhere fmt_float auf_points filters b (dict_set name (Grid g) d).
Proof.
  intros Hname H p filt Hp Hf. rewrite dict_get_set_other by apply Hname. now apply H.
Qed.

(** *** [arraylengths] after the loops *)

Lemma assigned_const {V : Type} (v : V) (a b : nat) (log : list (nat * nat * V)) :
  forall default : V,
    Forall (fun e => snd e = v) log ->
    default = v \/ In (a, b) (map fst log) ->
    assigned default log a b = v.
Proof.
  unfold assigned. induction log as [|[[a' b'] v'] log IH]; intros default Hall H.
  - simpl. destruct H as [H|[]]. exact H.
  - apply Forall_cons_iff in Hall as [Hv Hall']. simpl in Hv. subst v'.
    cbn [fold_left fst snd]. apply IH; [exact Hall'|]. cbn [map fst In] in H.
    destruct (Nat.eqb_spec a' a) as [->|Ha]; cbn [andb].
    + destruct (Nat.eqb_spec b' b) as [->|Hb]; [now left|].
      destruct H as [H|[H|H]]; [now left | congruence | now right].
    + destruct H as [H|[H|H]]; [now left | congruence | now right].
Qed.

Lemma map_all_equal {A B : Type} (f : A -> B) (v : B) (xs : list A) :
  (forall x, In x xs -> f x = v) -> map f xs = repeat v (length xs).
Proof.
  intro H. induction xs as [|x xs IH]; simpl; [reflexivity|].
  rewrite H by now left. rewrite IH; [reflexivity|]. intros. apply H. now right.
Qed.

Lemma arraylengths_all_one (n_filters n_points : nat) :
  arraylengths_array n_filters n_points
    (map (fun ji => (ji, 1%Z)) (visited n_filters 0 n_points))
  = repeat (repeat 1%Z n_points) n_filters.
Proof.
  unfold arraylengths_array.
  rewrite (map_all_equal _ (repeat 1%Z n_points)); [now rewrite length_seq|].
  intros j Hj.
  rewrite (map_all_equal _ 1%Z); [now rewrite length_seq|].
  intros i Hi.
  apply assigned_const.
  - rewrite Forall_map. apply Forall_forall. intros; reflexivity.
  - right. rewrite map_map. cbn [fst]. rewrite map_id.
    unfold visited. apply in_flat_map. exists i. split; [exact Hi|].
    apply in_map_iff. exists j. split; [reflexivity | exact Hj].
Qed.

(** X16: without the perturbation component, a call of [make_perturb_aufs]
    that returns gives: zero in the first row of [modelrefinds] for every
    source, [magref] in the second and the nearest sky position in the
    third; the bundle of the Dirac delta under the key of every sky position
    and filter, also after the three grids were added to the dictionary; and
    the three grids, each made by [create_auf_params_grid] from a dictionary
    with those bundles and from an [arraylengths] that is one everywhere. *)
Theorem without_perturbation_every_source_refers_to_the_delta :
  forall (fmt_float : float -> string) (auf_folder : string)
         (path_exists : string -> bool) (makedirs : string -> py unit)
         (find_nearest_point : list astro_row -> list (float * float) -> list nat)
         min_max_lon np_linspace density_magnitudes fetch_trilegal local_density
         single_perturb_auf (grid : Type)
         (create_auf_params_grid :
            list (string * output_value grid) -> list (float * float) -> list string ->
            string -> list (list Z) -> option Z -> py grid)
         (c : config) (r0 r1 dr0 : float) (rs drs : list float) (j0 : np.array2)
         (cat : catalogue) (filters : list string) (auf_points : list (float * float))
         (res : perturb_aufs_result grid),
    include_perturb_auf c = false ->
    j0s c = Some j0 ->
    make_perturb_aufs fmt_float auf_folder path_exists makedirs find_nearest_point
      min_max_lon np_linspace density_magnitudes fetch_trilegal local_density
      single_perturb_auf (perturb_aufs_result grid)
      (finish fmt_float grid create_auf_params_grid filters auf_points)
      c cat filters auf_points (r0 :: r1 :: rs) (dr0 :: drs) = inr res ->
    (exists row1,
        assign_row (length (a_tot_astro cat)) (magref cat) = inr row1
        /\ modelrefinds res
           = [repeat 0%Z (length (a_tot_astro cat)); row1;
              map Z.of_nat (find_nearest_point (a_tot_astro cat) auf_points)])
    /\ bundle_everywhere fmt_float auf_points filters
         (delta_bundle r0 dr0 (S (length rs)) (length (np.rows j0))) (outputs res)
    /\ forall name len_first_axis,
         In (name, len_first_axis)
            [("fourier", Some (Z.of_nat (length (np.rows j0))));
             ("frac", Some (match delta_mag_cuts c with
                            | None => 2%Z
                            | Some cuts => Z.of_nat (length cuts)
                            end));
             ("flux", None)]%string ->
         exists d g,
           bundle_everywhere fmt_float auf_points filters
             (delta_bundle r0 dr0 (S (length rs)) (length (np.rows j0))) d
           /\ create_auf_params_grid d auf_points filters name
                (repeat (repeat 1%Z (length auf_points)) (length filters)) len_first_axis
              = inr g
           /\ dict_get (name ++ "_grid") (outputs res) = Some (Grid g).
Proof.
  intros fmt_float auf_folder path_exists makedirs find_nearest_point min_max_lon
    np_linspace density_magnitudes fetch_trilegal local_density single_perturb_auf
    grid create_grid c r0 r1 dr0 rs drs j0 cat filters auf_points res Hoff Hj0 H.
  unfold make_perturb_aufs in H. rewrite (check_arguments_off c Hoff) in H. cbn [bind] in H.
  rewrite (tiles_loop_off fmt_float auf_folder path_exists makedirs min_max_lon np_linspace
             density_magnitudes fetch_trilegal local_density single_perturb_auf
             c r0 r1 dr0 rs drs j0 cat Hoff Hj0) in H.
  destruct (for_each _ auf_points) as [e|made]; [discriminate|].
  cbn [bind ret] in H. unfold finish in H. rewrite Hoff, Hj0 in H. cbn [bind ret] in H.
  unfold stored_deltas in H. cbn [perturb_auf_outputs arraylengths initial_state app] in H.
  rewrite arraylengths_all_one in H.
  set (bundle := delta_bundle r0 dr0 (S (length rs)) (length (np.rows j0))) in *.
  set (ones := repeat (repeat 1%Z (length auf_points)) (length filters)) in *.
  set (d0 := map (fun kv => (fst kv, Bundle (snd kv))) _) in H.
  assert (H0 : bundle_everywhere fmt_float auf_points filters bundle d0).
  { intros p filt Hp Hf. unfold d0. rewrite dict_get_map, dict_get_fold_set; [reflexivity|].
    apply in_flat_map. exists p. split; [exact Hp|]. now apply in_map. }
  destruct (assign_row _ _) as [e|row1] eqn:Hrow; [discriminate|]. cbn [bind] in H.
  destruct (create_grid d0 _ _ _ _ _) as [e|g1] eqn:E1; [discriminate|]. cbn [bind] in H.
  set (d1 := dict_set "fourier_grid" (Grid g1) d0) in *.
  destruct (create_grid d1 _ _ _ _ _) as [e|g2] eqn:E2; [discriminate|]. cbn [bind] in H.
  set (d2 := dict_set "frac_grid" (Grid g2) d1) in *.
  destruct (create_grid d2 _ _ _ _ _) as [e|g3] eqn:E3; [discriminate|]. cbn [bind] in H.
  injection H as <-. cbn [modelrefinds outputs].
  assert (H1 : bundle_everywhere fmt_float auf_points filters bundle d1).
  { apply bundle_everywhere_set; [|exact H0]. intros. apply combo_is_no_grid_name. }
  assert (H2 : bundle_everywhere fmt_float auf_points filters bundle d2).
  { apply bundle_everywhere_set; [|exact H1]. intros. apply combo_is_no_grid_name. }
  split; [exists row1; split; reflexivity|]. split.
  - apply bundle_everywhere_set; [|exact H2]. intros. apply combo_is_no_grid_name.
  - intros name len_first_axis [[= <- <-]|[[= <- <-]|[[= <- <-]|[]]]]; cbn [String.append].
    + exists d0, g1. split; [exact H0|]. split; [exact E1|].
      unfold d2, d1. rewrite !dict_get_set_other by discriminate. apply dict_get_set.
    + exists d1, g2. split; [exact H1|]. split; [exact E2|].
      unfold d2. rewrite dict_get_set_other by discriminate. apply dict_get_set.
    + exists d2, g3. split; [exact H2|]. split; [exact E3|]. apply dict_get_set.
Qed.

Lemma without_perturbation_every_source_refers_to_the_delta_witness :
  exists res,
    make_perturb_aufs fmt_table "auf" (fun _ => false) (fun _ => inr tt)
      (fun _ _ => [0%nat; 0%nat]) flat_min_max_lon linspace_formula
      (fun _ _ => []) (fun _ _ _ _ => inl (HTTPError "no network"))
      (fun _ _ _ _ _ => inl IndexError) (fun _ _ _ _ _ _ _ _ => inl (ValueError "no simulation"))
      (perturb_aufs_result unit)
      (finish fmt_table unit (fun _ _ _ _ _ _ => inr tt) ["W1"%string] [(10, 0)%float])
      no_perturbation_config two_sources ["W1"%string] [(10, 0)%float]
      [0; 0.1; 0.2]%float [0.1; 0.1]%float = inr res
    /\ modelrefinds res = [[0; 0]; [0; 0]; [0; 0]]%Z
    /\ bundle_everywhere fmt_table [(10, 0)%float] ["W1"%string] (delta_bundle 0 0.1 2 2)
         (outputs res).
Proof.
  eexists. split; [reflexivity|].
  destruct (without_perturbation_every_source_refers_to_the_delta fmt_table
              "auf"%string (fun _ => false) (fun _ => inr tt)
              (fun _ _ => [0%nat; 0%nat]) flat_min_max_lon linspace_formula
              (fun _ _ => []) (fun _ _ _ _ => inl (HTTPError "no network"))
              (fun _ _ _ _ _ => inl IndexError)
              (fun _ _ _ _ _ _ _ _ => inl (ValueError "no simulation"))
              unit (fun _ _ _ _ _ _ => inr tt)
              no_perturbation_config 0%float 0.1%float 0.1%float [0.2%float] [0.1%float]
              (np.ones2 2 3) two_sources ["W1"%string] [(10, 0)%float] _
              eq_refl eq_refl eq_refl) as [[row1 [Hrow Hm]] [Hb _]].
  split; [|exact Hb].
  rewrite Hm. injection Hrow as <-. reflexivity.
Defined.

End off_properties.

(** ** make_perturb_aufs: the combination a source refers to *)

Module nearest_properties.

Import perturbation_auf.
Import perturbation_properties.
Import float_facts.
Import float_order.
Import loop_properties.
Import finish_properties.

Lemma item_nth_error {A : Type} (i : nat) (xs : list A) (x : A) :
  nth_error xs i = Some x -> np.item i xs = inr x.
Proof.
  intro H. unfold np.item. now rewrite H.
Qed.

Lemma map2_nil_inv {A B C : Type} (f : A -> B -> C) (xs : list A) (ys : list B) :
  xs <> [] -> length ys = length xs -> np.map2 f xs ys <> [].
Proof.
  destruct xs, ys; simpl; intros; congruence.
Qed.

Section NearestCombination.

Variable fmt_float : float -> string.
Variable filters : list string.
Variable auf_points : list (float * float).
Variable cat : catalogue.
Variable tiles : list nat.
Variable st : loop_state.

Variables i axind j : nat.
Variable p : float * float.
Variable filt : string.
Variable out : auf_output.
Variables Ns Ms row : list float.
Variable m : float.

Hypothesis source_tile : nth_error tiles i = Some axind.
Hypothesis source_filter : nth_error (magref cat) i = Some (Z.of_nat j).
Hypothesis tile_point : nth_error auf_points axind = Some p.
Hypothesis filter_name : nth_error filters j = Some filt.
Hypothesis bundle_stored :
  dict_get (perturb_auf_combo fmt_float p filt) (perturb_auf_outputs st) = Some out.
Hypothesis bundle_narray : dict_get "Narray" out = Some (np.Floats Ns).
Hypothesis bundle_magarray : dict_get "magarray" out = Some (np.Floats Ms).
Hypothesis some_combination : Ns <> [].
Hypothesis same_length : length Ms = length Ns.
Hypothesis length_recorded : assigned 0%Z (arraylengths st) j axind = Z.of_nat (length Ns).
Hypothesis source_row : nth_error (np.rows (a_tot_photo cat)) i = Some row.
Hypothesis source_magnitude : nth_error row j = Some m.

Let distances := nm_distances (assigned 0%float (local_n st) i j) m Ns Ms.

Hypothesis no_nan : Forall (fun d => PrimFloat.is_nan d = false) distances.

Lemma fill_arrays_column (columns : list (list (list float * list float))) :
  fill_arrays fmt_float filters auf_points st = inr columns ->
  exists columns_i rest_n rest_m,
    nth_error columns axind = Some columns_i
    /\ nth_error columns_i j = Some ((Ns ++ rest_n)%list, (Ms ++ rest_m)%list).
Proof.
  unfold fill_arrays. intro H.
  destruct (amax_Z _) as [e|longestnm]; [discriminate|]. cbn [bind] in H.
  destruct (for_each_nth _ _ _ H) as [_ Hnth].
  destruct (Hnth axind (axind, p) (enumerate_nth _ _ _ tile_point)) as [columns_i [Hc Hi]].
  cbn [fst snd] in Hi.
  destruct (for_each_nth _ _ _ Hi) as [_ Hnth'].
  destruct (Hnth' j (j, filt) (enumerate_nth _ _ _ filter_name)) as [column [Hcol Hfill]].
  cbn [fst snd] in Hfill.
  destruct (fill_column_combination fmt_float st longestnm axind p j filt out Ns Ms
              length_recorded some_combination same_length bundle_stored
              bundle_narray bundle_magarray) as [rest_n [rest_m E]].
  rewrite E in Hfill. injection Hfill as <-. eauto 6.
Qed.

Lemma nm_index_nearest (columns : list (list (list float * list float))) :
  fill_arrays fmt_float filters auf_points st = inr columns ->
  exists k dk,
    nm_index filters cat tiles st columns i = inr (Z.of_nat k)
    /\ first_smallest distances k dk.
Proof.
  intro H.
  destruct (fill_arrays_column columns H) as [columns_i [rest_n [rest_m [Hc Hcol]]]].
  assert (Hj : j < length filters) by (apply nth_error_Some; congruence).
  assert (Hjr : j < length row) by (apply nth_error_Some; congruence).
  destruct (argmin_spec distances) as [k [dk [Ha Hs]]].
  { apply map2_nil_inv; assumption. }
  { exact no_nan. }
  exists k, dk. split; [|exact Hs].
  unfold nm_index.
  rewrite (item_nth_error _ _ _ source_tile). cbn [bind].
  rewrite (item_nth_error _ _ _ source_filter). cbn [bind].
  rewrite (wrap_index_nat _ _ Hj). cbn [bind].
  rewrite (item_nth_error _ _ _ Hc). cbn [bind].
  rewrite (item_nth_error _ _ _ Hcol). cbn [bind].
  rewrite (item_nth_error _ _ _ source_row). cbn [bind].
  unfold py_item. rewrite (wrap_index_nat _ _ Hjr). cbn [bind].
  rewrite (item_nth_error _ _ _ source_magnitude). cbn [bind fst snd].
  rewrite length_recorded, Nat2Z.id, firstn_app_exact.
  rewrite <- same_length, firstn_app_exact.
  fold distances. rewrite Ha. reflexivity.
Qed.

End NearestCombination.

(** X17: with the perturbation component on, the entry of the first row of
    [modelrefinds] for a source is the position, among the density-magnitude
    combinations simulated for its sky position and best filter, of the
    combination nearest to the source's local density and magnitude: no
    other combination is nearer, and any earlier one is strictly
    further away.  The distances are those of line 465-468, and none is
    NaN. *)
Theorem each_source_refers_to_its_nearest_combination :
  forall (fmt_float : float -> string) (grid : Type)
         (create_auf_params_grid :
            list (string * output_value grid) -> list (float * float) -> list string ->
            string -> list (list Z) -> option Z -> py grid)
         (filters : list string) (auf_points : list (float * float)) (c : config)
         (cat : catalogue) (tiles : list nat) (st : loop_state)
         (res : perturb_aufs_result grid)
         (i axind j : nat) (p : float * float) (filt : string) (out : auf_output)
         (Ns Ms row : list float) (m : float),
    include_perturb_auf c = true ->
    finish fmt_float grid create_auf_params_grid filters auf_points c cat tiles st
    = inr res ->
    nth_error tiles i = Some axind ->
    nth_error (magref cat) i = Some (Z.of_nat j) ->
    nth_error auf_points axind = Some p ->
    nth_error filters j = Some filt ->
    dict_get (perturb_auf_combo fmt_float p filt) (perturb_auf_outputs st) = Some out ->
    dict_get "Narray" out = Some (np.Floats Ns) ->
    dict_get "magarray" out = Some (np.Floats Ms) ->
    Ns <> [] ->
    length Ms = length Ns ->
    assigned 0%Z (arraylengths st) j axind = Z.of_nat (length Ns) ->
    nth_error (np.rows (a_tot_photo cat)) i = Some row ->
    nth_error row j = Some m ->
    Forall (fun d => PrimFloat.is_nan d = false)
           (nm_distances (assigned 0%float (local_n st) i j) m Ns Ms) ->
    exists k dk,
      nth_error (nth 0 (modelrefinds res) []) i = Some (Z.of_nat k)
      /\ first_smallest (nm_distances (assigned 0%float (local_n st) i j) m Ns Ms) k dk.
Proof.
  intros fmt_float grid create_grid filters auf_points c cat tiles st res
    i axind j p filt out Ns Ms row m Hinc H Ht Hf Hp Hfi Hout Hn Hm Hne Hlen HL Hrow Hmag Hnan.
  unfold finish in H. rewrite Hinc in H.
  destruct (fill_arrays fmt_float filters auf_points st) as [e|columns] eqn:Hcols;
    [discriminate|]. cbn [bind] in H.
  destruct (for_each _ _) as [e|nm] eqn:Hnm; [discriminate|]. cbn [bind ret] in H.
  destruct (assign_row _ _) as [e|row1]; [discriminate|]. cbn [bind] in H.
  destruct (j0s c) as [j0|]; [|discriminate]. cbn [bind ret] in H.
  destruct (create_grid _ _ _ "fourier"%string _ _) as [e|g1]; [discriminate|]. cbn [bind] in H.
  destruct (create_grid _ _ _ "frac"%string _ _) as [e|g2]; [discriminate|]. cbn [bind] in H.
  destruct (create_grid _ _ _ "flux"%string _ _) as [e|g3]; [discriminate|]. cbn [bind] in H.
  injection H as <-. cbn [modelrefinds nth].
  destruct (nm_index_nearest fmt_float filters auf_points cat tiles st i axind j p filt out
              Ns Ms row m Ht Hf Hp Hfi Hout Hn Hm Hne Hlen HL Hrow Hmag Hnan columns Hcols)
    as [k [dk [Hk Hs]]].
  exists k, dk. split; [|exact Hs].
  destruct (for_each_nth _ _ _ Hnm) as [Hlen_nm Hnth].
  assert (Hi : i < length (np.rows (a_tot_photo cat)))
    by (apply nth_error_Some; congruence).
  destruct (Hnth i i) as [y [Hy Hyi]].
  { rewrite nth_error_seq.
    destruct (Nat.ltb_spec i (length (np.rows (a_tot_photo cat)))); [reflexivity|lia]. }
  rewrite Hk in Hyi. injection Hyi as <-.
  rewrite nth_error_app1; [exact Hy|]. rewrite Hlen_nm, length_seq. exact Hi.
Qed.

Lemma each_source_refers_to_its_nearest_combination_witness :
  exists res,
    finish fmt_table unit (fun _ _ _ _ _ _ => inr tt) ["W1"%string] [(10, 0)%float]
      flux_weighted_config two_sources [0; 0]%nat two_sources_state = inr res
    /\ exists k dk,
         nth_error (nth 0 (modelrefinds res) []) 1 = Some (Z.of_nat k)
         /\ first_smallest (nm_distances 4 16.5 [1; 2; 4]%float [15; 15; 16]%float) k dk.
Proof.
  eexists. split; [reflexivity|].
  apply (each_source_refers_to_its_nearest_combination fmt_table unit
           (fun _ _ _ _ _ _ => inr tt) ["W1"%string] [(10, 0)%float]
           flux_weighted_config two_sources [0; 0]%nat two_sources_state _
           1%nat 0%nat 0%nat (10, 0)%float "W1"%string three_combinations
           [1; 2; 4]%float [15; 15; 16]%float [16.5%float] 16.5%float);
    try reflexivity.
  - discriminate.
  - repeat constructor.
Defined.

End nearest_properties.

(** ** make_perturb_aufs: a best filter without combinations *)

Module unseen_filter_properties.

Import perturbation_auf.
Import perturbation_properties.
Import finish_properties.
Import nearest_properties.

(** X18: with the perturbation component on, a source whose sky position
    has no combination recorded for the source's best filter
    ([arraylengths[filterind, axind]] is zero, as the loop leaves it when no
    source of the sky position has a magnitude in that filter) keeps
    [make_perturb_aufs] from returning: the slices of [narrays] and
    [magarrays] for the source are empty and [np.argmin] of an empty array
    raises, unless an exception was raised before. *)
Theorem best_filter_without_combinations_is_fatal :
  forall (fmt_float : float -> string) (grid : Type)
         (create_auf_params_grid :
            list (string * output_value grid) -> list (float * float) -> list string ->
            string -> list (list Z) -> option Z -> py grid)
         (filters : list string) (auf_points : list (float * float)) (c : config)
         (cat : catalogue) (tiles : list nat) (st : loop_state) (i axind j : nat),
    include_perturb_auf c = true ->
    i < length (np.rows (a_tot_photo cat)) ->
    nth_error tiles i = Some axind ->
    nth_error (magref cat) i = Some (Z.of_nat j) ->
    j < length filters ->
    assigned 0%Z (arraylengths st) j axind = 0%Z ->
    exists e,
      finish fmt_float grid create_auf_params_grid filters auf_points c cat tiles st = inl e.
Proof.
  intros fmt_float grid create_grid filters auf_points c cat tiles st i axind j
    Hinc Hi Ht Hf Hj HL.
  destruct (finish _ _ _ _ _ _ _ _ _) as [e|res] eqn:H; [now exists e|]. exfalso.
  unfold finish in H. rewrite Hinc in H.
  destruct (fill_arrays fmt_float filters auf_points st) as [e|columns]; [discriminate|].
  cbn [bind] in H.
  destruct (for_each _ _) as [e|nm] eqn:Hnm; [discriminate|].
  destruct (for_each_nth _ _ _ Hnm) as [_ Hnth].
  destruct (Hnth i i) as [y [_ Hy]].
  { rewrite nth_error_seq.
    destruct (Nat.ltb_spec i (length (np.rows (a_tot_photo cat)))); [reflexivity|lia]. }
  unfold nm_index in Hy.
  rewrite (item_nth_error _ _ _ Ht) in Hy. cbn [bind] in Hy.
  rewrite (item_nth_error _ _ _ Hf) in Hy. cbn [bind] in Hy.
  rewrite (wrap_index_nat _ _ Hj) in Hy. cbn [bind] in Hy.
  destruct (np.item axind columns) as [e|columns_i]; [discriminate|]. cbn [bind] in Hy.
  destruct (np.item j columns_i) as [e|column]; [discriminate|]. cbn [bind] in Hy.
  destruct (np.item i (np.rows (a_tot_photo cat))) as [e|row]; [discriminate|].
  cbn [bind] in Hy.
  destruct (py_item (Z.of_nat j) row) as [e|m]; [discriminate|]. cbn [bind] in Hy.
  rewrite HL in Hy. discriminate Hy.
Qed.

Lemma best_filter_without_combinations_is_fatal_witness :
  exists e,
    finish fmt_table unit (fun _ _ _ _ _ _ => inr tt) ["W1"%string] [(10, 0)%float]
      flux_weighted_config two_sources [0; 0]%nat initial_state = inl e.
Proof.
  apply (best_filter_without_combinations_is_fatal fmt_table unit
           (fun _ _ _ _ _ _ => inr tt) ["W1"%string] [(10, 0)%float]
           flux_weighted_config two_sources [0; 0]%nat initial_state 0%nat 0%nat 0%nat);
    try reflexivity; simpl; lia.
Defined.

End unseen_filter_properties.

(** ** _calculate_magnitude_offsets: the depth of the simulated perturbers *)

Module depth_properties.

Import perturbation_auf.
Import perturbation_properties.
Import float_facts.
Import float_order.

(** *** Floats in ascending order *)

Lemma leb_true_not_nan (x y : float) :
  (x <=? y)%float = true -> PrimFloat.is_nan x = false /\ PrimFloat.is_nan y = false.
Proof.
  intro H. split.
  - destruct (PrimFloat.is_nan x) eqn:E; [|reflexivity].
    rewrite (leb_nan_l x y E) in H. discriminate.
  - destruct (PrimFloat.is_nan y) eqn:E; [|reflexivity].
    rewrite (leb_nan_r x y E) in H. discriminate.
Qed.

Lemma ltb_irrefl (x : float) : (x <? x)%float = false.
Proof.
  destruct (PrimFloat.is_nan x) eqn:E.
  - now apply ltb_nan_l.
  - rewrite ltb_spec. unfold SFltb. now rewrite (SFcompare_refl _ (not_nan_spec x E)).
Qed.

Lemma leb_not_ltb (x y : float) : (x <=? y)%float = true -> (y <? x)%float = false.
Proof.
  rewrite leb_spec, ltb_spec. unfold SFleb, SFltb.
  rewrite (SFcompare_antisym (Prim2SF x) (Prim2SF y)).
  destruct (SFcompare (Prim2SF x) (Prim2SF y)) as [[| |]|]; simpl; congruence.
Qed.

Lemma ascending_cons (x y : float) (xs : list float) :
  ascending (x :: y :: xs) = true -> (x <=? y)%float = true /\ ascending (y :: xs) = true.
Proof.
  unfold ascending. cbn [np.consecutive forallb fst snd]. apply andb_true_iff.
Qed.

Lemma ascending_nth (xs : list float) :
  ascending xs = true ->
  forall q q' a b,
    q < q' -> nth_error xs q = Some a -> nth_error xs q' = Some b -> (a <=? b)%float = true.
Proof.
  induction xs as [|x xs IH]; intros Hasc q q' a b Hlt Ha Hb.
  - destruct q; discriminate.
  - destruct xs as [|y xs].
    + destruct q' as [|[|q']]; [lia | discriminate | discriminate].
    + destruct (ascending_cons x y xs Hasc) as [Hxy Hrest].
      destruct q as [|q], q' as [|q']; try lia; cbn [nth_error] in Ha, Hb.
      * injection Ha as <-. destruct q' as [|q'].
        -- cbn in Hb. injection Hb as <-. exact Hxy.
        -- assert (Hyb : (y <=? b)%float = true).
           { apply (IH Hrest 0 (S q') y b); [lia | reflexivity | exact Hb]. }
           destruct (leb_true_not_nan _ _ Hxy) as [Hx Hy].
           destruct (leb_true_not_nan _ _ Hyb) as [_ Hbn].
           exact (leb_trans x y b Hx Hy Hbn Hxy Hyb).
      * apply (IH Hrest q q' a b); [lia | exact Ha | exact Hb].
Qed.

Section DepthFacts.

Variables np_log10 np_log : float -> float.
Variable np_power : float -> float -> float.

Let thr := (- np_log 0.01)%float.

(** The running total from [acc] through the bin [q]. *)
Let total (acc : float) (bins : list (float * float)) (q : nat) : float :=
  fold_left PrimFloat.add (map snd (firstn (S q) bins)) acc.

Lemma first_bin_reaching_from (bins : list (float * float)) :
  forall (acc m : float),
    first_bin_reaching np_log (Some acc) bins = Some m ->
    (exists q e,
        nth_error bins q = Some (m, e)
        /\ (thr <=? total acc bins q)%float = true
        /\ forall q', q' < q -> (thr <=? total acc bins q')%float = false)
    \/ ((forall q', q' < length bins -> (thr <=? total acc bins q')%float = false)
        /\ exists e, nth_error bins (length bins - 1) = Some (m, e)).
Proof.
  induction bins as [|[m0 e0] bins IH]; intros acc m H; [discriminate|].
  cbn [first_bin_reaching] in H. unfold no_perturber_threshold in H. fold thr in H.
  destruct (thr <=? acc + e0)%float eqn:E.
  - injection H as <-. left. exists 0, e0. split; [reflexivity|]. split; [exact E|].
    intros q' Hq'. lia.
  - destruct (first_bin_reaching np_log (Some (acc + e0)%float) bins) as [m'|] eqn:F.
    + injection H as <-.
      destruct (IH _ _ F) as [[q [e [Hq [Hr Hfirst]]]]|[Hnone [e He]]].
      * left. exists (S q), e. split; [exact Hq|]. split; [exact Hr|].
        intros [|q'] Hq'; [exact E|]. apply Hfirst. lia.
      * right. split.
        -- intros [|q'] Hq'; [exact E|]. apply Hnone. cbn [length] in Hq'. lia.
        -- exists e. destruct bins as [|b bins]; [discriminate|].
           replace (length ((m0, e0) :: b :: bins) - 1) with (S (length (b :: bins) - 1))
             by (cbn [length]; lia).
           exact He.
    + injection H as <-.
      destruct bins as [|b bins].
      * right. split; [|exists e0; reflexivity].
        intros [|q'] Hq'; [exact E | cbn [length] in Hq'; lia].
      * destruct (first_bin_reaching_some np_log (Some (acc + e0)%float) (b :: bins))
          as [m' Hm']; [discriminate|]. congruence.
Qed.

Lemma first_bin_reaching_spec (bins : list (float * float)) (m : float) :
  first_bin_reaching np_log None bins = Some m ->
  (exists q e,
      nth_error bins q = Some (m, e)
      /\ one_percent_reached np_log bins q = true
      /\ forall q', q' < q -> one_percent_reached np_log bins q' = false)
  \/ ((forall q', q' < length bins -> one_percent_reached np_log bins q' = false)
      /\ exists e, nth_error bins (length bins - 1) = Some (m, e)).
Proof.
  destruct bins as [|[m0 e0] bins]; [discriminate|]. intro H.
  assert (Htot : forall q, one_percent_reached np_log ((m0, e0) :: bins) (S q)
                           = (thr <=? total e0 bins q)%float) by reflexivity.
  assert (H0 : one_percent_reached np_log ((m0, e0) :: bins) 0 = (thr <=? e0)%float)
    by reflexivity.
  cbn [first_bin_reaching] in H. unfold no_perturber_threshold in H. fold thr in H.
  destruct (thr <=? e0)%float eqn:E.
  - injection H as <-. left. exists 0, e0. split; [reflexivity|]. split; [now rewrite H0|].
    intros q' Hq'. lia.
  - destruct (first_bin_reaching np_log (Some e0) bins) as [m'|] eqn:F.
    + injection H as <-.
      destruct (first_bin_reaching_from _ _ _ F) as [[q [e [Hq [Hr Hfirst]]]]|[Hnone [e He]]].
      * left. exists (S q), e. split; [exact Hq|]. split; [now rewrite Htot|].
        intros [|q'] Hq'; [now rewrite H0|]. rewrite Htot. apply Hfirst. lia.
      * right. split.
        -- intros [|q'] Hq'; [now rewrite H0|]. rewrite Htot. apply Hnone.
           cbn [length] in Hq'. lia.
        -- exists e. destruct bins as [|b bins]; [discriminate|].
           replace (length ((m0, e0) :: b :: bins) - 1) with (S (length (b :: bins) - 1))
             by (cbn [length]; lia).
           exact He.
    + injection H as <-.
      destruct bins as [|b bins].
      * right. split; [|exists e0; reflexivity].
        intros [|q'] Hq'; [now rewrite H0 | cbn [length] in Hq'; lia].
      * destruct (first_bin_reaching_some np_log (Some e0) (b :: bins))
          as [m' Hm']; [discriminate|]. congruence.
Qed.

Lemma offsets_nth (bins : list (float * float)) (mag : float) (q : nat) (m e : float) :
  nth_error bins q = Some (m, e) -> nth_error (offsets bins mag) q = Some (m - mag)%float.
Proof.
  intro H. unfold offsets. rewrite nth_error_map, H. reflexivity.
Qed.

Lemma offsets_fainter_bins (mids log10y interval : list float) (r n_norm count mag : float) :
  length log10y = length mids -> length interval = length mids ->
  offsets (fainter_bins np_power mids log10y interval r n_norm count mag) mag
  = fainter_offsets mids mag.
Proof.
  unfold offsets, fainter_bins, fainter_offsets. revert log10y interval.
  induction mids as [|m mids IH]; intros [|l ls] [|w ws] Hl Hw; try discriminate;
    [reflexivity|].
  injection Hl as Hl. injection Hw as Hw. cbn [combine filter].
  destruct (mag <=? m)%float; cbn [map fst]; rewrite (IH ls ws Hl Hw); reflexivity.
Qed.

(** The bin the code picks gives the depth of the specification when the
    offsets of the bins ascend. *)
Lemma first_bin_reaching_depth (bins : list (float * float)) (mag m : float) :
  ascending (offsets bins mag) = true ->
  first_bin_reaching np_log None bins = Some m ->
  no_perturber_depth np_log bins mag (m - mag)%float.
Proof.
  intros Hasc H.
  assert (Hlen : length (offsets bins mag) = length bins) by apply length_map.
  destruct (first_bin_reaching_spec bins m H) as [[q [e [Hq [Hr Hfirst]]]]|[Hnone [e He]]].
  - left. exists q. split; [eapply offsets_nth; eauto|]. split; [exact Hr|].
    intros q' o' Ho' Hr'.
    destruct (Nat.lt_trichotomy q' q) as [Hlt|[->|Hgt]].
    + rewrite (Hfirst q' Hlt) in Hr'. discriminate.
    + rewrite (offsets_nth bins mag q m e Hq) in Ho'. injection Ho' as <-.
      apply ltb_irrefl.
    + apply leb_not_ltb.
      exact (ascending_nth _ Hasc q q' _ _ Hgt (offsets_nth bins mag q m e Hq) Ho').
  - right. split; [exact Hnone|].
    pose proof (offsets_nth bins mag _ m e He) as Hlast.
    split; [eapply nth_error_In; eauto|].
    intros o' Hin. apply In_nth_error in Hin. destruct Hin as [q' Ho'].
    assert (Hq' : q' < length bins).
    { rewrite <- Hlen. apply nth_error_Some. congruence. }
    destruct (Nat.eq_dec q' (length bins - 1)) as [->|Hne].
    + rewrite Hlast in Ho'. injection Ho' as <-. apply ltb_irrefl.
    + apply leb_not_ltb.
      apply (ascending_nth _ Hasc q' (length bins - 1) _ _); [lia | exact Ho' | exact Hlast].
Qed.

End DepthFacts.

(** C4: for every pair of a magnitude and a density, [dm_max] is [np.maximum]
    of (a) [-2.5 * log10(b / snr)] and (b) the depth at which the chance of no
    perturber falls to 1%: among the model bins at or fainter than the
    magnitude, whose expected numbers of perturbers are added up in order, the
    smallest offset of a bin through which that running total is at least
    [-ln(0.01)], or the deepest offset simulated when no bin reaches it; and
    [np.maximum] of two numbers is the larger of them.  The bins are taken in
    order of ascending offset from the magnitude. *)
Theorem dm_max_is_the_larger_depth :
  forall (np_log10 np_log : float -> float) (np_power : float -> float -> float),
    (forall (count_array mag_array : list float) (b : float)
            (snr model_mag_mids log10y model_mags_interval : list float) (r n_norm : float),
        length log10y = length model_mag_mids ->
        length model_mags_interval = length model_mag_mids ->
        length count_array = length mag_array ->
        length snr = length mag_array ->
        (forall mag, In mag mag_array ->
                     existsb (fun m => (mag <=? m)%float) model_mag_mids = true) ->
        (forall mag, In mag mag_array ->
                     ascending (fainter_offsets model_mag_mids mag) = true) ->
        exists dm,
          _calculate_magnitude_offsets np_log10 np_log np_power count_array mag_array b snr
            model_mag_mids log10y model_mags_interval r n_norm = inr dm
          /\ length dm = length mag_array
          /\ forall k count mag s,
               nth_error count_array k = Some count ->
               nth_error mag_array k = Some mag ->
               nth_error snr k = Some s ->
               exists offset,
                 nth_error dm k
                 = Some (np.maximum1 (-2.5 * np_log10 (b / s))%float offset)
                 /\ no_perturber_depth np_log
                      (fainter_bins np_power model_mag_mids log10y model_mags_interval
                         r n_norm count mag)
                      mag offset)
    /\ (forall x y : float,
          PrimFloat.is_nan x = false -> PrimFloat.is_nan y = false ->
          (np.maximum1 x y = x \/ np.maximum1 x y = y)
          /\ (x <=? np.maximum1 x y)%float = true
          /\ (y <=? np.maximum1 x y)%float = true).
Proof.
  intros np_log10 np_log np_power. split; [|apply maximum1_is_the_larger].
  intros count_array mag_array b snr mids log10y interval r n_norm Hl Hw Hc Hs Hbins Hasc.
  destruct (calculate_magnitude_offsets_spec np_log10 np_log np_power count_array mag_array
              b snr mids log10y interval r n_norm Hl Hw Hc Hs Hbins) as [dm [Hdm [Hlen Hk]]].
  exists dm. split; [exact Hdm|]. split; [exact Hlen|].
  intros k count mag s Ec Em Es.
  destruct (Hk k count mag s Ec Em Es) as [m [Hm Hnth]].
  exists (m - mag)%float. split; [exact Hnth|].
  apply first_bin_reaching_depth; [|exact Hm].
  rewrite (offsets_fainter_bins np_power mids log10y interval r n_norm count mag Hl Hw).
  apply Hasc. eapply nth_error_In; eauto.
Qed.

(** Three sources of magnitudes 15, 16 and 17 in front of three model bins
    that each hold [pi] expected perturbers: the first is set by its
    signal-to-noise ratio, the second by the second bin it meets, the third
    by the only bin left. *)
Example dm_max_of_three_sources :
  _calculate_magnitude_offsets log10_table log_table power_table
    [1000; 1000; 1000]%float [15; 16; 17]%float 0.05%float [5; 0.05; 0.05]%float
    [15.5; 16.5; 17.5]%float [0; 0; 0]%float [1; 1; 1]%float 3600%float 1000%float
  = inr [5; 1.5; 0.5]%float.
Proof. vm_compute. reflexivity. Qed.

Lemma dm_max_is_the_larger_depth_witness :
  exists dm,
    _calculate_magnitude_offsets log10_table log_table power_table
      [1000; 1000; 1000]%float [15; 16; 17]%float 0.05%float [5; 0.05; 0.05]%float
      [15.5; 16.5; 17.5]%float [0; 0; 0]%float [1; 1; 1]%float 3600%float 1000%float
    = inr dm
    /\ length dm = 3
    /\ forall k count mag s,
         nth_error [1000; 1000; 1000]%float k = Some count ->
         nth_error [15; 16; 17]%float k = Some mag ->
         nth_error [5; 0.05; 0.05]%float k = Some s ->
         exists offset,
           nth_error dm k
           = Some (np.maximum1 (-2.5 * log10_table (0.05 / s))%float offset)
           /\ no_perturber_depth log_table
                (fainter_bins power_table [15.5; 16.5; 17.5]%float [0; 0; 0]%float
                   [1; 1; 1]%float 3600%float 1000%float count mag)
                mag offset.
Proof.
  apply (proj1 (dm_max_is_the_larger_depth log10_table log_table power_table));
    try reflexivity.
  - intros mag [<-|[<-|[<-|[]]]]; reflexivity.
  - intros mag [<-|[<-|[<-|[]]]]; reflexivity.
Defined.

End depth_properties.

(** ** make_perturb_aufs: an argument the checks leave out *)

Module unchecked_argument.

Import perturbation_auf.
Import perturbation_properties.
Import off_properties.

(** C8: [j0s], which every mode reads (lines 352, 415 and 487), is checked
    only when [include_perturb_auf] is set. With it set and the arguments
    checked before it given, a [j0s] of [None] raises the [ValueError] that
    names it. Without it nothing is checked: the call passes the checks,
    makes the folder of the first sky position and raises [AttributeError] at
    [j0s.shape] for its first filter, after the catalogue was loaded. *)
Theorem j0s_is_checked_only_with_perturbation :
  (forall c : config,
      include_perturb_auf c = true ->
      given (tri_set_name c) && given (tri_filt_num c) && given (tri_filt_names c)
      && given (tri_maglim_faint c) && given (tri_num_faint c)
      && given (auf_region_frame c) && given (delta_mag_cuts c) && given (psf_fwhms c)
      && given (num_trials c) = true ->
      j0s c = None ->
      check_arguments c = inl (ValueError "j0s must be given if include_perturb_auf is True."))
  /\ (forall fmt_float auf_folder path_exists makedirs find_nearest_point min_max_lon
             np_linspace density_magnitudes fetch_trilegal local_density single_perturb_auf
             (result : Type)
             (finish : config -> catalogue -> list nat -> loop_state -> py result)
             (c : config) (cat : catalogue) (filt : string) (filters : list string)
             (p : float * float) (auf_points : list (float * float))
             (r0 r1 : float) (rs : list float) (dr0 : float) (drs : list float),
         include_perturb_auf c = false ->
         j0s c = None ->
         make_ax_folder fmt_float auf_folder path_exists makedirs p = inr tt ->
         check_arguments c = inr c
         /\ make_perturb_aufs fmt_float auf_folder path_exists makedirs find_nearest_point
              min_max_lon np_linspace density_magnitudes fetch_trilegal local_density
              single_perturb_auf result finish c cat (filt :: filters) (p :: auf_points)
              (r0 :: r1 :: rs) (dr0 :: drs)
            = inl AttributeError).
Proof.
  split.
  - intros c.
    destruct c as [inc j0 tdf dmc psf tsn tfn tfns tmf tnf arf nt dm dr rfw rpsf dd lc
                   snr al fg cmau wv zm nz ab fn a0 a1 aw].
    unfold check_arguments, given. cbn. intros -> H ->. revert H.
    destruct tsn; cbn; try discriminate. destruct tfn; cbn; try discriminate.
    destruct tfns; cbn; try discriminate. destruct tmf; cbn; try discriminate.
    destruct tnf; cbn; try discriminate. destruct arf; cbn; try discriminate.
    destruct dmc; cbn; try discriminate. destruct psf; cbn; try discriminate.
    destruct nt; cbn; try discriminate. reflexivity.
  - intros fmt_float auf_folder path_exists makedirs find_nearest_point min_max_lon
      np_linspace density_magnitudes fetch_trilegal local_density single_perturb_auf
      result finish c cat filt filters p auf_points r0 r1 rs dr0 drs Hoff Hj0 Hfolder.
    pose proof (check_arguments_off c Hoff) as Hcheck. split; [exact Hcheck|].
    unfold make_perturb_aufs. rewrite Hcheck. cbn [bind tiles_loop].
    unfold tile_step. rewrite Hfolder. cbn [bind]. rewrite Hoff. cbn [bind ret filters_loop].
    unfold filter_step. rewrite Hoff, Hj0. reflexivity.
Qed.

Lemma j0s_is_checked_only_with_perturbation_witness :
  check_arguments config_without_j0s = inr config_without_j0s
  /\ make_perturb_aufs fmt_table "auf" (fun _ => false) (fun _ => inr tt)
       (fun _ _ => [0%nat; 0%nat]) flat_min_max_lon linspace_formula
       (fun _ _ => []) (fun _ _ _ _ => inr tt) (fun _ _ _ _ _ => inr [])
       (fun _ _ _ _ _ _ _ _ => inr [])
       (perturb_aufs_result unit)
       (finish fmt_table unit (fun _ _ _ _ _ _ => inr tt) ["W1"%string] [(10, 0)%float])
       config_without_j0s two_sources ["W1"%string] [(10, 0)%float]
       [0; 0.1; 0.2]%float [0.1; 0.1]%float
     = inl AttributeError.
Proof.
  apply (proj2 j0s_is_checked_only_with_perturbation fmt_table "auf"%string
           (fun _ => false) (fun _ => inr tt)
           (fun _ _ => [0%nat; 0%nat]) flat_min_max_lon linspace_formula
           (fun _ _ => []) (fun _ _ _ _ => inr tt) (fun _ _ _ _ _ => inr [])
           (fun _ _ _ _ _ _ _ _ => inr [])
           (perturb_aufs_result unit)
           (finish fmt_table unit (fun _ _ _ _ _ _ => inr tt) ["W1"%string] [(10, 0)%float])
           config_without_j0s two_sources "W1"%string [] (10, 0)%float []
           0%float 0.1%float [0.2%float] 0.1%float [0.1%float]);
    reflexivity.
Defined.

End unchecked_argument.
